(** * webdav2s3: an S3 gateway in front of a WebDAV store

    Shallow embedding of the SigV4 engine ([src/s3/signature.ts],
    [src/s3/presign.ts]), the WebDAV client ([src/webdav/client.ts]) and the
    S3 operation adapter ([src/s3/operations.ts]).

    Strings are modelled as Rocq [string]s, i.e. byte sequences: a header
    value is a fetch ByteString (one byte per character), and other text is
    its UTF-8 encoding, which is what [TextEncoder] and [encodeURIComponent]
    work on.  Platform services that the code calls but does not implement
    (Web Crypto, the [Date] parser, the WHATWG URL parser,
    [decodeURIComponent]) are the methods of the [Host] class. *)

From Stdlib Require Import String Ascii ZArith List Bool Lia Permutation.
Import ListNotations.
Open Scope string_scope.

(** ** JavaScript string primitives *)
Module Js.

Definition code (c : ascii) : nat := nat_of_ascii c.

(** [\s] of a JavaScript regular expression and the characters removed by
    [String.prototype.trim], restricted to the Latin-1 range: TAB, LF, VT,
    FF, CR, SPACE and NO-BREAK SPACE. *)
Definition is_space (c : ascii) : bool :=
  let n := code c in
  (n =? 9)%nat || (n =? 10)%nat || (n =? 11)%nat || (n =? 12)%nat
  || (n =? 13)%nat || (n =? 32)%nat || (n =? 160)%nat.

Fixpoint trim_start (s : string) : string :=
  match s with
  | EmptyString => EmptyString
  | String c r => if is_space c then trim_start r else s
  end.

Fixpoint trim_end (s : string) : string :=
  match s with
  | EmptyString => EmptyString
  | String c r =>
      let r' := trim_end r in
      if is_space c && String.eqb r' "" then "" else String c r'
  end.

(** [s.trim()] *)
Definition trim (s : string) : string := trim_end (trim_start s).

(** [s.replace(/\s+/g, ' ')]: every maximal run of white space becomes one
    space; [in_run] says that the previous character was part of a run. *)
Fixpoint replace_ws_runs_from (in_run : bool) (s : string) : string :=
  match s with
  | EmptyString => EmptyString
  | String c r =>
      if is_space c then
        if in_run then replace_ws_runs_from true r
        else String " " (replace_ws_runs_from true r)
      else String c (replace_ws_runs_from false r)
  end.

Definition replace_ws_runs (s : string) : string := replace_ws_runs_from false s.

Definition is_upper (c : ascii) : bool := (65 <=? code c)%nat && (code c <=? 90)%nat.
Definition is_lower (c : ascii) : bool := (97 <=? code c)%nat && (code c <=? 122)%nat.
Definition is_digit (c : ascii) : bool := (48 <=? code c)%nat && (code c <=? 57)%nat.
Definition is_alpha (c : ascii) : bool := is_upper c || is_lower c.

Definition lower_char (c : ascii) : ascii :=
  if is_upper c then ascii_of_nat (code c + 32) else c.

(** [s.toLowerCase()] on ASCII text. *)
Fixpoint to_lower (s : string) : string :=
  match s with
  | EmptyString => EmptyString
  | String c r => String (lower_char c) (to_lower r)
  end.

Fixpoint starts_with (p s : string) : bool :=
  match p, s with
  | EmptyString, _ => true
  | String a p', String b s' => Ascii.eqb a b && starts_with p' s'
  | String _ _, EmptyString => false
  end.

(** Case-insensitive prefix test, as a literal of a regular expression
    with the [i] flag matches. *)
Fixpoint starts_with_ci (p s : string) : bool :=
  match p, s with
  | EmptyString, _ => true
  | String a p', String b s' => Ascii.eqb (lower_char a) (lower_char b) && starts_with_ci p' s'
  | String _ _, EmptyString => false
  end.

(** [arr.join(sep)] *)
Fixpoint join (sep : string) (l : list string) : string :=
  match l with
  | [] => ""
  | [x] => x
  | x :: r => x ++ sep ++ join sep r
  end.

(** [s.split(c)] for a one-character separator: always at least one piece. *)
Fixpoint split (c : ascii) (s : string) : list string :=
  match s with
  | EmptyString => [""]
  | String d r =>
      if Ascii.eqb c d then "" :: split c r
      else match split c r with
           | [] => [String d ""]
           | p :: ps => String d p :: ps
           end
  end.

(** [s.replace(/c/g, rep)] for a one-character pattern. *)
Fixpoint replace_char (c : ascii) (rep s : string) : string :=
  match s with
  | EmptyString => EmptyString
  | String d r => if Ascii.eqb c d then rep ++ replace_char c rep r else String d (replace_char c rep r)
  end.

Definition hex_digit_upper (n : nat) : ascii :=
  if (n <? 10)%nat then ascii_of_nat (48 + n) else ascii_of_nat (55 + n).
Definition hex_digit_lower (n : nat) : ascii :=
  if (n <? 10)%nat then ascii_of_nat (48 + n) else ascii_of_nat (87 + n).

(** [encodeURIComponent] on the UTF-8 bytes of its argument: the
    characters [A-Z a-z 0-9 - _ . ! ~ * ' ( )] are kept, every other byte
    becomes [%XX] with upper-case hex digits. *)
Definition uri_component_unreserved (c : ascii) : bool :=
  is_alpha c || is_digit c
  || existsb (fun d => Ascii.eqb c d) ["-"; "_"; "."; "!"; "~"; "*"; "'"; "("; ")"]%char.

Fixpoint encodeURIComponent (s : string) : string :=
  match s with
  | EmptyString => EmptyString
  | String c r =>
      if uri_component_unreserved c then String c (encodeURIComponent r)
      else String "%" (String (hex_digit_upper (code c / 16)) (String (hex_digit_upper (code c mod 16))
             (encodeURIComponent r)))
  end.

(** [s.replace(/%2F/gi, '/')]: a left-to-right scan. *)
Fixpoint unescape_slash (s : string) : string :=
  match s with
  | EmptyString => EmptyString
  | String c t =>
      if Ascii.eqb c "%" then
        match t with
        | String a (String b r) =>
            if Ascii.eqb a "2" && (Ascii.eqb b "F" || Ascii.eqb b "f")
            then String "/" (unescape_slash r)
            else String c (unescape_slash t)
        | _ => String c (unescape_slash t)
        end
      else String c (unescape_slash t)
  end.

(** Truthiness of a string-or-null value ([if (x)], [x || y]). *)
Definition truthy (o : option string) : bool :=
  match o with
  | Some s => negb (String.eqb s "")
  | None => false
  end.

(** Strings of the environment are held as their UTF-8 bytes.  A string
    has no character above U+00FF (the range [btoa] accepts) exactly when
    no byte of its UTF-8 form is 0xC4 or above: such bytes start the
    encodings of U+0100 and beyond, while U+0080..U+00FF are encoded
    with the lead bytes 0xC2 and 0xC3 and continuation bytes 0x80..0xBF. *)
Definition latin1_only (s : string) : bool :=
  forallb (fun c => (code c <? 196)%nat) (list_ascii_of_string s).

(** A string of ASCII characters only (one byte each in every encoding). *)
Definition ascii_only (s : string) : bool :=
  forallb (fun c => (code c <? 128)%nat) (list_ascii_of_string s).

End Js.

(** ** [String.prototype.localeCompare] and [Array.prototype.sort]

    The Workers runtime compares strings with ICU's root collation.  On
    ASCII text that is: control characters other than TAB..CR are ignored;
    the primary order is TAB LF VT FF CR SPACE, then
    [_ - , ; : ! ? .], apostrophe, double quote, [( ) [ ] { } @ * / \ & # %
    ` ^ + < = > | ~ $],
    then the digits, then the letters with upper and lower case equal; ties
    at the primary level are broken by case, lower case first.  Bytes above
    127 are placed after the letters by code (ICU orders them differently;
    the development only evaluates the comparison on ASCII text). *)
Module Collation.

Definition punctuation_order : list nat :=
  [9; 10; 11; 12; 13; 32; 95; 45; 44; 59; 58; 33; 63; 46; 39; 34; 40; 41; 91; 93;
   123; 125; 64; 42; 47; 92; 38; 35; 37; 96; 94; 43; 60; 61; 62; 124; 126; 36]%nat.

Fixpoint index_of (n : nat) (l : list nat) : option nat :=
  match l with
  | [] => None
  | m :: r => if (m =? n)%nat then Some 0%nat else option_map S (index_of n r)
  end.

Definition primary (c : ascii) : option nat :=
  let n := Js.code c in
  if Js.is_digit c then Some (100 + n)%nat
  else if Js.is_alpha c then Some (200 + Js.code (Js.lower_char c))%nat
  else if (128 <=? n)%nat then Some (400 + n)%nat
  else index_of n punctuation_order.

Definition tertiary (c : ascii) : nat := if Js.is_upper c then 1 else 0.

Fixpoint weights (s : string) : list (nat * nat) :=
  match s with
  | EmptyString => []
  | String c r =>
      match primary c with
      | Some p => (p, tertiary c) :: weights r
      | None => weights r
      end
  end.

Fixpoint lex (l1 l2 : list nat) : comparison :=
  match l1, l2 with
  | [], [] => Eq
  | [], _ => Lt
  | _, [] => Gt
  | a :: r1, b :: r2 => match Nat.compare a b with Eq => lex r1 r2 | c => c end
  end.

(** [a.localeCompare(b)]: primary level first, then the case level. *)
Definition localeCompare (a b : string) : comparison :=
  let wa := weights a in
  let wb := weights b in
  match lex (map fst wa) (map fst wb) with
  | Eq => lex (map snd wa) (map snd wb)
  | c => c
  end.

End Collation.

(** [arr.sort(cmp)] is stable; for a comparison that is a total preorder its
    result is the stable insertion sort below. *)
Module Sort.
Section Sort.
Context {A : Type} (cmp : A -> A -> comparison).

Fixpoint insert (x : A) (l : list A) : list A :=
  match l with
  | [] => [x]
  | y :: r => match cmp x y with Lt => x :: y :: r | _ => y :: insert x r end
  end.

Definition sort (l : list A) : list A := fold_left (fun acc x => insert x acc) l [].

Lemma insert_perm x l : Permutation (x :: l) (insert x l).
Proof.
  induction l as [|y r IH]; simpl; [constructor; constructor|].
  destruct (cmp x y); try reflexivity;
    (eapply perm_trans; [apply perm_swap|]; constructor; exact IH).
Qed.

Lemma sort_perm l : Permutation l (sort l).
Proof.
  unfold sort.
  assert (H : forall acc, Permutation (rev l ++ acc) (fold_left (fun acc x => insert x acc) l acc)).
  { induction l as [|x r IH]; intros acc; simpl; [reflexivity|].
    rewrite <- app_assoc; simpl.
    eapply perm_trans; [|apply IH].
    apply Permutation_app_head, insert_perm. }
  specialize (H []). rewrite app_nil_r in H.
  eapply perm_trans; [apply Permutation_rev|exact H].
Qed.

Lemma sort_length l : length (sort l) = length l.
Proof. symmetry; apply Permutation_length, sort_perm. Qed.

End Sort.
End Sort.

(** ** Numbers as the code prints and parses them *)
Module Num.

Fixpoint pos_digits (fuel : nat) (n : N) (acc : string) : string :=
  match fuel with
  | O => acc
  | S f =>
      let d := String (ascii_of_nat (48 + N.to_nat (N.modulo n 10))) "" in
      if (n <? 10)%N then d ++ acc else pos_digits f (N.div n 10) (d ++ acc)
  end.

(** [String(n)] for an integral number. *)
Definition to_string (z : Z) : string :=
  let s := pos_digits (S (N.to_nat (N.log2 (Z.to_N (Z.abs z))))) (Z.to_N (Z.abs z)) "" in
  if (z <? 0)%Z then "-" ++ s else s.

(** [s.padStart(n, '0')] *)
Definition pad_start (n : nat) (s : string) : string :=
  append (String.concat "" (repeat "0" (n - String.length s))) s.

(** A JavaScript number as produced by [parseInt]: an integer or NaN. *)
Inductive JsNum := Int (z : Z) | NaN.

Fixpoint digits_value (acc : Z) (s : string) (seen : bool) : option Z :=
  match s with
  | String c r =>
      if Js.is_digit c then digits_value (acc * 10 + Z.of_nat (Js.code c - 48))%Z r true
      else if seen then Some acc else None
  | EmptyString => if seen then Some acc else None
  end.

(** [parseInt(s, 10)]: leading white space is skipped (ASCII white space in
    this model), an optional sign is read, then the longest run of decimal
    digits; NaN when there is none. *)
Definition parseInt10 (s : string) : JsNum :=
  let t := Js.trim_start s in
  let '(sign, body) :=
    match t with
    | String c r =>
        if Ascii.eqb c "-" then ((-1)%Z, r) else if Ascii.eqb c "+" then (1%Z, r) else (1%Z, t)
    | EmptyString => (1%Z, t)
    end in
  match digits_value 0 body false with
  | Some v => Int (sign * v)
  | None => NaN
  end.

(** [a > b] on numbers. *)
Definition gt (a : Z) (b : JsNum) : bool :=
  match b with Int z => (z <? a)%Z | NaN => false end.

(** [arr.slice(0, end)]. *)
Definition slice0 {A} (l : list A) (e : JsNum) : list A :=
  match e with
  | NaN => []
  | Int z =>
      if (z <? 0)%Z then firstn (Z.to_nat (Z.max 0 (Z.of_nat (length l) + z))) l
      else firstn (Z.to_nat z) l
  end.

End Num.

(** ** Platform services *)
Definition bytes := list ascii.

(** The UTC fields of a valid [Date]: [getUTCFullYear()],
    [getUTCMonth()] (0 to 11), [getUTCDate()], [getUTCHours()],
    [getUTCMinutes()], [getUTCSeconds()]. *)
Record DateFields := {
  utcFullYear : Z; utcMonth : Z; utcDate : Z;
  utcHours : Z; utcMinutes : Z; utcSeconds : Z
}.

Class Host := {
  (** [crypto.subtle.digest('SHA-256', data)] *)
  digest_sha256 : bytes -> bytes;
  (** [crypto.subtle.sign('HMAC', importKey('raw', key, HMAC/SHA-256), data)] *)
  sign_hmac_sha256 : bytes -> bytes -> bytes;
  (** [new Date(s)]; [None] when [getTime()] is NaN *)
  parse_date : string -> option DateFields;
  (** [decodeURIComponent(s)]; [None] when it throws [URIError] *)
  decode_uri_component : string -> option string;
  (** [new URL(s).pathname] *)
  url_pathname : string -> string
}.

(** ** Hashing helpers (identical copies in signature.ts and presign.ts) *)
Module Crypto.
Section Crypto.
Context `{Host}.

(** [new TextEncoder().encode(s)] *)
Definition text_encode (s : string) : bytes := list_ascii_of_string s.

(** [byte.toString(16).padStart(2, '0')] *)
Definition byte_to_hex (b : ascii) : string :=
  let n := Js.code b in
  Num.pad_start 2
    (if (n <? 16)%nat then String (Js.hex_digit_lower n) ""
     else String (Js.hex_digit_lower (n / 16)) (String (Js.hex_digit_lower (n mod 16)) "")).

(** [arrayBufferToHex] *)
Definition arrayBufferToHex (buffer : bytes) : string :=
  String.concat "" (map byte_to_hex buffer).

(** The key argument of [hmacSha256]: [ArrayBuffer | string]. *)
Inductive KeyData := KeyString (s : string) | KeyBuffer (b : bytes).

Definition hmacSha256 (key : KeyData) (message : string) : bytes :=
  let keyData := match key with KeyString s => text_encode s | KeyBuffer b => b end in
  sign_hmac_sha256 keyData (text_encode message).

Definition sha256 (message : string) : string :=
  arrayBufferToHex (digest_sha256 (text_encode message)).

(** [uriEncode(str, encodeSlash)] *)
Definition uriEncode (str : string) (encodeSlash : bool) : string :=
  let encoded :=
    Js.replace_char "*" "%2A" (Js.replace_char ")" "%29" (Js.replace_char "(" "%28"
      (Js.replace_char "'" "%27" (Js.replace_char "!" "%21" (Js.encodeURIComponent str))))) in
  if negb encodeSlash then Js.unescape_slash encoded else encoded.

End Crypto.
End Crypto.

(** ** Configuration and requests *)
Record Env := {
  WEBDAV_URL : string;
  WEBDAV_USERNAME : string;
  WEBDAV_PASSWORD : string;
  S3_ACCESS_KEY_ID : string;
  S3_SECRET_ACCESS_KEY : string;
  S3_REGION : string
}.

(** A fetch [Headers] object: header names are stored lower-cased, with the
    values of a repeated header combined. *)
Definition Headers := list (string * string).

(** A valid header name: a non-empty token of RFC 9110. *)
Definition tchar (c : ascii) : bool :=
  Js.is_alpha c || Js.is_digit c
  || existsb (fun d => Ascii.eqb c d)
       ["!"; "#"; "$"; "%"; "&"; "'"; "*"; "+"; "-"; "."; "^"; "_"; "`"; "|"; "~"]%char.

Definition valid_header_name (n : string) : bool :=
  negb (String.eqb n "") && forallb tchar (list_ascii_of_string n).

Fixpoint lookup (k : string) (h : Headers) : option string :=
  match h with
  | [] => None
  | (k', v) :: r => if String.eqb k k' then Some v else lookup k r
  end.

(** [headers.get(name)] for a name that is a valid token (every literal
    name of the code). *)
Definition header_lookup (h : Headers) (name : string) : option string :=
  lookup (Js.to_lower name) h.

(** [headers.get(name)] for an arbitrary name: [None] when it throws
    [TypeError] because the name is not a valid header name. *)
Definition header_get (h : Headers) (name : string) : option (option string) :=
  if valid_header_name name then Some (header_lookup h name) else None.

(** An incoming [Request]; [pathname] and [searchParams] are the fields of
    [new URL(request.url)] (the entries of [searchParams] in order, decoded). *)
Record Request := {
  method : string;
  url : string;
  pathname : string;
  searchParams : list (string * string);
  headers : Headers
}.

(** ** SigV4 verification: [src/s3/signature.ts] *)
Module Signature.

Record SignatureComponents := {
  algorithm : string;
  credential : string;
  signedHeaders : list string;
  signature : string;
  accessKeyId : string;
  dateStamp : string;
  region : string;
  service : string
}.

(** [\s*] *)
Definition skip_spaces := Js.trim_start.

(** A case-insensitive literal of the pattern. *)
Definition literal_ci (p s : string) : option string :=
  if Js.starts_with_ci p s then Some (substring (String.length p) (String.length s) s) else None.

(** [([^,]+)]: the characters up to the first comma, and the rest. *)
Fixpoint take_non_comma (s : string) : string * string :=
  match s with
  | EmptyString => ("", "")
  | String c r =>
      if Ascii.eqb c "," then ("", s)
      else let '(a, b) := take_non_comma r in (String c a, b)
  end.

Definition hex_ci (c : ascii) : bool :=
  Js.is_digit c || existsb (fun d => Ascii.eqb (Js.lower_char c) d) ["a"; "b"; "c"; "d"; "e"; "f"]%char.

(** The match of
    [/^AWS4-HMAC-SHA256\s+Credential=([^,]+),\s*SignedHeaders=([^,]+),\s*Signature=([a-f0-9]+)$/i]:
    its three groups.  Every quantifier of the pattern is followed by a
    character it cannot consume, so the match is the greedy scan below. *)
Definition match_authorization (s : string) : option (string * string * string) :=
  match literal_ci "AWS4-HMAC-SHA256" s with
  | Some (String c r) =>
      if negb (Js.is_space c) then None else
      match literal_ci "Credential=" (skip_spaces r) with
      | None => None
      | Some r1 =>
          match take_non_comma r1 with
          | (EmptyString, _) => None
          | (cred, String _ r2) =>
              match literal_ci "SignedHeaders=" (skip_spaces r2) with
              | None => None
              | Some r3 =>
                  match take_non_comma r3 with
                  | (EmptyString, _) => None
                  | (sh, String _ r4) =>
                      match literal_ci "Signature=" (skip_spaces r4) with
                      | Some sig =>
                          if negb (String.eqb sig "") && forallb hex_ci (list_ascii_of_string sig)
                          then Some (cred, sh, sig) else None
                      | None => None
                      end
                  | (_, EmptyString) => None
                  end
              end
          | (_, EmptyString) => None
          end
      end
  | _ => None
  end.

(** [parseAuthorizationHeader] *)
Definition parseAuthorizationHeader (authHeader : string) : option SignatureComponents :=
  match match_authorization authHeader with
  | None => None
  | Some (credential, signedHeadersStr, signature) =>
      let signedHeaders := Js.split ";" signedHeadersStr in
      match Js.split "/" credential with
      | [accessKeyId; dateStamp; region; service; _] =>
          Some {| algorithm := "AWS4-HMAC-SHA256"; credential := credential;
                  signedHeaders := signedHeaders; signature := signature;
                  accessKeyId := accessKeyId; dateStamp := dateStamp;
                  region := region; service := service |}
      | _ => None
      end
  end.

(** The result of [verifySignature]: [{ valid: true }], [{ valid: false,
    error, debug? }], or an exception escaping it. *)
Record DebugInfo := {
  dbg_method : string;
  dbg_url : string;
  dbg_canonicalUri : string;
  dbg_queryParams : string;
  dbg_canonicalHeaders : string;
  dbg_signedHeaders : string;
  dbg_payloadHash : string;
  dbg_canonicalRequest : string;
  dbg_stringToSign : string;
  dbg_expectedSignature : string;
  dbg_calculatedSignature : string
}.

Inductive VerifyResult :=
| Valid
| Invalid (error : string) (debug : option DebugInfo)
| Threw (error : string).

(** The early returns of [verifySignature]. *)
Inductive Step (A : Type) := Continue (a : A) | Return (r : VerifyResult).
Arguments Continue {A} a.
Arguments Return {A} r.

Definition bind {A B} (m : Step A) (k : A -> Step B) : Step B :=
  match m with Continue a => k a | Return r => Return r end.

Notation "x <- m ;; k" := (bind m (fun x => k)) (at level 61, m at next level, right associativity).

Definition reject {A} (error : string) : Step A := Return (Invalid error None).

Definition value (o : option string) : string := match o with Some s => s | None => "" end.

Section Verify.
Context `{Host}.

Definition NL : string := String (ascii_of_nat 10) "".

(** [createCanonicalRequest]: [canonicalHeaders] already ends with a newline. *)
Definition createCanonicalRequest (method canonicalUri canonicalQueryString canonicalHeaders
    signedHeaders payloadHash : string) : string :=
  Js.join NL [method; canonicalUri; canonicalQueryString; canonicalHeaders ++ signedHeaders; payloadHash].

(** [createStringToSign] *)
Definition createStringToSign (algorithm requestDateTime credentialScope canonicalRequest : string) : string :=
  let hashedCanonicalRequest := Crypto.sha256 canonicalRequest in
  Js.join NL [algorithm; requestDateTime; credentialScope; hashedCanonicalRequest].

(** [getSigningKey] *)
Definition getSigningKey (secretKey dateStamp region service : string) : bytes :=
  let kDate := Crypto.hmacSha256 (Crypto.KeyString ("AWS4" ++ secretKey)) dateStamp in
  let kRegion := Crypto.hmacSha256 (Crypto.KeyBuffer kDate) region in
  let kService := Crypto.hmacSha256 (Crypto.KeyBuffer kRegion) service in
  let kSigning := Crypto.hmacSha256 (Crypto.KeyBuffer kService) "aws4_request" in
  kSigning.

(** [convertToAwsDateFormat] *)
Definition convertToAwsDateFormat (dateStr : string) : option string :=
  match parse_date dateStr with
  | None => None
  | Some date =>
      let year := utcFullYear date in
      let month := Num.pad_start 2 (Num.to_string (utcMonth date + 1)) in
      let day := Num.pad_start 2 (Num.to_string (utcDate date)) in
      let hours := Num.pad_start 2 (Num.to_string (utcHours date)) in
      let minutes := Num.pad_start 2 (Num.to_string (utcMinutes date)) in
      let seconds := Num.pad_start 2 (Num.to_string (utcSeconds date)) in
      Some (Num.to_string year ++ month ++ day ++ "T" ++ hours ++ minutes ++ seconds ++ "Z")
  end.

(** The [x-amz-date] / [Date] block of [verifySignature]. *)
Definition resolveRequestDateTime (amzDate dateHeader : option string) : Step string :=
  requestDateTime <-
    (if Js.truthy amzDate then Continue amzDate
     else if Js.truthy dateHeader then
       match convertToAwsDateFormat (value dateHeader) with
       | None => reject "Invalid Date header format"
       | Some d => Continue (Some d)
       end
     else Continue None) ;;
  if negb (Js.truthy requestDateTime) then reject "Missing date header"
  else Continue (value requestDateTime).

(** [headerValue.trim().replace(/\s+/g, ' ')] *)
Definition normalizeHeaderValue (headerValue : string) : string :=
  Js.replace_ws_runs (Js.trim headerValue).

(** The loop over [components.signedHeaders]. *)
Fixpoint canonicalHeadersList (h : Headers) (names : list string) : Step (list string) :=
  match names with
  | [] => Continue []
  | headerName :: rest =>
      match header_get h headerName with
      | None => Return (Threw "TypeError: invalid header name")
      | Some None => reject ("Missing signed header: " ++ headerName)
      | Some (Some headerValue) =>
          let line := Js.to_lower headerName ++ ":" ++ normalizeHeaderValue headerValue in
          lines <- canonicalHeadersList h rest ;;
          Continue (line :: lines)
      end
  end.

(** The canonical query string: entries sorted by [localeCompare] on the
    key, key and value [uriEncode]d, joined with [&]. *)
Definition canonicalQueryString (params : list (string * string)) : string :=
  Js.join "&"
    (map (fun '(key, v) => Crypto.uriEncode key true ++ "=" ++ Crypto.uriEncode v true)
       (Sort.sort (fun a b => Collation.localeCompare (fst a) (fst b)) params)).

(** Everything [verifySignature] computes before the signing key. *)
Record Prepared := {
  p_components : SignatureComponents;
  p_requestDateTime : string;
  p_canonicalUri : string;
  p_queryParams : string;
  p_canonicalHeaders : string;
  p_signedHeaders : string;
  p_payloadHash : string;
  p_canonicalRequest : string;
  p_stringToSign : string
}.

Definition prepare (request : Request) (env : Env) (bodyHash : option string) : Step Prepared :=
  let authHeader := header_lookup (headers request) "Authorization" in
  if negb (Js.truthy authHeader) then reject "Missing Authorization header" else
  match parseAuthorizationHeader (value authHeader) with
  | None => reject "Invalid Authorization header format"
  | Some components =>
  if negb (String.eqb (accessKeyId components) (S3_ACCESS_KEY_ID env)) then reject "Invalid access key" else
  if negb (String.eqb (region components) (S3_REGION env)) then reject "Invalid region" else
  if negb (String.eqb (service components) "s3") then reject "Invalid service" else
  let amzDate := header_lookup (headers request) "x-amz-date" in
  let dateHeader := header_lookup (headers request) "date" in
  requestDateTime <- resolveRequestDateTime amzDate dateHeader ;;
  lines <- canonicalHeadersList (headers request) (signedHeaders components) ;;
  let canonicalHeaders := Js.join NL lines ++ NL in
  let signedHeadersStr := Js.join ";" (signedHeaders components) in
  decodedPath <- match decode_uri_component (pathname request) with
                 | None => Return (Threw "URIError: URI malformed")
                 | Some p => Continue p
                 end ;;
  let canonicalUri :=
    let e := Crypto.uriEncode decodedPath false in if String.eqb e "" then "/" else e in
  let queryParams := canonicalQueryString (searchParams request) in
  let xContentSha := header_lookup (headers request) "x-amz-content-sha256" in
  let payloadHash :=
    if Js.truthy bodyHash then value bodyHash
    else if Js.truthy xContentSha then value xContentSha else "UNSIGNED-PAYLOAD" in
  let canonicalRequest :=
    createCanonicalRequest (method request) canonicalUri queryParams canonicalHeaders
      signedHeadersStr payloadHash in
  let credentialScope :=
    dateStamp components ++ "/" ++ region components ++ "/" ++ service components ++ "/aws4_request" in
  let stringToSign :=
    createStringToSign (algorithm components) requestDateTime credentialScope canonicalRequest in
  Continue {| p_components := components; p_requestDateTime := requestDateTime;
              p_canonicalUri := canonicalUri; p_queryParams := queryParams;
              p_canonicalHeaders := canonicalHeaders; p_signedHeaders := signedHeadersStr;
              p_payloadHash := payloadHash; p_canonicalRequest := canonicalRequest;
              p_stringToSign := stringToSign |}
  end.

(** [s.replace(/\n/g, '\\n')] *)
Definition escape_newlines (s : string) : string :=
  Js.replace_char (ascii_of_nat 10) (String "\" (String "n" "")) s.

(** The signature computation and comparison that ends [verifySignature]. *)
Definition checkSignature (request : Request) (env : Env) (p : Prepared) : VerifyResult :=
  let components := p_components p in
  let signingKey :=
    getSigningKey (S3_SECRET_ACCESS_KEY env) (dateStamp components) (region components) (service components) in
  let signatureBuffer := Crypto.hmacSha256 (Crypto.KeyBuffer signingKey) (p_stringToSign p) in
  let calculatedSignature := Crypto.arrayBufferToHex signatureBuffer in
  if negb (String.eqb calculatedSignature (signature components)) then
    Invalid "Signature mismatch"
      (Some {| dbg_method := method request; dbg_url := url request;
               dbg_canonicalUri := p_canonicalUri p; dbg_queryParams := p_queryParams p;
               dbg_canonicalHeaders := escape_newlines (p_canonicalHeaders p);
               dbg_signedHeaders := p_signedHeaders p; dbg_payloadHash := p_payloadHash p;
               dbg_canonicalRequest := escape_newlines (p_canonicalRequest p);
               dbg_stringToSign := escape_newlines (p_stringToSign p);
               dbg_expectedSignature := signature components;
               dbg_calculatedSignature := calculatedSignature |})
  else Valid.

(** [verifySignature(request, env, bodyHash?)] *)
Definition verifySignature (request : Request) (env : Env) (bodyHash : option string) : VerifyResult :=
  match prepare request env bodyHash with
  | Continue p => checkSignature request env p
  | Return r => r
  end.

End Verify.
End Signature.

(** ** Presigned URLs: [src/s3/presign.ts] *)
Module Presign.
Section Presign.
Context `{Host}.

(** [getSigningKey] (presign.ts keeps its own copy). *)
Definition getSigningKey (secretKey dateStamp region service : string) : bytes :=
  let kDate := Crypto.hmacSha256 (Crypto.KeyString ("AWS4" ++ secretKey)) dateStamp in
  let kRegion := Crypto.hmacSha256 (Crypto.KeyBuffer kDate) region in
  let kService := Crypto.hmacSha256 (Crypto.KeyBuffer kRegion) service in
  let kSigning := Crypto.hmacSha256 (Crypto.KeyBuffer kService) "aws4_request" in
  kSigning.

(** [s.replace(/[-:]/g, '')] *)
Fixpoint remove_dash_colon (s : string) : string :=
  match s with
  | EmptyString => EmptyString
  | String c r =>
      if Ascii.eqb c "-" || Ascii.eqb c ":" then remove_dash_colon r else String c (remove_dash_colon r)
  end.

(** [s.replace(/\.\d{3}/, '')]: the first match only. *)
Fixpoint remove_millis (s : string) : string :=
  match s with
  | EmptyString => EmptyString
  | String c t =>
      match t with
      | String a (String b (String d r)) =>
          if Ascii.eqb c "." && Js.is_digit a && Js.is_digit b && Js.is_digit d then r
          else String c (remove_millis t)
      | _ => String c (remove_millis t)
      end
  end.

(** [createPresignedUrl(accessKeyId, secretAccessKey, region, bucket, key,
    expiresIn)]; [nowIso] is the clock reading [new Date().toISOString()]. *)
Definition createPresignedUrl (nowIso : string) (accessKeyId secretAccessKey region bucket key : string)
    (expiresIn : Z) : string :=
  let method := "GET" in
  let service := "s3" in
  let host := bucket ++ ".s3." ++ region ++ ".amazonaws.com" in
  let amzDate := remove_millis (remove_dash_colon nowIso) in
  let dateStamp := substring 0 8 amzDate in
  let canonicalQueryParams :=
    Js.join "&"
      ["X-Amz-Algorithm=AWS4-HMAC-SHA256";
       "X-Amz-Credential=" ++ accessKeyId ++ "/" ++ dateStamp ++ "/" ++ region ++ "/" ++ service ++ "/aws4_request";
       "X-Amz-Date=" ++ amzDate;
       "X-Amz-Expires=" ++ Num.to_string expiresIn;
       "X-Amz-SignedHeaders=host"] in
  let canonicalUri := "/" ++ Js.join "/" (map (fun part => Crypto.uriEncode part true) (Js.split "/" key)) in
  let canonicalHeaders := "host:" ++ host ++ Signature.NL in
  let payloadHash := "UNSIGNED-PAYLOAD" in
  let canonicalRequest :=
    Js.join Signature.NL [method; canonicalUri; canonicalQueryParams; canonicalHeaders; "host"; payloadHash] in
  let credentialScope := dateStamp ++ "/" ++ region ++ "/" ++ service ++ "/aws4_request" in
  let hashedCanonicalRequest := Crypto.sha256 canonicalRequest in
  let stringToSign := Js.join Signature.NL ["AWS4-HMAC-SHA256"; amzDate; credentialScope; hashedCanonicalRequest] in
  let signingKey := getSigningKey secretAccessKey dateStamp region service in
  let signatureBuffer := Crypto.hmacSha256 (Crypto.KeyBuffer signingKey) stringToSign in
  let signature := Crypto.arrayBufferToHex signatureBuffer in
  "https://" ++ host ++ canonicalUri ++ "?" ++ canonicalQueryParams ++ "&X-Amz-Signature=" ++ signature.

End Presign.
End Presign.

(** ** The WebDAV client: [src/webdav/client.ts] *)
Module Dav.

Inductive DavMethod := GET | HEAD | PUT | DELETE | MKCOL | PROPFIND (depth : string).

(** A request of the client, by the path given to its method ([buildUrl]
    prefixes it with the WebDAV base URL, and Basic authentication is
    attached to every request). *)
Record DavRequest := { dav_method : DavMethod; dav_path : string }.

Record DavResponse := { status : Z; body : string }.

(** [response.ok] *)
Definition ok (r : DavResponse) : bool := (200 <=? status r)%Z && (status r <=? 299)%Z.

(** What the code does that can be observed: the requests it sends and
    what it writes to the console ([console.warn], [console.error],
    [console.log]). *)
Inductive Event :=
| Sent (r : DavRequest) | Warned (msg : string) | LoggedError (msg : string) | Logged (msg : string).

(** The WebDAV server: its answer to a request may depend on every earlier
    event; [None] is a transport failure, where [fetch] rejects. *)
Definition Server := list Event -> DavRequest -> option DavResponse.

(** The client monad: the server is read, the event log is threaded, and a
    thrown [Error] is [inl] of its message. *)
Definition M (A : Type) := Server -> list Event -> (string + A) * list Event.

Definition ret {A} (a : A) : M A := fun _ log => (inr a, log).
Definition bind {A B} (m : M A) (k : A -> M B) : M B :=
  fun srv log =>
    match m srv log with
    | (inr a, log') => k a srv log'
    | (inl e, log') => (inl e, log')
    end.
Definition throw {A} (msg : string) : M A := fun _ log => (inl msg, log).
Definition try_catch {A} (m : M A) : M (string + A) :=
  fun srv log => let '(r, log') := m srv log in (inr r, log').
Definition emit (e : Event) : M unit := fun _ log => (inr tt, app log [e]).

Notation "x <- m ;; k" := (bind m (fun x => k)) (at level 61, m at next level, right associativity).
Notation "m ;;; k" := (bind m (fun _ => k)) (at level 61, right associativity).

Definition fetch (r : DavRequest) : M DavResponse :=
  fun srv log =>
    let log' := app log [Sent r] in
    match srv log r with
    | Some resp => (inr resp, log')
    | None => (inl "fetch failed", log')
    end.

Record WebDAVResource := {
  href : string;
  displayName : string;
  isCollection : bool;
  contentLength : Z;
  lastModified : Z;
  etag : string;
  contentType : string
}.

Section Client.
(** [parsePropfindResponse(xml, baseHref)] of [src/webdav/parser.ts]; the
    properties below hold for every parser. *)
Variable parsePropfindResponse : string -> string -> list WebDAVResource.

Definition get (path : string) : M DavResponse := fetch {| dav_method := GET; dav_path := path |}.
Definition head (path : string) : M DavResponse := fetch {| dav_method := HEAD; dav_path := path |}.
Definition put (path : string) : M DavResponse := fetch {| dav_method := PUT; dav_path := path |}.
Definition delete (path : string) : M DavResponse := fetch {| dav_method := DELETE; dav_path := path |}.
Definition mkcol (path : string) : M DavResponse := fetch {| dav_method := MKCOL; dav_path := path |}.

(** [propfind(path, depth)] *)
Definition propfind (path depth : string) : M (list WebDAVResource) :=
  response <- fetch {| dav_method := PROPFIND depth; dav_path := path |} ;;
  if negb (ok response) then
    if (status response =? 404)%Z then ret []
    else throw ("PROPFIND failed: " ++ Num.to_string (status response))
  else ret (parsePropfindResponse (body response) path).

(** One iteration of the loop of [ensureParentDirs] per path component but
    the last. *)
Fixpoint ensureDirs (currentPath : string) (parts : list string) : M unit :=
  match parts with
  | [] => ret tt
  | [_] => ret tt
  | part :: rest =>
      let currentPath' := currentPath ++ "/" ++ part in
      headResponse <- head (currentPath' ++ "/") ;;
      (if ok headResponse then ret tt
       else
         mkcolResponse <- mkcol (currentPath' ++ "/") ;;
         if negb (ok mkcolResponse) && negb (status mkcolResponse =? 405)%Z then
           emit (Warned ("Failed to create directory " ++ currentPath' ++ ": "
                         ++ Num.to_string (status mkcolResponse)))
         else ret tt) ;;;
      ensureDirs currentPath' rest
  end.

(** [ensureParentDirs(path)] *)
Definition ensureParentDirs (path : string) : M unit :=
  let parts := filter (fun p => negb (String.eqb p "")) (Js.split "/" path) in
  ensureDirs "" parts.

End Client.
End Dav.

(** ** S3 operations: [src/s3/operations.ts] *)
Module Operations.
Import Dav.

(** [S3RequestContext]; [searchParams] and [origin] are those of
    [ctx.url], and [has_body] says whether [ctx.body] is non-null. *)
Record S3RequestContext := {
  bucket : string;
  key : string;
  ctx_method : string;
  ctx_headers : Headers;
  ctx_searchParams : list (string * string);
  ctx_origin : string;
  has_body : bool
}.

Record S3Object := {
  obj_key : string;
  obj_lastModified : Z;
  obj_etag : string;
  obj_size : Z;
  obj_storageClass : string
}.

(** [ListBucketResult]; a common prefix [{ prefix }] is its string. *)
Record ListBucketResult := {
  name : string;
  prefix : string;
  delimiter : string;
  maxKeys : Num.JsNum;
  isTruncated : bool;
  contents : list S3Object;
  commonPrefixes : list string
}.

(** The responses the handlers build: [createErrorResponse(status, code,
    message, resource?)], the empty 200 of a PUT (with a fresh random
    ETag), the empty 204 of a DELETE, and the 200 whose body is
    [generateListBucketResultXml(result)]. *)
Inductive S3Response :=
| ErrorResponse (statusCode : Z) (code message resource : string)
| PutObjectOk
| NoContent
| ListBucketOk (result : ListBucketResult).

(** [S3Errors.InternalError(message?)] *)
Definition InternalError (message : string) : S3Response :=
  ErrorResponse 500 "InternalError"
    (if String.eqb message "" then "We encountered an internal error. Please try again." else message) "".

(** [buildWebDAVPath] *)
Definition buildWebDAVPath (bucket key : string) : string :=
  if String.eqb bucket "" then (if String.eqb key "" then "/" else key)
  else if String.eqb key "" then bucket ++ "/"
  else bucket ++ "/" ++ key.

(** [searchParams.get(name)]: the first value. *)
Definition param (ctx : S3RequestContext) (n : string) : option string := lookup n (ctx_searchParams ctx).

Definition drop_first (s : string) : string := substring 1 (String.length s) s.

Fixpoint ends_with_slash (s : string) : bool :=
  match s with
  | EmptyString => false
  | String c EmptyString => Ascii.eqb c "/"
  | String _ r => ends_with_slash r
  end.

Fixpoint mem (x : string) (l : list string) : bool :=
  match l with [] => false | y :: r => String.eqb x y || mem x r end.

Section Listing.
Context `{Host}.

(** The key of a resource: the path of its href without the leading
    slash and without a leading bucket segment. *)
Definition resourceKey (ctx : S3RequestContext) (resource : WebDAVResource) : string :=
  let h := href resource in
  let urlPath :=
    if Js.starts_with "http://" h || Js.starts_with "https://" h then url_pathname h
    else if Js.starts_with "/" h then h
    else url_pathname (ctx_origin ctx ++ "/" ++ h) in
  let key := if Js.starts_with "/" urlPath then drop_first urlPath else urlPath in
  if Js.starts_with (bucket ctx ++ "/") key
  then substring (String.length (bucket ctx) + 1) (String.length key) key
  else key.

Definition toS3Object (key : string) (resource : WebDAVResource) : S3Object :=
  {| obj_key := key; obj_lastModified := lastModified resource; obj_etag := etag resource;
     obj_size := contentLength resource; obj_storageClass := "STANDARD" |}.

(** The loop [for (const resource of childResources)] with its
    accumulators [contents], [commonPrefixes] and [seenPrefixes]. *)
Fixpoint collect (ctx : S3RequestContext) (delimiter : string) (resources : list WebDAVResource)
    (contents : list S3Object) (commonPrefixes seenPrefixes : list string)
    : list S3Object * list string :=
  match resources with
  | [] => (contents, commonPrefixes)
  | resource :: rest =>
      let key := resourceKey ctx resource in
      if negb (String.eqb delimiter "") && isCollection resource then
        let dirKey := if ends_with_slash key then key else key ++ "/" in
        if negb (mem dirKey seenPrefixes)
        then collect ctx delimiter rest contents (app commonPrefixes [dirKey]) (dirKey :: seenPrefixes)
        else collect ctx delimiter rest contents commonPrefixes seenPrefixes
      else if negb (isCollection resource)
      then collect ctx delimiter rest (app contents [toS3Object key resource]) commonPrefixes seenPrefixes
      else collect ctx delimiter rest contents commonPrefixes seenPrefixes
  end.

Definition sortByKey (l : list S3Object) : list S3Object :=
  Sort.sort (fun a b => Collation.localeCompare (obj_key a) (obj_key b)) l.

(** The part of [handleListBucket] after the PROPFIND. *)
Definition translateListing (ctx : S3RequestContext) (prefix delimiter : string) (maxKeys : Num.JsNum)
    (resources : list WebDAVResource) : ListBucketResult :=
  let childResources := skipn 1 resources in
  let '(contents, commonPrefixes) := collect ctx delimiter childResources [] [] [] in
  let sorted := sortByKey contents in
  let limitedContents := Num.slice0 sorted maxKeys in
  let isTruncated := Num.gt (Z.of_nat (length sorted)) maxKeys in
  {| name := bucket ctx; prefix := prefix; delimiter := delimiter; maxKeys := maxKeys;
     isTruncated := isTruncated; contents := limitedContents; commonPrefixes := commonPrefixes |}.

(** The [prefix], [delimiter] and [max-keys] parameters. *)
Definition listPrefix (ctx : S3RequestContext) : string :=
  if Js.truthy (param ctx "prefix") then Signature.value (param ctx "prefix") else "".
Definition listDelimiter (ctx : S3RequestContext) : string :=
  if Js.truthy (param ctx "delimiter") then Signature.value (param ctx "delimiter") else "".
Definition listMaxKeys (ctx : S3RequestContext) : Num.JsNum :=
  let maxKeysStr := param ctx "max-keys" in
  if Js.truthy maxKeysStr then Num.parseInt10 (Signature.value maxKeysStr) else Num.Int 1000.

(** [searchPath], the collection the listing reads. *)
Definition listSearchPath (ctx : S3RequestContext) : string :=
  let prefix := listPrefix ctx in
  let bucketPath := if negb (String.eqb (bucket ctx) "") then bucket ctx ++ "/" else "/" in
  if negb (String.eqb prefix "") then bucket ctx ++ "/" ++ prefix else bucketPath.

Variable parsePropfindResponse : string -> string -> list WebDAVResource.

(** [handleListBucket] *)
Definition handleListBucket (ctx : S3RequestContext) : M S3Response :=
  let prefix := listPrefix ctx in
  let delimiter := listDelimiter ctx in
  let maxKeys := listMaxKeys ctx in
  let searchPath := listSearchPath ctx in
  r <- try_catch (propfind parsePropfindResponse searchPath "1") ;;
  match r with
  | inl error => emit (LoggedError ("PROPFIND error: " ++ error)) ;;; ret (InternalError "Failed to list directory")
  | inr resources => ret (ListBucketOk (translateListing ctx prefix delimiter maxKeys resources))
  end.

End Listing.

(** [handlePutObject] *)
Definition handlePutObject (ctx : S3RequestContext) : M S3Response :=
  if negb (has_body ctx) then ret (InternalError "Missing request body") else
  let webdavPath := buildWebDAVPath (bucket ctx) (key ctx) in
  ensureParentDirs webdavPath ;;;
  response <- put webdavPath ;;
  if negb (ok response) && negb (status response =? 201)%Z && negb (status response =? 204)%Z
  then ret (InternalError ("WebDAV PUT failed: " ++ Num.to_string (status response)))
  else ret PutObjectOk.

(** [handleDeleteObject] *)
Definition handleDeleteObject (ctx : S3RequestContext) : M S3Response :=
  let webdavPath := buildWebDAVPath (bucket ctx) (key ctx) in
  response <- delete webdavPath ;;
  if negb (ok response) && negb (status response =? 404)%Z
  then ret (InternalError ("WebDAV DELETE failed: " ++ Num.to_string (status response)))
  else ret NoContent.

End Operations.

(** ** Configuration: [src/config.ts] *)
Module Config.

(** The [required] names with the field [env[key]] each one reads.  An
    unset variable is the empty string here, falsy like [undefined]. *)
Definition required : list (string * (Env -> string)) :=
  [("WEBDAV_URL", WEBDAV_URL); ("WEBDAV_USERNAME", WEBDAV_USERNAME);
   ("WEBDAV_PASSWORD", WEBDAV_PASSWORD); ("S3_ACCESS_KEY_ID", S3_ACCESS_KEY_ID);
   ("S3_SECRET_ACCESS_KEY", S3_SECRET_ACCESS_KEY); ("S3_REGION", S3_REGION)].

(** [validateConfig(env)]: [inl] is the message of the thrown [Error]. *)
Definition validateConfig (env : Env) : string + unit :=
  let missing := map fst (filter (fun '(_, field) => negb (Js.truthy (Some (field env)))) required) in
  if (0 <? length missing)%nat
  then inl ("Missing required environment variables: " ++ Js.join ", " missing)
  else inr tt.

(** [getWebDAVBaseUrl(env)] *)
Definition getWebDAVBaseUrl (env : Env) : string :=
  let url := WEBDAV_URL env in
  if Operations.ends_with_slash url then url else url ++ "/".

End Config.

(** ** URLs of the WebDAV client: [buildUrl] of [src/webdav/client.ts] *)
Module DavUrl.

(** [buildUrl(path)] of a client whose [baseUrl] is [baseUrl]
    ([path.slice(1)] is [drop_first]). *)
Definition buildUrl (baseUrl path : string) : string :=
  let cleanPath := if Js.starts_with "/" path then Operations.drop_first path else path in
  baseUrl ++ cleanPath.

End DavUrl.

(** ** XML text: [escapeXml] of [src/s3/xml.ts] *)
Module Xml.

(** The double quote character. *)
Definition dquote : ascii := ascii_of_nat 34.

(** [escapeXml(str)]: five global replacements, in this order. *)
Definition escapeXml (str : string) : string :=
  Js.replace_char "'" "&apos;" (Js.replace_char dquote "&quot;" (Js.replace_char ">" "&gt;"
    (Js.replace_char "<" "&lt;" (Js.replace_char "&" "&amp;" str)))).

(** A line break of a template literal. *)
Definition LF : string := String (ascii_of_nat 10) "".

(** The first line of every XML body. *)
Definition xml_declaration : string :=
  "<?xml version=" ++ String dquote ("1.0" ++ String dquote (" encoding=" ++ String dquote
    ("UTF-8" ++ String dquote "?>"))).

(** [generateErrorXml(code, message, resource?, requestId?)]; [None] is an
    absent argument. *)
Definition generateErrorXml (code message : string) (resource requestId : option string) : string :=
  xml_declaration ++ LF ++
  "<Error>" ++ LF ++
  "  <Code>" ++ escapeXml code ++ "</Code>" ++ LF ++
  "  <Message>" ++ escapeXml message ++ "</Message>" ++ LF ++
  "  " ++ (if Js.truthy resource
           then "<Resource>" ++ escapeXml (Signature.value resource) ++ "</Resource>" else "") ++ LF ++
  "  " ++ (if Js.truthy requestId
           then "<RequestId>" ++ escapeXml (Signature.value requestId) ++ "</RequestId>" else "") ++ LF ++
  "</Error>".

End Xml.

(** ** The error responses of [S3Errors] ([src/s3/xml.ts]); an absent
    resource is the empty string, which [generateErrorXml] treats alike. *)
Module Errors.
Import Operations.

Definition NoSuchKey (key : string) : S3Response :=
  ErrorResponse 404 "NoSuchKey" "The specified key does not exist." key.

Definition NoSuchBucket (bucket : string) : S3Response :=
  ErrorResponse 404 "NoSuchBucket" "The specified bucket does not exist." bucket.

Definition InvalidAccessKeyId : S3Response :=
  ErrorResponse 403 "InvalidAccessKeyId" "The AWS Access Key Id you provided does not exist in our records." "".

Definition SignatureDoesNotMatch : S3Response :=
  ErrorResponse 403 "SignatureDoesNotMatch"
    "The request signature we calculated does not match the signature you provided." "".

Definition MethodNotAllowed (method : string) : S3Response :=
  ErrorResponse 405 "MethodNotAllowed" ("The specified method is not allowed: " ++ method) "".

End Errors.

(** ** Request routing: [parseS3Request], the remaining handlers and
    [handleS3Operation] of [src/s3/operations.ts] *)
Module Routing.
Import Dav Operations Errors.

(** [S3Operation] of [src/types.ts] *)
Inductive S3Operation :=
| GetObject | PutObject | DeleteObject | HeadObject | ListBucket | HeadBucket
| GetObjectStream | CreatePresignedGetUrl | Unknown.

(** [s.toUpperCase()] on ASCII text (a request method is an HTTP token,
    hence ASCII). *)
Definition upper_char (c : ascii) : ascii :=
  if Js.is_lower c then ascii_of_nat (Js.code c - 32) else c.

Fixpoint to_upper (s : string) : string :=
  match s with
  | EmptyString => EmptyString
  | String c r => String (upper_char c) (to_upper r)
  end.

(** [p.split('/').filter(Boolean)] *)
Definition pathParts (p : string) : list string :=
  filter (fun part => negb (String.eqb part "")) (Js.split "/" p).

Section Parse.
(** [new URL(request.url).origin] *)
Variable url_origin : string -> string.
(** Whether [request.body] is non-null. *)
Variable request_has_body : Request -> bool.

(** [parseS3Request(request)]: the context and its [operation]. *)
Definition parseS3Request (request : Request) : S3RequestContext * S3Operation :=
  let method := to_upper (method request) in
  let pathParts := pathParts (pathname request) in
  let bucket := match pathParts with part :: _ => part | [] => "" end in
  let key := Js.join "/" (skipn 1 pathParts) in
  let operation :=
    if String.eqb method "GET" then (if Js.truthy (Some key) then GetObject else ListBucket)
    else if String.eqb method "PUT" then PutObject
    else if String.eqb method "DELETE" then DeleteObject
    else if String.eqb method "HEAD" then (if Js.truthy (Some key) then HeadObject else HeadBucket)
    else Unknown in
  ({| bucket := bucket; key := key; ctx_method := method; ctx_headers := headers request;
      ctx_searchParams := searchParams request; ctx_origin := url_origin (url request);
      has_body := request_has_body request |}, operation).

End Parse.

(** The responses of [handleS3Operation]: an [S3Response], the 200 of
    GetObject (with the WebDAV body) and of HeadObject (no body), whose
    Content-Type, Content-Length, Last-Modified and ETag headers are copied
    from the WebDAV response, and the 200 of HeadBucket. *)
Inductive Reply := S3 (r : S3Response) | ObjectOk (body : option string) | BucketOk.

Section Handlers.
Context `{Host}.
Variable parsePropfindResponse : string -> string -> list WebDAVResource.
(** [handleCreatePresignedGetUrl(ctx, env)], reached for the
    [CreatePresignedGetUrl] operation only. *)
Variable handleCreatePresignedGetUrl : S3RequestContext -> M Reply.
(** The message of the [InvalidCharacterError] that [btoa] throws (the
    platform's text). *)
Variable btoa_error : string.

(** [handleGetObject] *)
Definition handleGetObject (ctx : S3RequestContext) : M Reply :=
  let webdavPath := buildWebDAVPath (bucket ctx) (key ctx) in
  response <- get webdavPath ;;
  if negb (ok response) then
    if (status response =? 404)%Z then ret (S3 (NoSuchKey (key ctx)))
    else ret (S3 (InternalError ("WebDAV error: " ++ Num.to_string (status response))))
  else ret (ObjectOk (Some (body response))).

(** [handleHeadObject] *)
Definition handleHeadObject (ctx : S3RequestContext) : M Reply :=
  let webdavPath := buildWebDAVPath (bucket ctx) (key ctx) in
  response <- head webdavPath ;;
  if negb (ok response) then
    if (status response =? 404)%Z then ret (S3 (NoSuchKey (key ctx)))
    else ret (S3 (InternalError ("WebDAV HEAD failed: " ++ Num.to_string (status response))))
  else ret (ObjectOk None).

(** [handleHeadBucket] *)
Definition handleHeadBucket (ctx : S3RequestContext) : M Reply :=
  let bucketPath := if Js.truthy (Some (bucket ctx)) then bucket ctx ++ "/" else "/" in
  r <- try_catch (propfind parsePropfindResponse bucketPath "0") ;;
  match r with
  | inr resources =>
      if (0 <? length resources)%nat then ret BucketOk else ret (S3 (NoSuchBucket (bucket ctx)))
  | inl error =>
      emit (LoggedError ("HeadBucket error: " ++ error)) ;;; ret (S3 (NoSuchBucket (bucket ctx)))
  end.

(** [handleGetObjectStream] (the same code as [handleGetObject]) *)
Definition handleGetObjectStream (ctx : S3RequestContext) : M Reply :=
  let webdavPath := buildWebDAVPath (bucket ctx) (key ctx) in
  response <- get webdavPath ;;
  if negb (ok response) then
    if (status response =? 404)%Z then ret (S3 (NoSuchKey (key ctx)))
    else ret (S3 (InternalError ("WebDAV error: " ++ Num.to_string (status response))))
  else ret (ObjectOk (Some (body response))).

(** [new WebDAVClient(env)]: the base URL cannot fail; the Basic
    credentials [btoa(`${WEBDAV_USERNAME}:${WEBDAV_PASSWORD}`)] throw on a
    character above U+00FF. *)
Definition newWebDAVClient (env : Env) : M unit :=
  if Js.latin1_only (WEBDAV_USERNAME env ++ ":" ++ WEBDAV_PASSWORD env) then ret tt
  else throw btoa_error.

(** [handleS3Operation(ctx, env)] *)
Definition handleS3Operation (ctx : S3RequestContext) (operation : S3Operation) (env : Env) : M Reply :=
  newWebDAVClient env ;;;
  match operation with
  | GetObject => handleGetObject ctx
  | PutObject => r <- handlePutObject ctx ;; ret (S3 r)
  | DeleteObject => r <- handleDeleteObject ctx ;; ret (S3 r)
  | HeadObject => handleHeadObject ctx
  | ListBucket => r <- handleListBucket parsePropfindResponse ctx ;; ret (S3 r)
  | HeadBucket => handleHeadBucket ctx
  | GetObjectStream => handleGetObjectStream ctx
  | CreatePresignedGetUrl => handleCreatePresignedGetUrl ctx
  | Unknown => ret (S3 (MethodNotAllowed (ctx_method ctx)))
  end.

End Handlers.
End Routing.

(** ** The entry point: [onRequest] of [src/functions/[[path]].ts] *)
Module Entry.
Import Dav Operations Errors Routing.

(** [s.includes(needle)] *)
Fixpoint includes (needle s : string) : bool :=
  Js.starts_with needle s || match s with EmptyString => false | String _ r => includes needle r end.

(** The answer of [onRequest]: the 204 of a CORS preflight, or a response
    of the code, with or without the [Access-Control-Allow-Origin] header
    added after [handleS3Operation].  A rejected promise is [inl] of [M]. *)
Inductive Outcome := Preflight | Respond (r : Reply) (cors : bool).

(** The [S3Operation] string printed by [onRequest]. *)
Definition operation_name (op : S3Operation) : string :=
  match op with
  | GetObject => "GetObject" | PutObject => "PutObject" | DeleteObject => "DeleteObject"
  | HeadObject => "HeadObject" | ListBucket => "ListBucket" | HeadBucket => "HeadBucket"
  | GetObjectStream => "GetObjectStream" | CreatePresignedGetUrl => "CreatePresignedGetUrl"
  | Unknown => "Unknown"
  end.

(** [console.log] of each line, in order. *)
Fixpoint log_lines (lines : list string) : M unit :=
  match lines with
  | [] => ret tt
  | l :: rest => emit (Logged l) ;;; log_lines rest
  end.

(** The 17 [console.log] calls [verifySignature] makes on a signature
    mismatch (a call with several arguments prints them separated by a
    space). *)
Definition mismatch_debug_lines (request : Request) (p : Signature.Prepared) (calculatedSignature : string)
    : list string :=
  ["=== Signature Verification Debug ===";
   "Request Method: " ++ method request;
   "Request URL: " ++ url request;
   "Canonical URI: " ++ Signature.p_canonicalUri p;
   "Canonical Query String: " ++ Signature.p_queryParams p;
   "Canonical Headers: " ++ Signature.p_canonicalHeaders p;
   "Signed Headers: " ++ Signature.p_signedHeaders p;
   "Payload Hash: " ++ Signature.p_payloadHash p;
   "Canonical Request:";
   Signature.p_canonicalRequest p;
   "---";
   "String to Sign:";
   Signature.p_stringToSign p;
   "---";
   "Expected Signature: " ++ Signature.signature (Signature.p_components p);
   "Calculated Signature: " ++ calculatedSignature;
   "=== End Debug ==="].

Section Entry.
Context `{Host}.
Variable parsePropfindResponse : string -> string -> list WebDAVResource.
Variable handleCreatePresignedGetUrl : S3RequestContext -> M Reply.
Variable btoa_error : string.
Variable url_origin : string -> string.
Variable request_has_body : Request -> bool.

(** [await verifySignature(request, env)] with its console output: the
    debug lines are printed just before the mismatch is returned. *)
Definition verifySignatureM (request : Request) (env : Env) : M Signature.VerifyResult :=
  match Signature.prepare request env None with
  | Signature.Return r => ret r
  | Signature.Continue p =>
      match Signature.checkSignature request env p with
      | Signature.Invalid error (Some d) =>
          log_lines (mismatch_debug_lines request p (Signature.dbg_calculatedSignature d)) ;;;
          ret (Signature.Invalid error (Some d))
      | r => ret r
      end
  end.

(** [onRequest({ request, env })]; [console.error] is [LoggedError] and
    [console.log] is [Logged]. *)
Definition onRequest (request : Request) (env : Env) : M Outcome :=
  if String.eqb (method request) "OPTIONS" then ret Preflight else
  match Config.validateConfig env with
  | inl error =>
      emit (LoggedError ("Configuration error: " ++ error)) ;;;
      ret (Respond (S3 (InternalError "Server configuration error")) false)
  | inr _ =>
      signatureResult <- verifySignatureM request env ;;
      match signatureResult with
      | Signature.Threw error => throw error
      | Signature.Invalid error _ =>
          emit (LoggedError ("Signature verification failed: " ++ error)) ;;;
          ret (Respond (S3 (if includes "access key" error then InvalidAccessKeyId else SignatureDoesNotMatch))
                 false)
      | Signature.Valid =>
          let '(s3Request, operation) := parseS3Request url_origin request_has_body request in
          emit (Logged ("S3 " ++ operation_name operation ++ ": bucket=" ++ bucket s3Request
                        ++ ", key=" ++ key s3Request)) ;;;
          r <- try_catch (handleS3Operation parsePropfindResponse handleCreatePresignedGetUrl btoa_error
                            s3Request operation env) ;;
          match r with
          | inr response => ret (Respond response true)
          | inl error =>
              emit (LoggedError ("Operation error: " ++ error)) ;;;
              ret (Respond (S3 (InternalError error)) false)
          end
      end
  end.

End Entry.
End Entry.

(** ** Helpers of the PROPFIND parser: [src/webdav/parser.ts] *)
Module Parser.

(** [href.replace(/\/$/, '')] *)
Definition strip_trailing_slash (s : string) : string :=
  if Operations.ends_with_slash s then substring 0 (String.length s - 1) s else s.

(** [getFilenameFromHref(href)]: [parts[parts.length - 1] || ''], the last
    piece ([split] never returns an empty array). *)
Definition getFilenameFromHref (href : string) : string :=
  let parts := Js.split "/" (strip_trailing_slash href) in
  last parts "".

(** [ToInt32] *)
Definition to_int32 (z : Z) : Z := ((z + 2 ^ 31) mod 2 ^ 32 - 2 ^ 31)%Z.

(** One iteration of the loop: [hash = ((hash << 5) - hash) + char;
    hash = hash & hash].  [<<] and [&] go through [ToInt32]; the
    subtraction and the addition are exact on these magnitudes. *)
Definition hash_step (hash char : Z) : Z := to_int32 (to_int32 (hash * 32) - hash + char).

(** [n.toString(16)] for an integer [n >= 0]. *)
Fixpoint hex_digits (fuel : nat) (n : Z) (acc : string) : string :=
  match fuel with
  | O => acc
  | S f =>
      let d := String (Js.hex_digit_lower (Z.to_nat (n mod 16))) "" in
      if (n <? 16)%Z then d ++ acc else hex_digits f (n / 16) (d ++ acc)
  end.

Definition to_hex_string (n : Z) : string := hex_digits (S (Z.to_nat (Z.log2 n))) n "".

(** A number in a template literal: [String(n)]. *)
Definition num_text (n : Num.JsNum) : string :=
  match n with Num.Int z => Num.to_string z | Num.NaN => "NaN" end.

Section Etag.
(** The UTF-16 code units of a string, [s.charCodeAt(i)] for each [i]. *)
Variable code_units : string -> list Z.

(** [generateSimpleEtag(href, lastModified, size)]: [time] is
    [lastModified.getTime()]. *)
Definition generateSimpleEtag (href : string) (time size : Num.JsNum) : string :=
  let data := href ++ "-" ++ num_text time ++ "-" ++ num_text size in
  let hash := fold_left hash_step (code_units data) 0%Z in
  to_hex_string (Z.abs hash).

End Etag.
End Parser.

(** ** Concrete platform for evaluating the code on examples

    Its services are placeholders: they are only used where the inputs make
    them irrelevant to the property at hand. *)
Module Examples.

Definition placeholder_host : Host := {|
  digest_sha256 := fun b => b;
  sign_hmac_sha256 := fun k m => app k m;
  parse_date := fun _ => None;
  decode_uri_component := fun s => Some s;
  url_pathname := fun s => s
|}.

(** [placeholder_host] whose date parser reads one RFC 7231 date of the
    year 999. *)
Definition dated_host : Host := {|
  digest_sha256 := fun b => b;
  sign_hmac_sha256 := fun k m => app k m;
  parse_date := fun s =>
    if String.eqb s "Tue, 01 Jan 0999 00:00:00 GMT" then
      Some {| utcFullYear := 999; utcMonth := 0; utcDate := 1; utcHours := 0; utcMinutes := 0; utcSeconds := 0 |}
    else None;
  decode_uri_component := fun s => Some s;
  url_pathname := fun s => s
|}.

Import Dav Operations.

(** A request context for a key two levels below the bucket. *)
Definition nested_ctx (has_body : bool) : S3RequestContext :=
  {| bucket := "b"; key := "d/f.txt"; ctx_method := "PUT"; ctx_headers := [];
     ctx_searchParams := []; ctx_origin := "https://gateway.example"; has_body := has_body |}.

(** A server on which no directory exists and MKCOL answers 409 Conflict. *)
Definition mkcol_conflict_server : Server := fun _ r =>
  match dav_method r with
  | HEAD => Some {| status := 404; body := "" |}
  | MKCOL => Some {| status := 409; body := "" |}
  | PUT => Some {| status := 201; body := "" |}
  | _ => Some {| status := 500; body := "" |}
  end.

(** A server that answers every request with the same status. *)
Definition constant_server (code : Z) : Server := fun _ _ => Some {| status := code; body := "" |}.


(** A listing request on bucket [b] with the given query parameters. *)
Definition list_ctx (params : list (string * string)) : S3RequestContext :=
  {| bucket := "b"; key := ""; ctx_method := "GET"; ctx_headers := [];
     ctx_searchParams := params; ctx_origin := "https://gateway.example"; has_body := false |}.

Definition dav_resource (h : string) (coll : bool) : WebDAVResource :=
  {| href := h; displayName := ""; isCollection := coll; contentLength := 0;
     lastModified := 0; etag := ""; contentType := "" |}.

(** A PROPFIND answer: the bucket collection itself and two files. *)
Definition two_files_parser : string -> string -> list WebDAVResource :=
  fun _ _ => [dav_resource "/b/" true; dav_resource "/b/a.txt" false; dav_resource "/b/b.txt" false].


(** Configuration and a signed request whose header checks pass. *)
Definition sample_env : Env :=
  {| WEBDAV_URL := "https://dav.example/"; WEBDAV_USERNAME := "u"; WEBDAV_PASSWORD := "p";
     S3_ACCESS_KEY_ID := "AK"; S3_SECRET_ACCESS_KEY := "SK"; S3_REGION := "us-east-1" |}.

Definition sample_auth : string :=
  "AWS4-HMAC-SHA256 Credential=AK/20200101/us-east-1/s3/aws4_request, SignedHeaders=host;x-amz-date, Signature=0123abcd".

Definition sample_request (query : list (string * string)) (extra : Headers) : Request :=
  {| method := "GET"; url := "https://gateway.example/b/k"; pathname := "/b/k"; searchParams := query;
     headers := app [("authorization", sample_auth); ("host", "gateway.example")] extra |}.

End Examples.


(** ** Readings of the specification

    Definitions that follow the wording of the specification, to be
    compared with the embedded code. *)
Module ListingSpec.
Import Dav Operations.

(** What one resource of a listing contributes: an object, a common
    prefix, or nothing. *)
Inductive Outcome := AsObject (o : S3Object) | AsPrefix (p : string) | Skipped.

Section Outcome.
Context `{Host}.

Definition outcome (ctx : S3RequestContext) (delimiter : string) (r : WebDAVResource) : Outcome :=
  let k := resourceKey ctx r in
  if negb (String.eqb delimiter "") && isCollection r
  then AsPrefix (if ends_with_slash k then k else k ++ "/")
  else if isCollection r then Skipped else AsObject (toS3Object k r).

Definition object_part (ctx : S3RequestContext) (delimiter : string) (r : WebDAVResource) : list S3Object :=
  match outcome ctx delimiter r with AsObject o => [o] | _ => [] end.

Definition prefix_part (ctx : S3RequestContext) (delimiter : string) (r : WebDAVResource) : list string :=
  match outcome ctx delimiter r with AsPrefix p => [p] | _ => [] end.

End Outcome.

(** The first occurrence of each string not in [seen], in order. *)
Fixpoint dedup_from (seen : list string) (l : list string) : list string :=
  match l with
  | [] => []
  | x :: r => if mem x seen then dedup_from seen r else x :: dedup_from (x :: seen) r
  end.

End ListingSpec.


Module SignatureSpec.

(** A lower-case hexadecimal digit: [0-9a-f]. *)
Definition lower_hex (c : ascii) : bool :=
  Js.is_digit c || ((97 <=? Js.code c)%nat && (Js.code c <=? 102)%nat).

(** Byte-lexicographic order on strings. *)
Fixpoint byte_compare (a b : string) : comparison :=
  match a, b with
  | EmptyString, EmptyString => Eq
  | EmptyString, String _ _ => Lt
  | String _ _, EmptyString => Gt
  | String x a', String y b' =>
      match Nat.compare (Js.code x) (Js.code y) with
      | Eq => byte_compare a' b'
      | c => c
      end
  end.

(** The canonical query string as the specification describes it: the
    parameters sorted by key in byte order, key and value percent-encoded,
    joined as [key=value] pairs with [&]. *)
Definition byteSortedQueryString (params : list (string * string)) : string :=
  Js.join "&"
    (map (fun '(k, v) => Crypto.uriEncode k true ++ "=" ++ Crypto.uriEncode v true)
       (Sort.sort (fun a b => byte_compare (fst a) (fst b)) params)).

(** The form [YYYYMMDDTHHMMSSZ]: a template where [D] stands for a
    decimal digit and any other character for itself. *)
Fixpoint matches (template s : string) : bool :=
  match template, s with
  | EmptyString, EmptyString => true
  | String t template', String c s' =>
      (if Ascii.eqb t "D" then Js.is_digit c else Ascii.eqb t c) && matches template' s'
  | _, _ => false
  end.

Definition aws_basic_format (s : string) : bool := matches "DDDDDDDDTDDDDDDZ" s.

(** UTC fields of a date with a four-digit year. *)
Definition date_in_range (f : DateFields) : bool :=
  (1000 <=? utcFullYear f)%Z && (utcFullYear f <=? 9999)%Z
  && (0 <=? utcMonth f)%Z && (utcMonth f <=? 11)%Z
  && (1 <=? utcDate f)%Z && (utcDate f <=? 31)%Z
  && (0 <=? utcHours f)%Z && (utcHours f <=? 23)%Z
  && (0 <=? utcMinutes f)%Z && (utcMinutes f <=? 59)%Z
  && (0 <=? utcSeconds f)%Z && (utcSeconds f <=? 59)%Z.

(** The maximal runs of non-white-space characters of a string, in order;
    [cur] is the run read so far. *)
Fixpoint words_from (cur s : string) : list string :=
  match s with
  | EmptyString => if String.eqb cur "" then [] else [cur]
  | String c r =>
      if Js.is_space c then
        (if String.eqb cur "" then words_from "" r else cur :: words_from "" r)
      else words_from (cur ++ String c "") r
  end.

Definition words (s : string) : list string := words_from "" s.

End SignatureSpec.


Module PresignSpec.

(** A string with no [/], i.e. a single path segment. *)
Definition no_slash (s : string) : bool :=
  forallb (fun c => negb (Ascii.eqb c "/")) (list_ascii_of_string s).

End PresignSpec.

Module CodecSpec.

(** The value of a hexadecimal digit of either case. *)
Definition hex_value (c : ascii) : option nat :=
  let n := Js.code c in
  if Js.is_digit c then Some (n - 48)
  else if (65 <=? n)%nat && (n <=? 70)%nat then Some (n - 55)
  else if (97 <=? n)%nat && (n <=? 102)%nat then Some (n - 87)
  else None.

(** [s] without its prefix [p], if [p] is a prefix of it. *)
Fixpoint strip_prefix (p s : string) : option string :=
  match p, s with
  | EmptyString, _ => Some s
  | String a p', String b s' => if Ascii.eqb a b then strip_prefix p' s' else None
  | String _ _, EmptyString => None
  end.

(** A decoder reading one character at a time with [step]; [fuel] bounds
    the number of characters read. *)
Fixpoint decode_with (step : string -> option (ascii * string)) (fuel : nat) (s : string) : string :=
  match fuel with
  | O => ""
  | S f => match step s with None => "" | Some (c, r) => String c (decode_with step f r) end
  end.

(** Percent-decoding of bytes: [%XY] with hex digits [X], [Y] is the byte
    [0xXY], any other character stands for itself. *)
Definition percent_first (s : string) : option (ascii * string) :=
  match s with
  | EmptyString => None
  | String c r =>
      if Ascii.eqb c "%" then
        match r with
        | String a (String b t) =>
            match hex_value a, hex_value b with
            | Some x, Some y => Some (ascii_of_nat (16 * x + y), t)
            | _, _ => Some (c, r)
            end
        | _ => Some (c, r)
        end
      else Some (c, r)
  end.

Definition percent_decode (s : string) : string := decode_with percent_first (String.length s) s.

(** The unreserved characters of RFC 3986, which SigV4 leaves unencoded. *)
Definition aws_unreserved (c : ascii) : bool :=
  Js.is_alpha c || Js.is_digit c || existsb (fun d => Ascii.eqb c d) ["-"; "_"; "."; "~"]%char.

(** Decoding of the five XML entities [&amp;], [&lt;], [&gt;], [&quot;],
    [&apos;]. *)
Definition entity_first (s : string) : option (ascii * string) :=
  match strip_prefix "&amp;" s with Some r => Some ("&"%char, r) | None =>
  match strip_prefix "&lt;" s with Some r => Some ("<"%char, r) | None =>
  match strip_prefix "&gt;" s with Some r => Some (">"%char, r) | None =>
  match strip_prefix "&quot;" s with Some r => Some (Xml.dquote, r) | None =>
  match strip_prefix "&apos;" s with Some r => Some ("'"%char, r) | None =>
  match s with EmptyString => None | String c r => Some (c, r) end
  end end end end end.

Definition xml_unescape (s : string) : string := decode_with entity_first (String.length s) s.

(** The text after the first occurrence of [p] in [s]. *)
Fixpoint after (p s : string) : option string :=
  match strip_prefix p s with
  | Some r => Some r
  | None => match s with EmptyString => None | String _ r => after p r end
  end.

(** The characters of [s] before its first [<]. *)
Fixpoint upto_lt (s : string) : string :=
  match s with
  | EmptyString => EmptyString
  | String c r => if Ascii.eqb c "<" then EmptyString else String c (upto_lt r)
  end.

(** What an XML reader takes as the text of the first [tag] element of
    [xml]: the characters from its opening tag to the next [<], with the
    entities decoded. *)
Definition element_text (tag xml : string) : option string :=
  match after ("<" ++ tag ++ ">") xml with
  | Some r => Some (xml_unescape (upto_lt r))
  | None => None
  end.

(** A character XML markup gives a meaning to outside an entity. *)
Definition markup_char (c : ascii) : bool :=
  existsb (fun d => Ascii.eqb c d) ["<"; ">"; "'"; Xml.dquote]%char.

(** Reading pairs of hexadecimal digits as bytes. *)
Definition hex_byte_first (s : string) : option (ascii * string) :=
  match s with
  | String a (String b t) =>
      match hex_value a, hex_value b with
      | Some x, Some y => Some (ascii_of_nat (16 * x + y), t)
      | _, _ => None
      end
  | _ => None
  end.

Definition unhex (s : string) : bytes := list_ascii_of_string (decode_with hex_byte_first (String.length s) s).

(** [s] does not contain the character [c]. *)
Definition free_of (c : ascii) (s : string) : bool :=
  forallb (fun d => negb (Ascii.eqb d c)) (list_ascii_of_string s).

(** The encoding of a string character by character: [flat enc s] is the
    concatenation of [enc c] over the characters [c] of [s]. *)
Fixpoint flat (enc : ascii -> string) (s : string) : string :=
  match s with EmptyString => "" | String c r => enc c ++ flat enc r end.

(** A word of a whitespace-separated list: non-empty, without white space. *)
Definition word_ok (w : string) : bool :=
  negb (String.eqb w "") && forallb (fun c => negb (Js.is_space c)) (list_ascii_of_string w).

End CodecSpec.

Module RoutingSpec.

(** The directories [/p1/], [/p1/p2/], ... formed by the segments of a
    path but the last. *)
Definition ancestor_dirs (parts : list string) : list string :=
  map (fun i => "/" ++ Js.join "/" (firstn i parts) ++ "/") (seq 1 (length parts - 1)).

End RoutingSpec.

Module EntrySpec.
Import Dav Operations Errors Routing.

(** The reply of GetObject and HeadObject to the answer [resp] of the
    WebDAV server: the object on a 2xx, NoSuchKey on a 404, and an
    InternalError with the status after [errPrefix] otherwise. *)
Definition read_reply (ctx : S3RequestContext) (errPrefix : string) (bodyOf : DavResponse -> option string)
    (resp : DavResponse) : Reply :=
  if ok resp then ObjectOk (bodyOf resp)
  else if (status resp =? 404)%Z then S3 (NoSuchKey (key ctx))
  else S3 (InternalError (errPrefix ++ Num.to_string (status resp))).

(** The line [onRequest] prints for an authenticated request. *)
Definition operation_line (ctx : S3RequestContext) (op : S3Operation) : Event :=
  Logged ("S3 " ++ Entry.operation_name op ++ ": bucket=" ++ bucket ctx ++ ", key=" ++ key ctx).

(** The WebDAV credentials can be sent as Basic authentication. *)
Definition latin1_credentials (env : Env) : bool :=
  Js.latin1_only (WEBDAV_USERNAME env ++ ":" ++ WEBDAV_PASSWORD env).

End EntrySpec.

(** A request signed with the secret key of [Examples.sample_env], on the
    placeholder platform. *)
Module EntryExamples.
Import Dav Operations Examples.
#[local] Existing Instance placeholder_host.

Definition example_auth (signature : string) : string :=
  "AWS4-HMAC-SHA256 Credential=AK/20200101/us-east-1/s3/aws4_request, SignedHeaders=host;x-amz-date, Signature="
  ++ signature.

Definition example_request (meth path signature : string) : Request :=
  {| method := meth; url := "https://gateway.example" ++ path; pathname := path; searchParams := [];
     headers := [("authorization", example_auth signature); ("host", "gateway.example");
                 ("x-amz-date", "20200101T000000Z")] |}.

(** The signature [checkSignature] computes for [example_request]. *)
Definition computed_signature (meth path : string) : string :=
  match Signature.prepare (example_request meth path "0") sample_env None with
  | Signature.Continue p =>
      let c := Signature.p_components p in
      Crypto.arrayBufferToHex
        (Crypto.hmacSha256
           (Crypto.KeyBuffer (Signature.getSigningKey (S3_SECRET_ACCESS_KEY sample_env)
                                (Signature.dateStamp c) (Signature.region c) (Signature.service c)))
           (Signature.p_stringToSign p))
  | Signature.Return _ => ""
  end.

Definition signed_request (meth path : string) : Request :=
  example_request meth path (computed_signature meth path).

(** The configuration of [sample_env] with another access key. *)
Definition other_key_env : Env :=
  {| WEBDAV_URL := "https://dav.example/"; WEBDAV_USERNAME := "u"; WEBDAV_PASSWORD := "p";
     S3_ACCESS_KEY_ID := "ZZ"; S3_SECRET_ACCESS_KEY := "SK"; S3_REGION := "us-east-1" |}.

(** The parameters of [onRequest] the examples do not exercise. *)
Definition no_presign : S3RequestContext -> M Routing.Reply := fun _ => ret (Routing.S3 NoContent).
Definition origin_of (u : string) : string := u.
Definition no_body (r : Request) : bool := false.

(** The message of the exception [btoa] raises in the examples. *)
Definition btoa_failure : string := "InvalidCharacterError".

(** The euro sign U+20AC in UTF-8: a character btoa refuses. *)
Definition euro : string :=
  String (Ascii.ascii_of_nat 226) (String (Ascii.ascii_of_nat 130) (String (Ascii.ascii_of_nat 172) EmptyString)).

(** [sample_env] with a WebDAV password that has a character above U+00FF. *)
Definition euro_password_env : Env :=
  {| WEBDAV_URL := "https://dav.example/"; WEBDAV_USERNAME := "u"; WEBDAV_PASSWORD := euro;
     S3_ACCESS_KEY_ID := "AK"; S3_SECRET_ACCESS_KEY := "SK"; S3_REGION := "us-east-1" |}.

End EntryExamples.

Module Predicates.
Import Dav.

(** [ancestor_steps srv log cur parts ev]: starting from the directory
    [cur] with the events [log] so far, walking the components [parts]
    (all but the last one are directories) produces the events [ev], with
    the answers of [srv]: for each directory [dir] a HEAD of [dir/]; when
    it is not 2xx a MKCOL of [dir/]; when that is neither 2xx nor 405 a
    warning naming [dir] and the status; and nothing else. *)
Inductive ancestor_steps (srv : Server) : list Event -> string -> list string -> list Event -> Prop :=
| steps_nil log cur : ancestor_steps srv log cur [] []
| steps_last log cur name : ancestor_steps srv log cur [name] []
| steps_exists log cur part next rest h ev :
    let dir := cur ++ "/" ++ part in
    let hd := {| dav_method := HEAD; dav_path := dir ++ "/" |} in
    srv log hd = Some h -> ok h = true ->
    ancestor_steps srv (app log [Sent hd]) dir (next :: rest) ev ->
    ancestor_steps srv log cur (part :: next :: rest) (Sent hd :: ev)
| steps_created log cur part next rest h m ev :
    let dir := cur ++ "/" ++ part in
    let hd := {| dav_method := HEAD; dav_path := dir ++ "/" |} in
    let mk := {| dav_method := MKCOL; dav_path := dir ++ "/" |} in
    srv log hd = Some h -> ok h = false ->
    srv (app log [Sent hd]) mk = Some m -> (ok m = true \/ status m = 405%Z) ->
    ancestor_steps srv (app log [Sent hd; Sent mk]) dir (next :: rest) ev ->
    ancestor_steps srv log cur (part :: next :: rest) (Sent hd :: Sent mk :: ev)
| steps_failed log cur part next rest h m ev :
    let dir := cur ++ "/" ++ part in
    let hd := {| dav_method := HEAD; dav_path := dir ++ "/" |} in
    let mk := {| dav_method := MKCOL; dav_path := dir ++ "/" |} in
    let w := Warned ("Failed to create directory " ++ dir ++ ": " ++ Num.to_string (status m)) in
    srv log hd = Some h -> ok h = false ->
    srv (app log [Sent hd]) mk = Some m -> ok m = false -> status m <> 405%Z ->
    ancestor_steps srv (app log [Sent hd; Sent mk; w]) dir (next :: rest) ev ->
    ancestor_steps srv log cur (part :: next :: rest) (Sent hd :: Sent mk :: w :: ev).


(** [f] holds on the [n] integers from [lo]. *)
Fixpoint check_range (f : Z -> bool) (lo : Z) (n : nat) : bool :=
  match n with
  | O => true
  | S n' => f lo && check_range f (lo + 1)%Z n'
  end.

(** A string that does not end with white space. *)
Fixpoint ok_end (s : string) : bool :=
  match s with
  | EmptyString => true
  | String c EmptyString => negb (Js.is_space c)
  | String _ r => ok_end r
  end.

(** A string that does not start with white space. *)
Definition ok_start (s : string) : bool :=
  match s with EmptyString => true | String c _ => negb (Js.is_space c) end.

End Predicates.

(** * Properties *)

Module OperationsFacts.
Import Dav Operations Examples Predicates.

Lemma fetch_answered (r : DavRequest) (srv : Server) log resp :
  srv log r = Some resp -> fetch r srv log = (inr resp, app log [Sent r]).
Proof. intros E. unfold fetch. rewrite E. reflexivity. Qed.

Lemma bind_step {A B} (m : M A) (k : A -> M B) srv log a log' :
  m srv log = (inr a, log') -> bind m k srv log = k a srv log'.
Proof. intros E. unfold bind. rewrite E. reflexivity. Qed.

Lemma ensureDirs_cons cur part part2 rest :
  ensureDirs cur (part :: part2 :: rest) =
  (let currentPath' := cur ++ "/" ++ part in
   headResponse <- head (currentPath' ++ "/") ;;
   (if ok headResponse then ret tt
    else
      mkcolResponse <- mkcol (currentPath' ++ "/") ;;
      if negb (ok mkcolResponse) && negb (status mkcolResponse =? 405)%Z then
        emit (Warned ("Failed to create directory " ++ currentPath' ++ ": "
                      ++ Num.to_string (status mkcolResponse)))
      else ret tt) ;;;
   ensureDirs currentPath' (part2 :: rest)).
Proof. reflexivity. Qed.

Lemma ensureDirs_steps (srv : Server) :
  (forall l r, srv l r <> None) ->
  forall parts cur log, exists ev,
    ensureDirs cur parts srv log = (inr tt, app log ev) /\ ancestor_steps srv log cur parts ev.
Proof.
  intros Hsrv parts. induction parts as [|part rest IH]; intros cur log.
  - exists []. rewrite app_nil_r. split; [reflexivity|constructor].
  - destruct rest as [|part2 rest'].
    + exists []. rewrite app_nil_r. split; [reflexivity|constructor].
    + rewrite ensureDirs_cons.
      set (cur' := cur ++ "/" ++ part).
      set (rh := {| dav_method := HEAD; dav_path := cur' ++ "/" |}).
      set (rm := {| dav_method := MKCOL; dav_path := cur' ++ "/" |}).
      destruct (srv log rh) as [h|] eqn:Eh; [|exfalso; eapply Hsrv; exact Eh].
      rewrite (bind_step _ _ _ _ h (app log [Sent rh])) by (apply fetch_answered; exact Eh).
      destruct (ok h) eqn:Ok.
      * destruct (IH cur' (app log [Sent rh])) as [ev [E F]].
        rewrite (bind_step _ _ _ _ tt (app log [Sent rh])) by reflexivity.
        exists (Sent rh :: ev).
        cbv beta. rewrite E, <- app_assoc. split; [reflexivity|].
        eapply steps_exists; [exact Eh|exact Ok|exact F].
      * destruct (srv (app log [Sent rh]) rm) as [m|] eqn:Em; [|exfalso; eapply Hsrv; exact Em].
        destruct (negb (ok m) && negb (status m =? 405)%Z) eqn:Ew.
        -- set (w := Warned ("Failed to create directory " ++ cur' ++ ": " ++ Num.to_string (status m))).
           rewrite (bind_step _ _ _ _ tt (app (app (app log [Sent rh]) [Sent rm]) [w])).
           2:{ rewrite (bind_step _ _ _ _ m (app (app log [Sent rh]) [Sent rm]))
                 by (apply fetch_answered; exact Em).
               rewrite Ew. reflexivity. }
           destruct (IH cur' (app log [Sent rh; Sent rm; w])) as [ev [E F]].
           exists (Sent rh :: Sent rm :: w :: ev).
           cbv beta. rewrite <- !app_assoc. cbn [app]. rewrite E. rewrite <- app_assoc.
           split; [reflexivity|].
           apply andb_true_iff in Ew as [Ew1 Ew2]. apply negb_true_iff in Ew1, Ew2.
           apply Z.eqb_neq in Ew2.
           eapply steps_failed; [exact Eh|exact Ok|exact Em|exact Ew1|exact Ew2|exact F].
        -- rewrite (bind_step _ _ _ _ tt (app (app log [Sent rh]) [Sent rm])).
           2:{ rewrite (bind_step _ _ _ _ m (app (app log [Sent rh]) [Sent rm]))
                 by (apply fetch_answered; exact Em).
               rewrite Ew. reflexivity. }
           destruct (IH cur' (app log [Sent rh; Sent rm])) as [ev [E F]].
           exists (Sent rh :: Sent rm :: ev).
           cbv beta. rewrite <- !app_assoc. cbn [app]. rewrite E. rewrite <- app_assoc.
           split; [reflexivity|].
           eapply steps_created; [exact Eh|exact Ok|exact Em| |exact F].
           destruct (ok m) eqn:Om; [left; reflexivity|right].
           cbn [negb andb] in Ew. apply negb_false_iff, Z.eqb_eq in Ew. exact Ew.
Qed.

(** C3 (counterexample): MKCOL of the ancestor [/b/] fails with 409,
    which is not 405, yet the PUT of [b/d/f.txt] is still sent and the
    operation answers 200 rather than InternalError; the failures are only
    logged as warnings. *)
Lemma put_object_mkcol_conflict_still_uploads :
  mkcol_conflict_server [] {| dav_method := MKCOL; dav_path := "/b/" |} = Some {| status := 409; body := "" |} /\
  handlePutObject (nested_ctx true) mkcol_conflict_server [] =
    (inr PutObjectOk,
     [Sent {| dav_method := HEAD; dav_path := "/b/" |};
      Sent {| dav_method := MKCOL; dav_path := "/b/" |};
      Warned "Failed to create directory /b: 409";
      Sent {| dav_method := HEAD; dav_path := "/b/d/" |};
      Sent {| dav_method := MKCOL; dav_path := "/b/d/" |};
      Warned "Failed to create directory /b/d: 409";
      Sent {| dav_method := PUT; dav_path := "b/d/f.txt" |}]).
Proof. split; reflexivity. Qed.

(** C3 (amended): no outcome of the ancestor-directory creation aborts
    PutObject.  As long as the WebDAV server answers, the requests before
    the upload walk the ancestor directories in order: a HEAD of each, a
    MKCOL of each one whose HEAD is not 2xx, and after a MKCOL answered
    neither 2xx nor 405 (and only then) the console warning "Failed to
    create directory <dir>: <status>"; a 405 adds nothing.  The PUT of the
    target path is then always sent, and the response is 200 when the PUT
    status is 2xx, 201 or 204, InternalError otherwise. *)
Theorem put_object_ancestor_failures_nonfatal (ctx : S3RequestContext) (srv : Server) log :
  has_body ctx = true ->
  (forall l r, srv l r <> None) ->
  let path := buildWebDAVPath (bucket ctx) (key ctx) in
  exists ev resp,
    ancestor_steps srv log "" (filter (fun p => negb (String.eqb p "")) (Js.split "/" path)) ev /\
    srv (app log ev) {| dav_method := PUT; dav_path := path |} = Some resp /\
    handlePutObject ctx srv log =
      (inr (if negb (ok resp) && negb (status resp =? 201)%Z && negb (status resp =? 204)%Z
            then InternalError ("WebDAV PUT failed: " ++ Num.to_string (status resp))
            else PutObjectOk),
       app (app log ev) [Sent {| dav_method := PUT; dav_path := path |}]).
Proof.
  intros Hb Hsrv path.
  destruct (ensureDirs_steps srv Hsrv (filter (fun p => negb (String.eqb p "")) (Js.split "/" path)) "" log)
    as [ev [E F]].
  destruct (srv (app log ev) {| dav_method := PUT; dav_path := path |}) as [resp|] eqn:Ep;
    [|exfalso; eapply Hsrv; exact Ep].
  exists ev, resp. split; [exact F|]. split; [exact Ep|].
  unfold handlePutObject. rewrite Hb. cbn [negb].
  fold path.
  rewrite (bind_step _ _ _ _ tt (app log ev)) by exact E.
  cbv beta.
  rewrite (bind_step _ _ _ _ resp (app (app log ev) [Sent {| dav_method := PUT; dav_path := path |}]))
    by (apply fetch_answered; exact Ep).
  destruct (negb (ok resp) && negb (status resp =? 201)%Z && negb (status resp =? 204)%Z); reflexivity.
Qed.

Lemma put_object_ancestor_failures_nonfatal_witness :
  has_body (nested_ctx true) = true /\
  (forall l r, mkcol_conflict_server l r <> None) /\
  (exists ev resp,
    ancestor_steps mkcol_conflict_server [] "" ["b"; "d"; "f.txt"] ev /\
    mkcol_conflict_server (app [] ev) {| dav_method := PUT; dav_path := "b/d/f.txt" |} = Some resp /\
    handlePutObject (nested_ctx true) mkcol_conflict_server [] =
      (inr (if negb (ok resp) && negb (status resp =? 201)%Z && negb (status resp =? 204)%Z
            then InternalError ("WebDAV PUT failed: " ++ Num.to_string (status resp))
            else PutObjectOk),
       app (app [] ev) [Sent {| dav_method := PUT; dav_path := "b/d/f.txt" |}])).
Proof.
  assert (A : forall l r, mkcol_conflict_server l r <> None).
  { intros l r. unfold mkcol_conflict_server. destruct (dav_method r); discriminate. }
  split; [reflexivity|]. split; [exact A|].
  exact (put_object_ancestor_failures_nonfatal (nested_ctx true) mkcol_conflict_server [] eq_refl A).
Defined.

(** C8: DeleteObject answers 204 (no content) when the upstream DELETE
    succeeds (2xx) or answers 404, and InternalError (500) for any other
    upstream status. *)
Theorem delete_object_success_or_404 (ctx : S3RequestContext) (srv : Server) log resp :
  srv log {| dav_method := DELETE; dav_path := buildWebDAVPath (bucket ctx) (key ctx) |} = Some resp ->
  handleDeleteObject ctx srv log =
    (inr (if ok resp || (status resp =? 404)%Z then NoContent
          else InternalError ("WebDAV DELETE failed: " ++ Num.to_string (status resp))),
     app log [Sent {| dav_method := DELETE; dav_path := buildWebDAVPath (bucket ctx) (key ctx) |}]).
Proof.
  intros E. unfold handleDeleteObject.
  rewrite (bind_step _ _ _ _ resp _) by (apply fetch_answered; exact E).
  destruct (ok resp), (status resp =? 404)%Z; reflexivity.
Qed.

Lemma delete_object_success_or_404_witness :
  constant_server 404 [] {| dav_method := DELETE; dav_path := "b/d/f.txt" |} = Some {| status := 404; body := "" |} /\
  handleDeleteObject (nested_ctx false) (constant_server 404) [] =
    (inr NoContent, [Sent {| dav_method := DELETE; dav_path := "b/d/f.txt" |}]).
Proof.
  split; [reflexivity|].
  apply (delete_object_success_or_404 (nested_ctx false) (constant_server 404) [] {| status := 404; body := "" |}).
  reflexivity.
Defined.

End OperationsFacts.

Module ListingFacts.
Import Dav Operations ListingSpec.

Lemma mem_In x l : mem x l = true <-> In x l.
Proof.
  induction l as [|y l IH]; simpl.
  - split; [discriminate|tauto].
  - rewrite orb_true_iff, IH, String.eqb_eq. split; intros [E|E]; auto.
Qed.

Lemma dedup_from_In seen l x : In x (dedup_from seen l) <-> In x l /\ mem x seen = false.
Proof.
  revert seen. induction l as [|y l IH]; intros seen; simpl.
  - tauto.
  - destruct (mem y seen) eqn:Ey.
    + rewrite IH. split; [tauto|]. intros [[<-|I] M]; [congruence|tauto].
    + simpl. rewrite IH. simpl. rewrite orb_false_iff, String.eqb_neq.
      split.
      * intros [<-|[I [N M]]]; [tauto|tauto].
      * intros [[<-|I] M]; [tauto|].
        destruct (String.eqb_spec x y) as [->|N]; [tauto|]. right. tauto.
Qed.

Lemma dedup_from_NoDup seen l : NoDup (dedup_from seen l).
Proof.
  revert seen. induction l as [|y l IH]; intros seen; simpl.
  - constructor.
  - destruct (mem y seen) eqn:Ey; [apply IH|].
    constructor; [|apply IH].
    rewrite dedup_from_In. simpl. rewrite String.eqb_refl. intros [_ E]; discriminate.
Qed.

Section Listing.
Context `{Host}.

Lemma collect_spec ctx delimiter rs cont cps seen :
  collect ctx delimiter rs cont cps seen =
  (app cont (flat_map (object_part ctx delimiter) rs),
   app cps (dedup_from seen (flat_map (prefix_part ctx delimiter) rs))).
Proof.
  revert cont cps seen. induction rs as [|r rs IH]; intros cont cps seen; simpl.
  - rewrite !app_nil_r. reflexivity.
  - unfold object_part at 1, prefix_part at 1, outcome.
    destruct (negb (String.eqb delimiter "") && isCollection r) eqn:Ep.
    + cbn [app].
      destruct (mem _ seen) eqn:Em; simpl; rewrite Em, IH; [reflexivity|].
      rewrite <- app_assoc. reflexivity.
    + destruct (isCollection r) eqn:Ec; simpl; rewrite IH; [reflexivity|].
      rewrite <- app_assoc. reflexivity.
Qed.

Lemma translateListing_fields ctx prefix delimiter maxKeys resources :
  let cs := collect ctx delimiter (skipn 1 resources) [] [] [] in
  translateListing ctx prefix delimiter maxKeys resources =
  {| name := bucket ctx; prefix := prefix; delimiter := delimiter; maxKeys := maxKeys;
     isTruncated := Num.gt (Z.of_nat (length (sortByKey (fst cs)))) maxKeys;
     contents := Num.slice0 (sortByKey (fst cs)) maxKeys; commonPrefixes := snd cs |}.
Proof.
  cbv zeta. unfold translateListing.
  destruct (collect ctx delimiter (skipn 1 resources) [] [] []). reflexivity.
Qed.

Lemma slice0_incl {A} (l : list A) e x : In x (Num.slice0 l e) -> In x l.
Proof.
  intros I. rewrite <- (firstn_skipn (match e with Num.Int z =>
      if (z <? 0)%Z then Z.to_nat (Z.max 0 (Z.of_nat (length l) + z)) else Z.to_nat z | Num.NaN => 0 end) l).
  apply in_or_app. left.
  destruct e as [z|]; [|destruct I]. unfold Num.slice0 in I.
  destruct (z <? 0)%Z; exact I.
Qed.


Lemma propfind_answered parse path depth (srv : Server) log resp :
  srv log {| dav_method := PROPFIND depth; dav_path := path |} = Some resp ->
  propfind parse path depth srv log =
    (if negb (ok resp)
     then (if (status resp =? 404)%Z then inr [] else inl ("PROPFIND failed: " ++ Num.to_string (status resp)))
     else inr (parse (body resp) path),
     app log [Sent {| dav_method := PROPFIND depth; dav_path := path |}]).
Proof.
  intros E. unfold propfind.
  rewrite (OperationsFacts.bind_step _ _ _ _ resp _) by (apply OperationsFacts.fetch_answered; exact E).
  destruct (negb (ok resp)); [destruct (status resp =? 404)%Z|]; reflexivity.
Qed.

Lemma handleListBucket_resources parse ctx (srv : Server) log resp :
  srv log {| dav_method := PROPFIND "1"; dav_path := listSearchPath ctx |} = Some resp ->
  (ok resp = true \/ status resp = 404%Z) ->
  handleListBucket parse ctx srv log =
    (inr (ListBucketOk (translateListing ctx (listPrefix ctx) (listDelimiter ctx) (listMaxKeys ctx)
                          (if ok resp then parse (body resp) (listSearchPath ctx) else []))),
     app log [Sent {| dav_method := PROPFIND "1"; dav_path := listSearchPath ctx |}]).
Proof.
  intros E Hr. unfold handleListBucket. cbv zeta.
  unfold bind at 1, try_catch. rewrite (propfind_answered _ _ _ _ _ _ E).
  destruct (ok resp) eqn:Ok; [reflexivity|].
  destruct Hr as [Hr|Hr]; [discriminate|]. rewrite Hr. reflexivity.
Qed.

(** C7: in a listing, every resource after the first one has exactly one
    outcome (an object, a common prefix, or a skip), so it contributes to
    at most one of [contents] and [commonPrefixes]; the objects are those
    of the resources in order, and [commonPrefixes] lists each prefix
    produced by some resource exactly once, in the order of its first
    occurrence.  The listing result carries these prefixes, and its
    contents are objects of the resources. *)
Theorem listing_partition (ctx : S3RequestContext) (prefix delimiter : string) (maxKeys : Num.JsNum)
    (resources : list WebDAVResource) :
  let children := skipn 1 resources in
  let cs := collect ctx delimiter children [] [] [] in
  (forall r, length (object_part ctx delimiter r) + length (prefix_part ctx delimiter r) <= 1) /\
  fst cs = flat_map (object_part ctx delimiter) children /\
  snd cs = dedup_from [] (flat_map (prefix_part ctx delimiter) children) /\
  NoDup (snd cs) /\
  (forall p, In p (snd cs) <-> exists r, In r children /\ outcome ctx delimiter r = AsPrefix p) /\
  commonPrefixes (translateListing ctx prefix delimiter maxKeys resources) = snd cs /\
  (forall o, In o (contents (translateListing ctx prefix delimiter maxKeys resources)) ->
     exists r, In r children /\ outcome ctx delimiter r = AsObject o).
Proof.
  cbv zeta. rewrite translateListing_fields, collect_spec. cbn [fst snd app contents commonPrefixes].
  split; [|split; [reflexivity|split; [reflexivity|split; [apply dedup_from_NoDup|split]]]].
  - intros r. unfold object_part, prefix_part. destruct (outcome ctx delimiter r); simpl; lia.
  - intros p. rewrite dedup_from_In, in_flat_map. simpl. split.
    + intros [[r [I P]] _]. exists r. split; [exact I|].
      unfold prefix_part in P. destruct (outcome ctx delimiter r); simpl in P; try tauto.
      destruct P as [<-|[]]. reflexivity.
    + intros [r [I E]]. split; [|reflexivity]. exists r. split; [exact I|].
      unfold prefix_part. rewrite E. left. reflexivity.
  - split; [reflexivity|].
    intros o I. apply slice0_incl in I.
    unfold sortByKey in I. apply (Permutation_in _ (Permutation_sym (Sort.sort_perm _ _))) in I.
    apply in_flat_map in I. destruct I as [r [I P]]. exists r. split; [exact I|].
    unfold object_part in P. destruct (outcome ctx delimiter r); simpl in P; try tauto.
    destruct P as [<-|[]]. reflexivity.
Qed.

(** C6 (counterexample): [max-keys] is not validated.  With two objects,
    [max-keys=-1] yields one entry (all but the last, by [slice(0, -1)])
    with isTruncated true, so contents are not capped to [maxKeys]
    entries; [max-keys=abc] parses to NaN and yields no entry at all with
    isTruncated false. *)
Lemma list_bucket_unvalidated_max_keys :
  length (fst (@collect Examples.placeholder_host (Examples.list_ctx []) ""
                 (skipn 1 (Examples.two_files_parser "" "")) [] [] [])) = 2 /\
  fst (@handleListBucket Examples.placeholder_host Examples.two_files_parser
         (Examples.list_ctx [("max-keys", "-1")]) (Examples.constant_server 207) []) =
    inr (ListBucketOk {| name := "b"; prefix := ""; delimiter := ""; maxKeys := Num.Int (-1);
                         isTruncated := true;
                         contents := [toS3Object "a.txt"
                                        (Examples.dav_resource "/b/a.txt" false)];
                         commonPrefixes := [] |}) /\
  fst (@handleListBucket Examples.placeholder_host Examples.two_files_parser
         (Examples.list_ctx [("max-keys", "abc")]) (Examples.constant_server 207) []) =
    inr (ListBucketOk {| name := "b"; prefix := ""; delimiter := ""; maxKeys := Num.NaN;
                         isTruncated := false; contents := []; commonPrefixes := [] |}).
Proof. split; [|split]; vm_compute; reflexivity. Qed.

(** C6 (amended): when the PROPFIND succeeds, the listing's [maxKeys] is
    [parseInt(max-keys, 10)], 1000 when the parameter is absent or empty.
    For an integer [maxKeys] n, isTruncated is true iff the number of
    translated objects exceeds n, and for n >= 0 the contents are the
    first n objects in sorted order (for n < 0, all but the last -n); a
    NaN [maxKeys] gives no contents and isTruncated false.  The common
    prefixes are never capped.  With the default, 1001 objects give
    exactly 1000 entries and isTruncated true, 1000 objects give
    isTruncated false. *)
Theorem list_bucket_truncation parse ctx (srv : Server) log resp :
  srv log {| dav_method := PROPFIND "1"; dav_path := listSearchPath ctx |} = Some resp ->
  ok resp = true ->
  let cs := collect ctx (listDelimiter ctx) (skipn 1 (parse (body resp) (listSearchPath ctx))) [] [] [] in
  let objs := fst cs in
  exists result,
    handleListBucket parse ctx srv log =
      (inr (ListBucketOk result), app log [Sent {| dav_method := PROPFIND "1"; dav_path := listSearchPath ctx |}]) /\
    maxKeys result = listMaxKeys ctx /\
    (Js.truthy (param ctx "max-keys") = false -> maxKeys result = Num.Int 1000) /\
    (forall n, maxKeys result = Num.Int n ->
       isTruncated result = (n <? Z.of_nat (length objs))%Z /\
       ((0 <= n)%Z -> contents result = firstn (Z.to_nat n) (sortByKey objs)) /\
       ((n < 0)%Z -> contents result = firstn (length objs - Z.to_nat (- n)) (sortByKey objs))) /\
    (maxKeys result = Num.NaN -> contents result = [] /\ isTruncated result = false) /\
    commonPrefixes result = snd cs /\
    (maxKeys result = Num.Int 1000 -> length objs = 1001 ->
       length (contents result) = 1000 /\ isTruncated result = true) /\
    (maxKeys result = Num.Int 1000 -> length objs = 1000 -> isTruncated result = false).
Proof.
  intros E Ok. cbv zeta.
  rewrite (handleListBucket_resources parse ctx srv log resp E (or_introl Ok)), Ok.
  eexists. split; [reflexivity|].
  rewrite translateListing_fields. cbn [maxKeys isTruncated contents commonPrefixes].
  set (objs := fst (collect ctx (listDelimiter ctx) (skipn 1 (parse (body resp) (listSearchPath ctx))) [] [] [])).
  assert (Ls : length (sortByKey objs) = length objs) by apply Sort.sort_length.
  split; [reflexivity|]. split.
  { unfold listMaxKeys. intros T. rewrite T. reflexivity. }
  assert (Hn : forall n, listMaxKeys ctx = Num.Int n ->
            Num.gt (Z.of_nat (length (sortByKey objs))) (listMaxKeys ctx) = (n <? Z.of_nat (length objs))%Z /\
            ((0 <= n)%Z -> Num.slice0 (sortByKey objs) (listMaxKeys ctx) = firstn (Z.to_nat n) (sortByKey objs)) /\
            ((n < 0)%Z -> Num.slice0 (sortByKey objs) (listMaxKeys ctx) =
                          firstn (length objs - Z.to_nat (- n)) (sortByKey objs))).
  { intros n M. rewrite M, Ls. cbn [Num.gt Num.slice0]. split; [reflexivity|]. split.
    - intros P. destruct (n <? 0)%Z eqn:L; [lia|reflexivity].
    - intros P. destruct (n <? 0)%Z eqn:L; [|lia]. rewrite Ls. f_equal. lia. }
  split; [exact Hn|]. split.
  { intros M. rewrite M. split; reflexivity. }
  split; [reflexivity|]. split.
  - intros M L. destruct (Hn 1000%Z M) as [T [C _]]. rewrite T, C by lia. split.
    + rewrite length_firstn, Ls, L. reflexivity.
    + rewrite L. reflexivity.
  - intros M L. destruct (Hn 1000%Z M) as [T _]. rewrite T, L. reflexivity.
Qed.

(** C9 (amended): when the PROPFIND of a listing answers 404, the
    operation still succeeds with a ListBucketResult whose contents and
    common prefixes are empty, and whose isTruncated is true exactly when
    [max-keys] parses to a negative integer. *)
Theorem list_bucket_404_empty parse ctx (srv : Server) log resp :
  srv log {| dav_method := PROPFIND "1"; dav_path := listSearchPath ctx |} = Some resp ->
  status resp = 404%Z ->
  handleListBucket parse ctx srv log =
    (inr (ListBucketOk {| name := bucket ctx; prefix := listPrefix ctx; delimiter := listDelimiter ctx;
                          maxKeys := listMaxKeys ctx;
                          isTruncated := match listMaxKeys ctx with Num.Int z => (z <? 0)%Z | Num.NaN => false end;
                          contents := []; commonPrefixes := [] |}),
     app log [Sent {| dav_method := PROPFIND "1"; dav_path := listSearchPath ctx |}]).
Proof.
  intros E St.
  assert (Ok : ok resp = false) by (unfold ok; rewrite St; reflexivity).
  rewrite (handleListBucket_resources parse ctx srv log resp E (or_intror St)), Ok.
  unfold translateListing. cbn.
  destruct (listMaxKeys ctx) as [z|]; [|reflexivity].
  cbn. rewrite !firstn_nil. destruct (z <? 0)%Z; reflexivity.
Qed.

End Listing.

#[local] Existing Instance Examples.placeholder_host.

Lemma list_bucket_truncation_witness :
  Examples.constant_server 207 [] {| dav_method := PROPFIND "1"; dav_path := listSearchPath (Examples.list_ctx []) |}
    = Some {| status := 207; body := "" |} /\
  ok {| status := 207; body := "" |} = true /\
  (let cs := collect (Examples.list_ctx []) (listDelimiter (Examples.list_ctx []))
               (skipn 1 (Examples.two_files_parser "" (listSearchPath (Examples.list_ctx [])))) [] [] [] in
   let objs := fst cs in
   exists result,
    handleListBucket Examples.two_files_parser (Examples.list_ctx []) (Examples.constant_server 207) [] =
      (inr (ListBucketOk result),
       app [] [Sent {| dav_method := PROPFIND "1"; dav_path := listSearchPath (Examples.list_ctx []) |}]) /\
    maxKeys result = listMaxKeys (Examples.list_ctx []) /\
    (Js.truthy (param (Examples.list_ctx []) "max-keys") = false -> maxKeys result = Num.Int 1000) /\
    (forall n, maxKeys result = Num.Int n ->
       isTruncated result = (n <? Z.of_nat (length objs))%Z /\
       ((0 <= n)%Z -> contents result = firstn (Z.to_nat n) (sortByKey objs)) /\
       ((n < 0)%Z -> contents result = firstn (length objs - Z.to_nat (- n)) (sortByKey objs))) /\
    (maxKeys result = Num.NaN -> contents result = [] /\ isTruncated result = false) /\
    commonPrefixes result = snd cs /\
    (maxKeys result = Num.Int 1000 -> length objs = 1001 ->
       length (contents result) = 1000 /\ isTruncated result = true) /\
    (maxKeys result = Num.Int 1000 -> length objs = 1000 -> isTruncated result = false)).
Proof.
  split; [reflexivity|]. split; [reflexivity|].
  apply (list_bucket_truncation Examples.two_files_parser (Examples.list_ctx []) (Examples.constant_server 207) []
           {| status := 207; body := "" |}); reflexivity.
Defined.

(** C9 (counterexample): a 404 PROPFIND with [max-keys=-1] gives an
    empty listing whose isTruncated is true. *)
Lemma list_bucket_404_truncated :
  handleListBucket Examples.two_files_parser (Examples.list_ctx [("max-keys", "-1")]) (Examples.constant_server 404) [] =
    (inr (ListBucketOk {| name := "b"; prefix := ""; delimiter := ""; maxKeys := Num.Int (-1);
                          isTruncated := true; contents := []; commonPrefixes := [] |}),
     [Sent {| dav_method := PROPFIND "1"; dav_path := "b/" |}]).
Proof. vm_compute. reflexivity. Qed.

Lemma list_bucket_404_empty_witness :
  Examples.constant_server 404 [] {| dav_method := PROPFIND "1"; dav_path := listSearchPath (Examples.list_ctx []) |}
    = Some {| status := 404; body := "" |} /\
  status {| status := 404; body := "" |} = 404%Z /\
  handleListBucket Examples.two_files_parser (Examples.list_ctx []) (Examples.constant_server 404) [] =
    (inr (ListBucketOk {| name := "b"; prefix := ""; delimiter := "";
                          maxKeys := Num.Int 1000; isTruncated := false; contents := []; commonPrefixes := [] |}),
     [Sent {| dav_method := PROPFIND "1"; dav_path := "b/" |}]).
Proof.
  split; [reflexivity|]. split; [reflexivity|].
  apply (list_bucket_404_empty Examples.two_files_parser (Examples.list_ctx []) (Examples.constant_server 404) []
           {| status := 404; body := "" |}); reflexivity.
Defined.

End ListingFacts.

Module SignatureFacts.
Import Signature SignatureSpec Predicates.



Lemma byte_to_hex_shape (b : ascii) :
  String.length (Crypto.byte_to_hex b) = 2 /\
  forallb lower_hex (list_ascii_of_string (Crypto.byte_to_hex b)) = true.
Proof. destruct b as [[] [] [] [] [] [] [] []]; split; reflexivity. Qed.

Lemma append_empty_r (s : string) : s ++ "" = s.
Proof. induction s as [|c s IH]; simpl; [reflexivity|rewrite IH; reflexivity]. Qed.

Lemma concat_empty_sep (l : list string) : String.concat "" l = fold_right String.append "" l.
Proof.
  induction l as [|x [|y r] IH]; [reflexivity|simpl; symmetry; apply append_empty_r|].
  change (x ++ "" ++ String.concat "" (y :: r) = x ++ fold_right String.append "" (y :: r)).
  rewrite <- IH. reflexivity.
Qed.

Lemma list_ascii_app (a b : string) :
  list_ascii_of_string (a ++ b) = app (list_ascii_of_string a) (list_ascii_of_string b).
Proof. induction a as [|c a IH]; simpl; [reflexivity|rewrite IH; reflexivity]. Qed.

Lemma string_length_app (a b : string) : String.length (a ++ b) = String.length a + String.length b.
Proof. induction a as [|c a IH]; simpl; [reflexivity|rewrite IH; reflexivity]. Qed.

Lemma arrayBufferToHex_shape (buf : bytes) :
  String.length (Crypto.arrayBufferToHex buf) = 2 * length buf /\
  forallb lower_hex (list_ascii_of_string (Crypto.arrayBufferToHex buf)) = true.
Proof.
  unfold Crypto.arrayBufferToHex. rewrite concat_empty_sep.
  induction buf as [|b buf [IL IF]]; [split; reflexivity|].
  cbn [map fold_right]. destruct (byte_to_hex_shape b) as [BL BF].
  rewrite string_length_app, list_ascii_app, forallb_app, BL, BF, IL, IF. simpl. split; [lia|reflexivity].
Qed.

Lemma matches_app t1 t2 s1 s2 :
  matches t1 s1 = true -> matches t2 s2 = true -> matches (t1 ++ t2) (s1 ++ s2) = true.
Proof.
  revert s1. induction t1 as [|t t1 IH]; intros [|c s1]; simpl; try discriminate; auto.
  rewrite !andb_true_iff. intros [A B] C. split; [exact A|apply IH; assumption].
Qed.

Lemma check_range_spec f lo n :
  check_range f lo n = true -> forall k, (lo <= k < lo + Z.of_nat n)%Z -> f k = true.
Proof.
  revert lo. induction n as [|n IH]; intros lo C k Hk; simpl in *; [lia|].
  apply andb_true_iff in C. destruct C as [C1 C2].
  destruct (Z.eq_dec k lo) as [->|N]; [exact C1|]. apply (IH (lo + 1)%Z C2). lia.
Qed.

Lemma two_digits_all :
  check_range (fun k => matches "DD" (Num.pad_start 2 (Num.to_string k))) 0 (Z.to_nat 100) = true.
Proof. vm_compute. reflexivity. Qed.

Lemma four_digits_all :
  check_range (fun k => matches "DDDD" (Num.to_string k)) 1000 (Z.to_nat 9000) = true.
Proof. vm_compute. reflexivity. Qed.

Lemma two_digits (k : Z) : (0 <= k <= 99)%Z -> matches "DD" (Num.pad_start 2 (Num.to_string k)) = true.
Proof.
  intros Hk. apply (check_range_spec _ _ _ two_digits_all). rewrite Z2Nat.id by lia. lia.
Qed.

Lemma four_digits (k : Z) : (1000 <= k <= 9999)%Z -> matches "DDDD" (Num.to_string k) = true.
Proof.
  intros Hk. apply (check_range_spec _ _ _ four_digits_all). rewrite Z2Nat.id by lia. lia.
Qed.

Lemma append_assoc_str (a b c : string) : (a ++ b) ++ c = a ++ b ++ c.
Proof. induction a as [|x a IH]; simpl; [reflexivity|rewrite IH; reflexivity]. Qed.

Lemma words_from_nonempty cur s : cur <> "" -> words_from cur s <> [].
Proof.
  revert cur. induction s as [|c r IH]; intros cur N; simpl.
  - destruct (String.eqb_spec cur ""); [contradiction|discriminate].
  - destruct (Js.is_space c).
    + destruct (String.eqb_spec cur ""); [contradiction|discriminate].
    + apply IH. destruct cur; discriminate.
Qed.

Lemma join_cons sep x l : l <> [] -> Js.join sep (x :: l) = x ++ sep ++ Js.join sep l.
Proof. destruct l; [contradiction|reflexivity]. Qed.

Lemma replace_runs_words t :
  ok_end t = true ->
  (forall cur, cur <> "" -> cur ++ Js.replace_ws_runs_from false t = Js.join " " (words_from cur t)) /\
  Js.replace_ws_runs_from true t = Js.join " " (words_from "" t) /\
  (t <> "" -> words_from "" t <> []).
Proof.
  induction t as [|c r IH]; intros Ok.
  - split; [|split; [reflexivity|contradiction]].
    intros cur N. simpl. destruct (String.eqb_spec cur ""); [contradiction|].
    apply append_empty_r.
  - assert (Okr : ok_end r = true) by (destruct r; [reflexivity|exact Ok]).
    destruct (IH Okr) as [I1 [I2 I3]].
    destruct (Js.is_space c) eqn:Sp.
    + assert (Nr : r <> "") by (intros ->; simpl in Ok; rewrite Sp in Ok; discriminate).
      cbn [Js.replace_ws_runs_from words_from]. rewrite Sp. cbn [String.eqb].
      split; [|split; [exact I2|intros _; exact (I3 Nr)]].
      intros cur N. destruct (String.eqb_spec cur ""); [contradiction|].
      rewrite join_cons by exact (I3 Nr). rewrite <- I2. reflexivity.
    + cbn [Js.replace_ws_runs_from words_from]. rewrite Sp.
      split; [|split].
      * intros cur N. rewrite <- I1 by (destruct cur; discriminate).
        rewrite append_assoc_str. reflexivity.
      * apply (I1 (String c "")). discriminate.
      * intros _. apply words_from_nonempty. discriminate.
Qed.

Lemma words_trim_start v : words_from "" (Js.trim_start v) = words_from "" v.
Proof.
  induction v as [|c r IH]; [reflexivity|]. simpl.
  destruct (Js.is_space c) eqn:Sp; [exact IH|]. simpl. rewrite Sp. reflexivity.
Qed.

Lemma words_trim_end t : forall cur, words_from cur (Js.trim_end t) = words_from cur t.
Proof.
  induction t as [|c r IH]; intros cur; [reflexivity|].
  cbn [Js.trim_end]. specialize (IH).
  destruct (Js.is_space c && String.eqb (Js.trim_end r) "") eqn:C.
  - apply andb_true_iff in C. destruct C as [Sp E]. apply String.eqb_eq in E.
    simpl. rewrite Sp. rewrite <- (IH ""), E. simpl.
    destruct (String.eqb cur ""); reflexivity.
  - simpl. destruct (Js.is_space c); rewrite ?IH; reflexivity.
Qed.

Lemma trim_end_ok t : ok_end (Js.trim_end t) = true.
Proof.
  induction t as [|c r IH]; [reflexivity|]. cbn [Js.trim_end].
  destruct (Js.is_space c && String.eqb (Js.trim_end r) "") eqn:C; [reflexivity|].
  destruct (Js.trim_end r) as [|d r'] eqn:E.
  - simpl. rewrite String.eqb_refl, andb_true_r in C. rewrite C. reflexivity.
  - exact IH.
Qed.

Lemma trim_start_ok v : ok_start (Js.trim_start v) = true.
Proof.
  induction v as [|c r IH]; [reflexivity|]. simpl.
  destruct (Js.is_space c) eqn:Sp; [exact IH|]. simpl. rewrite Sp. reflexivity.
Qed.

Lemma trim_end_start_ok t : ok_start t = true -> ok_start (Js.trim_end t) = true.
Proof.
  destruct t as [|c r]; [reflexivity|]. cbn [ok_start Js.trim_end]. intros N.
  apply negb_true_iff in N. rewrite N. cbn [andb ok_start]. rewrite N. reflexivity.
Qed.

Lemma runs_false_true t : ok_start t = true -> Js.replace_ws_runs_from false t = Js.replace_ws_runs_from true t.
Proof.
  destruct t as [|c r]; [reflexivity|]. simpl. intros N.
  apply negb_true_iff in N. rewrite N. reflexivity.
Qed.

(** [trim().replace(/\s+/g, ' ')] joins the words of the value with
    single spaces. *)
Lemma normalize_words v : normalizeHeaderValue v = Js.join " " (words v).
Proof.
  unfold normalizeHeaderValue, Js.replace_ws_runs, Js.trim, words.
  rewrite runs_false_true by (apply trim_end_start_ok, trim_start_ok).
  destruct (replace_runs_words _ (trim_end_ok (Js.trim_start v))) as [_ [R _]].
  rewrite R, words_trim_end, words_trim_start. reflexivity.
Qed.

Section Verify.
Context `{Host}.





Lemma prepare_inv request env bodyHash p :
  prepare request env bodyHash = Continue p ->
  exists components requestDateTime lines decodedPath,
    parseAuthorizationHeader (value (header_lookup (headers request) "Authorization")) = Some components /\
    resolveRequestDateTime (header_lookup (headers request) "x-amz-date")
      (header_lookup (headers request) "date") = Continue requestDateTime /\
    canonicalHeadersList (headers request) (signedHeaders components) = Continue lines /\
    decode_uri_component (pathname request) = Some decodedPath /\
    p_components p = components /\
    p_requestDateTime p = requestDateTime /\
    p_canonicalHeaders p = Js.join NL lines ++ NL /\
    p_signedHeaders p = Js.join ";" (signedHeaders components) /\
    p_queryParams p = canonicalQueryString (searchParams request) /\
    p_canonicalRequest p =
      createCanonicalRequest (method request) (p_canonicalUri p) (p_queryParams p) (p_canonicalHeaders p)
        (p_signedHeaders p) (p_payloadHash p).
Proof.
  unfold prepare.
  destruct (negb (Js.truthy (header_lookup (headers request) "Authorization"))); [discriminate|].
  destruct (parseAuthorizationHeader _) as [c|] eqn:Pc; [|discriminate].
  destruct (negb (String.eqb (accessKeyId c) (S3_ACCESS_KEY_ID env))); [discriminate|].
  destruct (negb (String.eqb (region c) (S3_REGION env))); [discriminate|].
  destruct (negb (String.eqb (service c) "s3")); [discriminate|].
  destruct (resolveRequestDateTime _ _) as [t|] eqn:Rt; [|discriminate]. cbn [bind].
  destruct (canonicalHeadersList _ _) as [ls|] eqn:Cl; [|discriminate]. cbn [bind].
  destruct (decode_uri_component (pathname request)) as [dp|] eqn:Dp; [|discriminate]. cbn [bind].
  intros E. inversion E; subst p. clear E.
  exists c, t, ls, dp. repeat split; first [assumption | reflexivity].
Qed.

(** C2: the canonical query string of verification is
    [canonicalQueryString] of the query parameters, which orders the keys
    with [localeCompare]: for the query [?B=1&a=2] it is [a=2&B=1], while
    byte order gives [B=1&a=2]. *)
Theorem query_string_locale_order request env bodyHash p :
  prepare request env bodyHash = Continue p ->
  p_queryParams p = canonicalQueryString (searchParams request) /\
  canonicalQueryString [("B", "1"); ("a", "2")] = "a=2&B=1" /\
  byteSortedQueryString [("B", "1"); ("a", "2")] = "B=1&a=2".
Proof.
  intros E. destruct (prepare_inv _ _ _ _ E) as (c & t & ls & dp & _ & _ & _ & _ & _ & _ & _ & _ & Q & _).
  split; [exact Q|]. split; vm_compute; reflexivity.
Qed.

Lemma convert_form s f :
  parse_date s = Some f -> date_in_range f = true ->
  exists d, convertToAwsDateFormat s = Some d /\ aws_basic_format d = true.
Proof.
  intros P R. unfold convertToAwsDateFormat. rewrite P. eexists. split; [reflexivity|].
  unfold date_in_range in R. rewrite !andb_true_iff, !Z.leb_le in R.
  unfold aws_basic_format.
  change "DDDDDDDDTDDDDDDZ" with ("DDDD" ++ "DD" ++ "DD" ++ "T" ++ "DD" ++ "DD" ++ "DD" ++ "Z").
  repeat apply matches_app; try reflexivity.
  - apply four_digits. lia.
  - apply two_digits. lia.
  - apply two_digits. lia.
  - apply two_digits. lia.
  - apply two_digits. lia.
  - apply two_digits. lia.
Qed.

(** The request time is the [x-amz-date] header when it is
    present and non-empty, taken as is without any format check;
    otherwise a non-empty [Date] header is parsed with the platform date
    parser (any format it accepts) and written as UTC year, month, day,
    "T", hours, minutes, seconds, "Z", each field but the year padded to
    two digits, which is the form YYYYMMDDTHHMMSSZ for years 1000 to 9999;
    an unparsable [Date] header is rejected with "Invalid Date header
    format", and when neither header is non-empty the request is rejected
    with "Missing date header".  Verification resolves the time from the
    request's two headers once the Authorization header has been
    accepted. *)
Theorem request_datetime_resolution (amzDate dateHeader : option string)
    (request : Request) (env : Env) (bodyHash : option string) :
  resolveRequestDateTime amzDate dateHeader =
    (if Js.truthy amzDate then Continue (value amzDate)
     else if Js.truthy dateHeader then
       match convertToAwsDateFormat (value dateHeader) with
       | None => Return (Invalid "Invalid Date header format" None)
       | Some d => Continue d
       end
     else Return (Invalid "Missing date header" None)) /\
  (forall s, convertToAwsDateFormat s = None <-> parse_date s = None) /\
  (forall s f, parse_date s = Some f -> date_in_range f = true ->
     exists d, convertToAwsDateFormat s = Some d /\ aws_basic_format d = true) /\
  (forall p, prepare request env bodyHash = Continue p ->
     resolveRequestDateTime (header_lookup (headers request) "x-amz-date")
       (header_lookup (headers request) "date") = Continue (p_requestDateTime p)).
Proof.
  split; [|split; [|split]].
  - unfold resolveRequestDateTime, reject.
    destruct (Js.truthy amzDate) eqn:A; simpl; [rewrite A; reflexivity|].
    destruct (Js.truthy dateHeader); [|reflexivity].
    unfold convertToAwsDateFormat. destruct (parse_date (value dateHeader)) as [f|]; [|reflexivity].
    cbn [bind]. unfold Js.truthy, value.
    destruct (String.eqb_spec (Num.to_string (utcFullYear f) ++ Num.pad_start 2 (Num.to_string (utcMonth f + 1))
                ++ Num.pad_start 2 (Num.to_string (utcDate f)) ++ "T" ++ Num.pad_start 2 (Num.to_string (utcHours f))
                ++ Num.pad_start 2 (Num.to_string (utcMinutes f)) ++ Num.pad_start 2 (Num.to_string (utcSeconds f))
                ++ "Z") "") as [Ee|Ne]; [|reflexivity].
    exfalso. apply (f_equal String.length) in Ee. rewrite !string_length_app in Ee. simpl in Ee. lia.
  - intros s0. unfold convertToAwsDateFormat. destruct (parse_date s0); split; congruence.
  - exact convert_form.
  - intros p E. destruct (prepare_inv _ _ _ _ E) as (c & t & ls & dp & _ & Rt & _ & _ & _ & Tp & _).
    rewrite Rt, Tp. reflexivity.
Qed.

Lemma canonicalHeadersList_spec h names lines :
  canonicalHeadersList h names = Continue lines ->
  exists values,
    Forall2 (fun n v => header_get h n = Some (Some v)) names values /\
    lines = map (fun '(n, v) => Js.to_lower n ++ ":" ++ normalizeHeaderValue v) (combine names values).
Proof.
  revert lines. induction names as [|n names IH]; intros lines; simpl.
  - intros E. inversion E. exists []. split; [constructor|reflexivity].
  - destruct (header_get h n) as [[v|]|] eqn:G; try discriminate.
    destruct (canonicalHeadersList h names) as [ls|] eqn:C; cbn [bind]; [|discriminate].
    intros E. inversion E; subst lines. destruct (IH ls eq_refl) as [vs [F L]].
    exists (v :: vs). split; [constructor; assumption|]. simpl. rewrite L. reflexivity.
Qed.

(** C5: once the request passes the checks before the signature, each
    name of SignedHeaders has a value in the request, and the canonical
    headers block is the lines [lowercased name:value], the value with
    its surrounding white space removed and every inner run of white
    space replaced by one space (its words joined by single spaces),
    joined by newlines and always followed by a final newline; in the
    canonical request the block is directly followed by the
    signed-headers list. *)
Theorem canonical_headers_block request env bodyHash p :
  prepare request env bodyHash = Continue p ->
  exists values,
    Forall2 (fun n v => header_get (headers request) n = Some (Some v)) (signedHeaders (p_components p)) values /\
    p_canonicalHeaders p =
      Js.join NL (map (fun '(n, v) => Js.to_lower n ++ ":" ++ Js.join " " (words v))
                    (combine (signedHeaders (p_components p)) values)) ++ NL /\
    p_signedHeaders p = Js.join ";" (signedHeaders (p_components p)) /\
    p_canonicalRequest p =
      method request ++ NL ++ p_canonicalUri p ++ NL ++ p_queryParams p ++ NL ++
      p_canonicalHeaders p ++ p_signedHeaders p ++ NL ++ p_payloadHash p.
Proof.
  intros E.
  destruct (prepare_inv _ _ _ _ E) as (c & t & ls & dp & _ & _ & Cl & _ & Pc & _ & Ch & Sh & _ & Cr).
  destruct (canonicalHeadersList_spec _ _ _ Cl) as [vs [F L]].
  exists vs. rewrite Pc. split; [exact F|]. split; [|split; [exact Sh|]].
  - rewrite Ch, L. f_equal. f_equal. apply map_ext. intros [n v]. rewrite normalize_words. reflexivity.
  - rewrite Cr. unfold createCanonicalRequest. cbn [Js.join]. rewrite append_assoc_str. reflexivity.
Qed.

Lemma matches_length t u : matches t u = true -> String.length u = String.length t.
Proof.
  revert u. induction t as [|a t IH]; intros [|c u]; simpl; try discriminate; auto.
  intros M. apply andb_true_iff in M as [_ M]. rewrite (IH u M). reflexivity.
Qed.

Lemma short_years_all :
  check_range (fun k => (String.length (Num.to_string k) <=? 3)%nat) 0 (Z.to_nat 1000) = true.
Proof. vm_compute. reflexivity. Qed.

Lemma short_year (k : Z) : (0 <= k <= 999)%Z -> (String.length (Num.to_string k) <= 3)%nat.
Proof.
  intros Hk. apply Nat.leb_le. apply (check_range_spec _ _ _ short_years_all). rewrite Z2Nat.id by lia. lia.
Qed.

Lemma two_digits_length (k : Z) : (0 <= k <= 99)%Z -> String.length (Num.pad_start 2 (Num.to_string k)) = 2%nat.
Proof. intros Hk. exact (matches_length _ _ (two_digits k Hk)). Qed.

(** C4: a request without a usable [x-amz-date] header whose [Date] header
    parses to a UTC year from 0 to 999 (and valid other fields) is signed
    over a time whose year is not padded: at most 15 characters long, not
    the YYYYMMDDTHHMMSSZ form. *)
Theorem unpadded_date_year request env bodyHash p f :
  prepare request env bodyHash = Continue p ->
  Js.truthy (header_lookup (headers request) "x-amz-date") = false ->
  parse_date (value (header_lookup (headers request) "date")) = Some f ->
  (0 <= utcFullYear f <= 999)%Z -> (0 <= utcMonth f <= 11)%Z -> (1 <= utcDate f <= 31)%Z ->
  (0 <= utcHours f <= 23)%Z -> (0 <= utcMinutes f <= 59)%Z -> (0 <= utcSeconds f <= 59)%Z ->
  p_requestDateTime p =
    Num.to_string (utcFullYear f) ++ Num.pad_start 2 (Num.to_string (utcMonth f + 1)) ++
    Num.pad_start 2 (Num.to_string (utcDate f)) ++ "T" ++ Num.pad_start 2 (Num.to_string (utcHours f)) ++
    Num.pad_start 2 (Num.to_string (utcMinutes f)) ++ Num.pad_start 2 (Num.to_string (utcSeconds f)) ++ "Z" /\
  (String.length (p_requestDateTime p) <= 15)%nat /\
  aws_basic_format (p_requestDateTime p) = false.
Proof.
  intros E A P Y Mo D Ho Mi Se.
  destruct (prepare_inv _ _ _ _ E) as (c & t & ls & dp & _ & Rt & _ & _ & _ & Tp & _).
  assert (T : p_requestDateTime p =
    Num.to_string (utcFullYear f) ++ Num.pad_start 2 (Num.to_string (utcMonth f + 1)) ++
    Num.pad_start 2 (Num.to_string (utcDate f)) ++ "T" ++ Num.pad_start 2 (Num.to_string (utcHours f)) ++
    Num.pad_start 2 (Num.to_string (utcMinutes f)) ++ Num.pad_start 2 (Num.to_string (utcSeconds f)) ++ "Z").
  { rewrite Tp. unfold resolveRequestDateTime in Rt. rewrite A in Rt.
    destruct (Js.truthy (header_lookup (headers request) "date")).
    - unfold convertToAwsDateFormat in Rt. rewrite P in Rt. cbn [bind] in Rt.
      destruct (negb (Js.truthy (Some _))); [discriminate|]. injection Rt as <-. reflexivity.
    - discriminate. }
  assert (L : (String.length (p_requestDateTime p) <= 15)%nat).
  { rewrite T, !string_length_app, !two_digits_length by lia. pose proof (short_year _ Y). simpl. lia. }
  split; [exact T|split; [exact L|]].
  destruct (aws_basic_format (p_requestDateTime p)) eqn:F; [|reflexivity].
  apply matches_length in F. simpl in F. lia.
Qed.

End Verify.

#[local] Existing Instance Examples.placeholder_host.

Lemma query_string_locale_order_witness :
  let request := Examples.sample_request [("B", "1"); ("a", "2")] [("x-amz-date", "20200101T000000Z")] in
  match prepare request Examples.sample_env None with
  | Continue p =>
      prepare request Examples.sample_env None = Continue p /\
      (p_queryParams p = canonicalQueryString (searchParams request) /\
       canonicalQueryString [("B", "1"); ("a", "2")] = "a=2&B=1" /\
       byteSortedQueryString [("B", "1"); ("a", "2")] = "B=1&a=2")
  | Return _ => False
  end.
Proof.
  cbv zeta.
  destruct (prepare (Examples.sample_request [("B", "1"); ("a", "2")] [("x-amz-date", "20200101T000000Z")])
              Examples.sample_env None) as [p|r] eqn:E.
  - split; [reflexivity|]. apply (query_string_locale_order _ _ _ p E).
  - vm_compute in E. discriminate.
Defined.

(** An [x-amz-date] header that is present but empty
    is taken as absent: without a [Date] header the request is rejected
    with "Missing date header" instead of using the [x-amz-date] value. *)
Lemma empty_amz_date_taken_as_absent :
  header_lookup (headers (Examples.sample_request [] [("x-amz-date", "")])) "x-amz-date" = Some "" /\
  resolveRequestDateTime (Some "") None = Return (Invalid "Missing date header" None) /\
  verifySignature (Examples.sample_request [] [("x-amz-date", "")]) Examples.sample_env None =
    Invalid "Missing date header" None.
Proof. split; [|split]; vm_compute; reflexivity. Qed.

Lemma canonical_headers_block_witness :
  let request := Examples.sample_request [] [("x-amz-date", " 20200101T000000Z ")] in
  match prepare request Examples.sample_env None with
  | Continue p =>
      prepare request Examples.sample_env None = Continue p /\
      (exists values,
        Forall2 (fun n v => header_get (headers request) n = Some (Some v)) (signedHeaders (p_components p)) values /\
        p_canonicalHeaders p =
          Js.join NL (map (fun '(n, v) => Js.to_lower n ++ ":" ++ Js.join " " (words v))
                        (combine (signedHeaders (p_components p)) values)) ++ NL /\
        p_signedHeaders p = Js.join ";" (signedHeaders (p_components p)) /\
        p_canonicalRequest p =
          method request ++ NL ++ p_canonicalUri p ++ NL ++ p_queryParams p ++ NL ++
          p_canonicalHeaders p ++ p_signedHeaders p ++ NL ++ p_payloadHash p)
  | Return _ => False
  end.
Proof.
  cbv zeta.
  destruct (prepare (Examples.sample_request [] [("x-amz-date", " 20200101T000000Z ")])
              Examples.sample_env None) as [p|r] eqn:E.
  - split; [reflexivity|]. apply (canonical_headers_block _ _ _ p E).
  - vm_compute in E. discriminate.
Defined.

End SignatureFacts.

Module DateYearExample.
Import Signature SignatureSpec Examples.
#[local] Existing Instance dated_host.

Definition dated_auth (dateStamp signature : string) : string :=
  "AWS4-HMAC-SHA256 Credential=AK/" ++ dateStamp ++ "/us-east-1/s3/aws4_request, SignedHeaders=host;date, Signature="
  ++ signature.

(** A GET signed over its [host] and [Date] headers, dated 1 January 999. *)
Definition dated_request (dateStamp signature : string) : Request :=
  {| method := "GET"; url := "https://gateway.example/b/k"; pathname := "/b/k"; searchParams := [];
     headers := [("authorization", dated_auth dateStamp signature); ("host", "gateway.example");
                 ("date", "Tue, 01 Jan 0999 00:00:00 GMT")] |}.

(** The signature a SigV4 client computes for [dated_request], with the
    request time 09990101T000000Z. *)
Definition client_signature : string :=
  match prepare (dated_request "09990101" "0") sample_env None with
  | Continue p =>
      Crypto.arrayBufferToHex
        (Crypto.hmacSha256 (Crypto.KeyBuffer (getSigningKey "SK" "09990101" "us-east-1" "s3"))
           (createStringToSign "AWS4-HMAC-SHA256" "09990101T000000Z" "09990101/us-east-1/s3/aws4_request"
              (p_canonicalRequest p)))
  | Return _ => ""
  end.

Lemma unpadded_date_year_witness :
  exists p,
    prepare (dated_request "09990101" client_signature) sample_env None = Continue p /\
    p_requestDateTime p = "9990101T000000Z" /\ (String.length (p_requestDateTime p) <= 15)%nat /\
    aws_basic_format (p_requestDateTime p) = false /\
    exists d, verifySignature (dated_request "09990101" client_signature) sample_env None =
              Invalid "Signature mismatch" d.
Proof.
  case_eq (prepare (dated_request "09990101" client_signature) sample_env None).
  - intros p P. exists p. split; [reflexivity|].
    destruct (SignatureFacts.unpadded_date_year (dated_request "09990101" client_signature) sample_env None p
                {| utcFullYear := 999; utcMonth := 0; utcDate := 1; utcHours := 0; utcMinutes := 0; utcSeconds := 0 |}
                P ltac:(reflexivity) ltac:(reflexivity)) as (T & L & F); try (simpl; lia).
    split; [rewrite T; reflexivity|split; [exact L|split; [exact F|]]].
    eexists. vm_compute. reflexivity.
  - intros r P. vm_compute in P. discriminate.
Defined.

End DateYearExample.

Module PresignFacts.
Import PresignSpec SignatureSpec.

Lemma no_slash_app a b : no_slash (a ++ b) = no_slash a && no_slash b.
Proof. unfold no_slash. rewrite SignatureFacts.list_ascii_app, forallb_app. reflexivity. Qed.

Lemma escape_no_slash (c : ascii) :
  no_slash (String "%" (String (Js.hex_digit_upper (Js.code c / 16))
              (String (Js.hex_digit_upper (Js.code c mod 16)) ""))) = true.
Proof. destruct c as [[] [] [] [] [] [] [] []]; reflexivity. Qed.

Lemma encode_no_slash s : no_slash (Js.encodeURIComponent s) = true.
Proof.
  induction s as [|c r IH]; [reflexivity|]. cbn [Js.encodeURIComponent].
  destruct (Js.uri_component_unreserved c) eqn:U.
  - unfold no_slash in *. cbn [list_ascii_of_string forallb]. rewrite IH, andb_true_r.
    destruct (Ascii.eqb_spec c "/") as [->|N]; [discriminate|reflexivity].
  - pose proof (escape_no_slash c) as Es. unfold no_slash in *. cbn [list_ascii_of_string forallb] in *.
    rewrite andb_true_r in Es. rewrite IH, andb_true_r. rewrite !andb_true_iff in Es |- *. tauto.
Qed.

Lemma replace_char_no_slash c rep s :
  no_slash rep = true -> no_slash s = true -> no_slash (Js.replace_char c rep s) = true.
Proof.
  intros R. induction s as [|d r IH]; intros S; [reflexivity|]. cbn [Js.replace_char].
  unfold no_slash in S. cbn [list_ascii_of_string forallb] in S. apply andb_true_iff in S.
  destruct S as [S1 S2].
  destruct (Ascii.eqb c d).
  - rewrite no_slash_app, R, IH by exact S2. reflexivity.
  - unfold no_slash. cbn [list_ascii_of_string forallb]. rewrite S1. apply IH, S2.
Qed.

Lemma uriEncode_segment_no_slash part : no_slash (Crypto.uriEncode part true) = true.
Proof.
  unfold Crypto.uriEncode. cbn [negb].
  repeat (apply replace_char_no_slash; [reflexivity|]). apply encode_no_slash.
Qed.

Section Presign.
Context `{Host}.

(** C10: a presigned URL is [https://], the host
    [bucket.s3.region.amazonaws.com], the path [/] followed by the
    URI-encoded segments of the key (none containing [/]) joined by [/],
    then the query [X-Amz-Algorithm], [X-Amz-Credential], [X-Amz-Date],
    [X-Amz-Expires], [X-Amz-SignedHeaders=host] in this order and
    [X-Amz-Signature] last, the signature in lower-case hex. *)
Theorem presigned_url_shape (nowIso accessKeyId secretAccessKey region bucket key : string) (expiresIn : Z) :
  exists amzDate signature,
    Presign.createPresignedUrl nowIso accessKeyId secretAccessKey region bucket key expiresIn =
      "https://" ++ bucket ++ ".s3." ++ region ++ ".amazonaws.com" ++
      "/" ++ Js.join "/" (map (fun part => Crypto.uriEncode part true) (Js.split "/" key)) ++
      "?X-Amz-Algorithm=AWS4-HMAC-SHA256" ++
      "&X-Amz-Credential=" ++ accessKeyId ++ "/" ++ substring 0 8 amzDate ++ "/" ++ region ++ "/s3/aws4_request" ++
      "&X-Amz-Date=" ++ amzDate ++
      "&X-Amz-Expires=" ++ Num.to_string expiresIn ++
      "&X-Amz-SignedHeaders=host" ++
      "&X-Amz-Signature=" ++ signature /\
    forallb lower_hex (list_ascii_of_string signature) = true /\
    Forall (fun seg => no_slash seg = true) (map (fun part => Crypto.uriEncode part true) (Js.split "/" key)).
Proof.
  exists (Presign.remove_millis (Presign.remove_dash_colon nowIso)).
  unfold Presign.createPresignedUrl. cbv zeta.
  set (amzDate := Presign.remove_millis (Presign.remove_dash_colon nowIso)).
  set (sigv := Crypto.arrayBufferToHex (Crypto.hmacSha256 _ _)).
  exists sigv. split; [|split].
  - cbn [Js.join]. rewrite !SignatureFacts.append_assoc_str. reflexivity.
  - apply SignatureFacts.arrayBufferToHex_shape.
  - apply Forall_forall. intros seg I. apply in_map_iff in I. destruct I as [part [<- _]].
    apply uriEncode_segment_no_slash.
Qed.

End Presign.
End PresignFacts.

Module CodecFacts.
Import CodecSpec.

Lemma replace_char_app c rep a b :
  Js.replace_char c rep (a ++ b) = Js.replace_char c rep a ++ Js.replace_char c rep b.
Proof.
  induction a as [|d a IH]; simpl; [reflexivity|].
  rewrite IH. destruct (Ascii.eqb c d); [apply eq_sym, SignatureFacts.append_assoc_str|reflexivity].
Qed.

Lemma encode_cons c r :
  Js.encodeURIComponent (String c r) = Js.encodeURIComponent (String c "") ++ Js.encodeURIComponent r.
Proof. simpl. destruct (Js.uri_component_unreserved c); reflexivity. Qed.


Lemma decode_flat step enc :
  step "" = None ->
  (forall c r, step (enc c ++ r) = Some (c, r)) ->
  (forall c, enc c <> "") ->
  forall s n, String.length (flat enc s) <= n -> decode_with step n (flat enc s) = s.
Proof.
  intros E0 Step NE s. induction s as [|c r IH]; intros n L.
  - destruct n; simpl; [reflexivity|rewrite E0; reflexivity].
  - simpl in L |- *. rewrite SignatureFacts.string_length_app in L.
    destruct n as [|n].
    + specialize (NE c). destruct (enc c); [contradiction|simpl in L; lia].
    + simpl. rewrite Step. f_equal. apply IH.
      specialize (NE c). destruct (enc c); [contradiction|simpl in L; lia].
Qed.

Lemma decode_flat_full step enc s :
  step "" = None ->
  (forall c r, step (enc c ++ r) = Some (c, r)) ->
  (forall c, enc c <> "") ->
  decode_with step (String.length (flat enc s)) (flat enc s) = s.
Proof. intros; apply decode_flat; auto. Qed.

Lemma flat_forall (p : ascii -> bool) enc s :
  (forall c, forallb p (list_ascii_of_string (enc c)) = true) ->
  forallb p (list_ascii_of_string (flat enc s)) = true.
Proof.
  intros P. induction s as [|c r IH]; [reflexivity|]. simpl.
  rewrite SignatureFacts.list_ascii_app, forallb_app, P, IH. reflexivity.
Qed.

Section Host.
Context `{Host}.

Lemma uriEncode_true_cons c r :
  Crypto.uriEncode (String c r) true = Crypto.uriEncode (String c "") true ++ Crypto.uriEncode r true.
Proof.
  unfold Crypto.uriEncode. cbn [negb]. rewrite encode_cons, !replace_char_app. reflexivity.
Qed.

Lemma uriEncode_true_flat s :
  Crypto.uriEncode s true = flat (fun c => Crypto.uriEncode (String c "") true) s.
Proof.
  induction s as [|c r IH]; [reflexivity|]. rewrite uriEncode_true_cons, IH. reflexivity.
Qed.

Lemma uriEncode_char_first c r :
  percent_first (Crypto.uriEncode (String c "") true ++ r) = Some (c, r).
Proof. destruct c as [[] [] [] [] [] [] [] []]; reflexivity. Qed.

Lemma uriEncode_char_nonempty c : Crypto.uriEncode (String c "") true <> "".
Proof. destruct c as [[] [] [] [] [] [] [] []]; discriminate. Qed.

Lemma uriEncode_char_safe c :
  forallb (fun d => aws_unreserved d || Ascii.eqb d "%") (list_ascii_of_string (Crypto.uriEncode (String c "") true)) = true.
Proof. destruct c as [[] [] [] [] [] [] [] []]; reflexivity. Qed.

Lemma uriEncode_char_unescape c r :
  Js.unescape_slash (Crypto.uriEncode (String c "") true ++ r) =
  (if Ascii.eqb c "/" then "/" else Crypto.uriEncode (String c "") true) ++ Js.unescape_slash r.
Proof. destruct c as [[] [] [] [] [] [] [] []]; reflexivity. Qed.

End Host.

Lemma escapeXml_cons c r : Xml.escapeXml (String c r) = Xml.escapeXml (String c "") ++ Xml.escapeXml r.
Proof.
  unfold Xml.escapeXml. change (String c r) with (String c "" ++ r). rewrite !replace_char_app. reflexivity.
Qed.

Lemma escapeXml_flat s : Xml.escapeXml s = flat (fun c => Xml.escapeXml (String c "")) s.
Proof. induction s as [|c r IH]; [reflexivity|]. rewrite escapeXml_cons, IH. reflexivity. Qed.

Lemma escapeXml_char_first c r : entity_first (Xml.escapeXml (String c "") ++ r) = Some (c, r).
Proof. destruct c as [[] [] [] [] [] [] [] []]; reflexivity. Qed.

Lemma escapeXml_char_nonempty c : Xml.escapeXml (String c "") <> "".
Proof. destruct c as [[] [] [] [] [] [] [] []]; discriminate. Qed.

Lemma escapeXml_char_safe c :
  forallb (fun d => negb (markup_char d)) (list_ascii_of_string (Xml.escapeXml (String c ""))) = true.
Proof. destruct c as [[] [] [] [] [] [] [] []]; reflexivity. Qed.

Lemma byte_hex_first c r : hex_byte_first (Crypto.byte_to_hex c ++ r) = Some (c, r).
Proof. destruct c as [[] [] [] [] [] [] [] []]; reflexivity. Qed.

Lemma byte_hex_nonempty c : Crypto.byte_to_hex c <> "".
Proof. destruct c as [[] [] [] [] [] [] [] []]; discriminate. Qed.

Lemma arrayBufferToHex_flat (b : bytes) :
  Crypto.arrayBufferToHex b = flat Crypto.byte_to_hex (string_of_list_ascii b).
Proof.
  unfold Crypto.arrayBufferToHex. rewrite SignatureFacts.concat_empty_sep.
  induction b as [|c r IH]; [reflexivity|]. simpl. rewrite IH. reflexivity.
Qed.

(** X1: escapeXml is undone by decoding the five entities it emits, and its
    output contains none of the characters < > double quote and apostrophe. *)
Theorem escapeXml_roundtrip (s : string) :
  xml_unescape (Xml.escapeXml s) = s /\
  forallb (fun c => negb (markup_char c)) (list_ascii_of_string (Xml.escapeXml s)) = true.
Proof.
  rewrite escapeXml_flat. split.
  - apply decode_flat_full; [reflexivity|apply escapeXml_char_first|apply escapeXml_char_nonempty].
  - apply flat_forall, escapeXml_char_safe.
Qed.

(** X2: uriEncode(s, true) is undone by percent-decoding, and its output
    consists only of the unreserved characters A-Z a-z 0-9 - _ . ~ and
    percent signs. *)
Theorem uriEncode_roundtrip {H : Host} (s : string) :
  percent_decode (Crypto.uriEncode s true) = s /\
  forallb (fun c => aws_unreserved c || Ascii.eqb c "%") (list_ascii_of_string (Crypto.uriEncode s true)) = true.
Proof.
  rewrite uriEncode_true_flat. split.
  - apply decode_flat_full; [reflexivity|apply uriEncode_char_first|apply uriEncode_char_nonempty].
  - apply flat_forall, uriEncode_char_safe.
Qed.

(** X3: arrayBufferToHex is injective: reading its output back two hex digits at
    a time gives the original bytes. *)
Theorem arrayBufferToHex_roundtrip (b : bytes) :
  unhex (Crypto.arrayBufferToHex b) = b.
Proof.
  unfold unhex. rewrite arrayBufferToHex_flat, decode_flat_full;
    [apply list_ascii_of_string_of_list_ascii|reflexivity|apply byte_hex_first|apply byte_hex_nonempty].
Qed.

Lemma join_cons_split sep x l :
  Js.join sep (x :: l) = x ++ match l with [] => "" | _ => sep ++ Js.join sep l end.
Proof. destruct l; simpl; [symmetry; apply SignatureFacts.append_empty_r|reflexivity]. Qed.

Lemma split_nonempty c s : Js.split c s <> [].
Proof. destruct s; simpl; [discriminate|]. destruct (Ascii.eqb c a); [discriminate|]. destruct (Js.split c s); discriminate. Qed.

(** X4: uriEncode(s, false) equals the slash-joined uriEncode(seg, true) of the
    slash-separated segments of s: slashes are kept and everything else is
    encoded as with encodeSlash. *)
Theorem uriEncode_keep_slash_segments {H : Host} (s : string) :
  Crypto.uriEncode s false = Js.join "/" (map (fun seg => Crypto.uriEncode seg true) (Js.split "/" s)).
Proof.
  assert (E : Crypto.uriEncode s false = Js.unescape_slash (Crypto.uriEncode s true)) by reflexivity.
  rewrite E, uriEncode_true_flat. clear E.
  induction s as [|c r IH]; [reflexivity|].
  cbn [flat]. rewrite uriEncode_char_unescape, IH.
  cbn [Js.split]. destruct (Ascii.eqb_spec "/" c) as [<-|Nc].
  - cbn [map]. rewrite join_cons_split. cbn [Crypto.uriEncode]. 
    pose proof (split_nonempty "/" r) as NE.
    destruct (Js.split "/" r); [contradiction|]. reflexivity.
  - assert (Ec : Ascii.eqb c "/" = false) by (apply Ascii.eqb_neq; congruence). rewrite Ec.
    pose proof (split_nonempty "/" r) as NE.
    destruct (Js.split "/" r) as [|p ps]; [contradiction|].
    cbn [map]. rewrite !join_cons_split, (uriEncode_true_cons c p), SignatureFacts.append_assoc_str.
    reflexivity.
Qed.

End CodecFacts.


Module SignatureExtraFacts.
Import SignatureSpec CodecSpec.

(** A string without white space. *)
Lemma words_from_app_nospace cur w r :
  forallb (fun c => negb (Js.is_space c)) (list_ascii_of_string w) = true ->
  words_from cur (w ++ r) = words_from (cur ++ w) r.
Proof.
  revert cur. induction w as [|c w IH]; intros cur N; simpl.
  - rewrite SignatureFacts.append_empty_r. reflexivity.
  - simpl in N. apply andb_true_iff in N. destruct N as [N1 N2].
    apply negb_true_iff in N1. rewrite N1, IH by exact N2.
    rewrite SignatureFacts.append_assoc_str. reflexivity.
Qed.


Lemma words_join ws :
  forallb word_ok ws = true -> words (Js.join " " ws) = ws.
Proof.
  unfold words. induction ws as [|w [|w' rest] IH]; intros A; [reflexivity| |].
  - simpl in A. rewrite andb_true_r in A. unfold word_ok in A. apply andb_true_iff in A as [E N].
    cbn [Js.join]. rewrite <- (SignatureFacts.append_empty_r w) at 1.
    rewrite words_from_app_nospace by exact N. simpl.
    apply negb_true_iff in E. rewrite E. reflexivity.
  - cbn [forallb] in A. apply andb_true_iff in A as [A1 A2].
    unfold word_ok in A1. apply andb_true_iff in A1 as [E N].
    rewrite SignatureFacts.join_cons by discriminate.
    rewrite words_from_app_nospace by exact N. simpl.
    apply negb_true_iff in E. rewrite E. f_equal. exact (IH A2).
Qed.

Lemma words_from_ok cur s :
  forallb (fun c => negb (Js.is_space c)) (list_ascii_of_string cur) = true ->
  forallb word_ok (words_from cur s) = true.
Proof.
  revert cur. induction s as [|c r IH]; intros cur N; simpl.
  - destruct (String.eqb cur "") eqn:E; [reflexivity|].
    simpl. unfold word_ok. rewrite E, N. reflexivity.
  - destruct (Js.is_space c) eqn:Sp.
    + destruct (String.eqb cur "") eqn:E; [apply IH; reflexivity|].
      simpl. unfold word_ok. rewrite E, N. simpl. apply IH. reflexivity.
    + apply IH. rewrite SignatureFacts.list_ascii_app, forallb_app, N. simpl. rewrite Sp. reflexivity.
Qed.

Section Verify.
Context `{Host}.

(** X5: The header-value normalization of verifySignature (trim, then collapse
    every white-space run to one space) is idempotent. *)
Theorem normalizeHeaderValue_idempotent (v : string) :
  Signature.normalizeHeaderValue (Signature.normalizeHeaderValue v) = Signature.normalizeHeaderValue v.
Proof.
  rewrite !(SignatureFacts.normalize_words). f_equal. apply words_join, words_from_ok. reflexivity.
Qed.
End Verify.

(** Authorization header *)
Lemma starts_with_ci_app p r : Js.starts_with_ci p (p ++ r) = true.
Proof. induction p as [|c p IH]; simpl; [reflexivity|]. rewrite Ascii.eqb_refl. exact IH. Qed.

Lemma substring_drop p r m : substring (String.length p) m (p ++ r) = substring 0 m r.
Proof. induction p as [|c p IH]; simpl; [reflexivity|]. destruct m; exact IH. Qed.

Lemma substring_all r m : String.length r <= m -> substring 0 m r = r.
Proof.
  revert m. induction r as [|c r IH]; intros m L; simpl.
  - destruct m; reflexivity.
  - destruct m; simpl in L; [lia|]. rewrite IH by lia. reflexivity.
Qed.

Lemma literal_ci_app p r : Signature.literal_ci p (p ++ r) = Some r.
Proof.
  unfold Signature.literal_ci. rewrite starts_with_ci_app, substring_drop, substring_all; [reflexivity|].
  rewrite SignatureFacts.string_length_app. lia.
Qed.

Lemma take_non_comma_app a r :
  free_of "," a = true -> Signature.take_non_comma (a ++ String "," r) = (a, String "," r).
Proof.
  induction a as [|c a IH]; intros F; [reflexivity|].
  simpl in F. apply andb_true_iff in F as [F1 F2]. apply negb_true_iff in F1.
  simpl. rewrite F1, IH by exact F2. reflexivity.
Qed.

Lemma split_free c a : free_of c a = true -> Js.split c a = [a].
Proof.
  induction a as [|d a IH]; intros F; [reflexivity|].
  simpl in F. apply andb_true_iff in F as [F1 F2]. apply negb_true_iff in F1.
  simpl. rewrite Ascii.eqb_sym, F1, IH by exact F2. reflexivity.
Qed.

Lemma split_app c a r : free_of c a = true -> Js.split c (a ++ String c r) = a :: Js.split c r.
Proof.
  induction a as [|d a IH]; intros F; simpl; [rewrite Ascii.eqb_refl; reflexivity|].
  simpl in F. apply andb_true_iff in F as [F1 F2]. apply negb_true_iff in F1.
  rewrite Ascii.eqb_sym, F1, IH by exact F2. reflexivity.
Qed.

Lemma split_app' c a r : free_of c a = true -> Js.split c (a ++ String c "" ++ r) = a :: Js.split c r.
Proof. apply split_app. Qed.

Lemma match_authorization_app cred sh sig :
  cred <> "" -> free_of "," cred = true -> sh <> "" -> free_of "," sh = true ->
  sig <> "" -> forallb Signature.hex_ci (list_ascii_of_string sig) = true ->
  Signature.match_authorization
    ("AWS4-HMAC-SHA256 Credential=" ++ cred ++ ", SignedHeaders=" ++ sh ++ ", Signature=" ++ sig) =
  Some (cred, sh, sig).
Proof.
  intros C1 C2 S1 S2 G1 G2. unfold Signature.match_authorization.
  change ("AWS4-HMAC-SHA256 Credential=" ++ cred ++ ", SignedHeaders=" ++ sh ++ ", Signature=" ++ sig)
    with ("AWS4-HMAC-SHA256" ++ String " " ("Credential=" ++ cred ++ String "," (" SignedHeaders=" ++ sh ++ String "," (" Signature=" ++ sig)))).
  rewrite literal_ci_app. cbv iota beta. change (negb (Js.is_space " ")) with false. cbv iota.
  change (Signature.skip_spaces ("Credential=" ++ ?x)) with ("Credential=" ++ x).
  rewrite literal_ci_app, take_non_comma_app by exact C2.
  destruct cred as [|c0 cred0] eqn:EC; [contradiction|]. rewrite <- EC.
  change (Signature.skip_spaces (" SignedHeaders=" ++ ?x)) with ("SignedHeaders=" ++ x).
  rewrite literal_ci_app, take_non_comma_app by exact S2.
  destruct sh as [|s0 sh0] eqn:ES; [contradiction|]. rewrite <- ES.
  change (Signature.skip_spaces (" Signature=" ++ ?x)) with ("Signature=" ++ x).
  rewrite literal_ci_app, G2. apply String.eqb_neq in G1. rewrite G1. reflexivity.
Qed.

(** X6: An Authorization header built from a five-part credential, a non-empty
    comma-free SignedHeaders list and a non-empty hex signature parses back
    to its components; the fifth credential part is not checked. *)
Theorem parseAuthorizationHeader_roundtrip (ak ds rg sv term sh sig : string) :
  forallb (fun part => free_of "/" part && free_of "," part) [ak; ds; rg; sv; term] = true ->
  sh <> "" -> free_of "," sh = true ->
  sig <> "" -> forallb Signature.hex_ci (list_ascii_of_string sig) = true ->
  let cred := ak ++ "/" ++ ds ++ "/" ++ rg ++ "/" ++ sv ++ "/" ++ term in
  Signature.parseAuthorizationHeader
    ("AWS4-HMAC-SHA256 Credential=" ++ cred ++ ", SignedHeaders=" ++ sh ++ ", Signature=" ++ sig) =
  Some {| Signature.algorithm := "AWS4-HMAC-SHA256"; Signature.credential := cred;
          Signature.signedHeaders := Js.split ";" sh; Signature.signature := sig;
          Signature.accessKeyId := ak; Signature.dateStamp := ds;
          Signature.region := rg; Signature.service := sv |}.
Proof.
  intros P S1 S2 G1 G2 cred.
  cbn [forallb] in P. rewrite !andb_true_iff in P.
  destruct P as [[A1 A2] [[D1 D2] [[R1 R2] [[V1 V2] [[T1 T2] _]]]]].
  unfold Signature.parseAuthorizationHeader.
  rewrite match_authorization_app; try assumption.
  - subst cred. rewrite !split_app' by assumption. rewrite (split_free "/" term) by assumption. reflexivity.
  - subst cred. destruct ak; discriminate.
  - subst cred. unfold free_of. rewrite !SignatureFacts.list_ascii_app, !forallb_app.
    unfold free_of in A2, D2, R2, V2, T2. rewrite A2, D2, R2, V2, T2. reflexivity.
Qed.

(** presign date *)
Lemma matches_len t s : matches t s = true -> String.length s = String.length t.
Proof.
  revert s. induction t as [|a t IH]; intros [|c s]; simpl; try discriminate; [reflexivity|].
  intros M. apply andb_true_iff in M as [_ M]. rewrite (IH s M). reflexivity.
Qed.

Lemma matches_digits t s :
  forallb (fun x => Ascii.eqb x "D") (list_ascii_of_string t) = true -> matches t s = true ->
  forallb Js.is_digit (list_ascii_of_string s) = true.
Proof.
  revert s. induction t as [|a t IH]; intros [|c s]; simpl; try discriminate; [reflexivity|].
  intros T M. apply andb_true_iff in T as [Ta T]. apply andb_true_iff in M as [Mc M].
  rewrite Ta in Mc. rewrite Mc. exact (IH s T M).
Qed.

Lemma remove_dash_colon_digits s r :
  forallb Js.is_digit (list_ascii_of_string s) = true ->
  Presign.remove_dash_colon (s ++ r) = s ++ Presign.remove_dash_colon r.
Proof.
  induction s as [|c s IH]; intros D; [reflexivity|].
  simpl in D. apply andb_true_iff in D as [Dc D].
  assert (N : (Ascii.eqb c "-" || Ascii.eqb c ":") = false).
  { destruct c as [[] [] [] [] [] [] [] []]; try reflexivity; discriminate. }
  simpl. rewrite N, IH by exact D. reflexivity.
Qed.

Lemma remove_millis_cons c t : Ascii.eqb c "." = false -> Presign.remove_millis (String c t) = String c (Presign.remove_millis t).
Proof. intros N. destruct t as [|a [|b [|d r]]]; simpl; rewrite ?N; reflexivity. Qed.

Lemma remove_millis_nodot s r :
  forallb (fun c => negb (Ascii.eqb c ".")) (list_ascii_of_string s) = true ->
  Presign.remove_millis (s ++ r) = s ++ Presign.remove_millis r.
Proof.
  induction s as [|c s IH]; intros D; [reflexivity|].
  simpl in D. apply andb_true_iff in D as [Dc D]. apply negb_true_iff in Dc.
  cbn [String.append]. rewrite remove_millis_cons by exact Dc. rewrite IH by exact D. reflexivity.
Qed.

Lemma digits_nodot s :
  forallb Js.is_digit (list_ascii_of_string s) = true ->
  forallb (fun c => negb (Ascii.eqb c ".")) (list_ascii_of_string s) = true.
Proof.
  induction s as [|c s IH]; intros D; [reflexivity|].
  simpl in D |- *. apply andb_true_iff in D as [Dc D]. rewrite IH by exact D.
  destruct c as [[] [] [] [] [] [] [] []]; try reflexivity; discriminate.
Qed.

Lemma substring0_app a b : substring 0 (String.length a) (a ++ b) = a.
Proof. induction a as [|c a IH]; simpl; [destruct b; reflexivity|rewrite IH; reflexivity]. Qed.

(** X7: For an ISO timestamp YYYY-MM-DDThh:mm:ss.mmmZ, the amzDate of
    createPresignedUrl is YYYYMMDDThhmmssZ and its first eight characters
    are YYYYMMDD. *)
Theorem presign_amz_date (Y M D h mi sec ms : string) :
  matches "DDDD" Y && matches "DD" M && matches "DD" D && matches "DD" h && matches "DD" mi
    && matches "DD" sec && matches "DDD" ms = true ->
  let amzDate := Presign.remove_millis (Presign.remove_dash_colon
    (Y ++ "-" ++ M ++ "-" ++ D ++ "T" ++ h ++ ":" ++ mi ++ ":" ++ sec ++ "." ++ ms ++ "Z")) in
  amzDate = Y ++ M ++ D ++ "T" ++ h ++ mi ++ sec ++ "Z" /\
  substring 0 8 amzDate = Y ++ M ++ D /\
  aws_basic_format amzDate = true.
Proof.
  rewrite !andb_true_iff. intros [[[[[[HY HM] HD] Hh] Hmi] Hs] Hms] amzDate.
  assert (DY := matches_digits "DDDD" Y eq_refl HY). assert (DM := matches_digits "DD" M eq_refl HM).
  assert (DD := matches_digits "DD" D eq_refl HD). assert (Dh := matches_digits "DD" h eq_refl Hh).
  assert (Dmi := matches_digits "DD" mi eq_refl Hmi). assert (Ds := matches_digits "DD" sec eq_refl Hs).
  assert (Dms := matches_digits "DDD" ms eq_refl Hms).
  assert (E : amzDate = Y ++ M ++ D ++ "T" ++ h ++ mi ++ sec ++ "Z").
  { subst amzDate.
    rewrite remove_dash_colon_digits by exact DY. cbn [Presign.remove_dash_colon String.append Ascii.eqb Bool.eqb orb andb].
    rewrite remove_dash_colon_digits by exact DM. cbn [Presign.remove_dash_colon String.append Ascii.eqb Bool.eqb orb andb].
    rewrite remove_dash_colon_digits by exact DD. cbn [Presign.remove_dash_colon String.append Ascii.eqb Bool.eqb orb andb].
    rewrite remove_dash_colon_digits by exact Dh. cbn [Presign.remove_dash_colon String.append Ascii.eqb Bool.eqb orb andb].
    rewrite remove_dash_colon_digits by exact Dmi. cbn [Presign.remove_dash_colon String.append Ascii.eqb Bool.eqb orb andb].
    rewrite remove_dash_colon_digits by exact Ds. cbn [Presign.remove_dash_colon String.append Ascii.eqb Bool.eqb orb andb].
    rewrite remove_dash_colon_digits by exact Dms. cbn [Presign.remove_dash_colon String.append Ascii.eqb Bool.eqb orb andb].
    rewrite remove_millis_nodot by exact (digits_nodot _ DY).
    rewrite remove_millis_nodot by exact (digits_nodot _ DM).
    rewrite remove_millis_nodot by exact (digits_nodot _ DD).
    rewrite remove_millis_cons by reflexivity.
    rewrite remove_millis_nodot by exact (digits_nodot _ Dh).
    rewrite remove_millis_nodot by exact (digits_nodot _ Dmi).
    rewrite remove_millis_nodot by exact (digits_nodot _ Ds).
    apply (matches_len "DDD") in Hms. destruct ms as [|a [|b [|d [|]]]]; try discriminate.
    simpl in Dms. rewrite !andb_true_iff in Dms. destruct Dms as [Da [Db [Dd _]]].
    cbn [String.append]. unfold Presign.remove_millis at 1. cbv [Ascii.eqb]. rewrite Da, Db, Dd.
    cbn. reflexivity. }
  split; [exact E|]. rewrite E. split.
  - assert (L : String.length (Y ++ M ++ D) = 8).
    { rewrite !SignatureFacts.string_length_app, (matches_len _ _ HY), (matches_len _ _ HM), (matches_len _ _ HD).
      reflexivity. }
    replace (Y ++ M ++ D ++ "T" ++ h ++ mi ++ sec ++ "Z") with ((Y ++ M ++ D) ++ "T" ++ h ++ mi ++ sec ++ "Z")
      by (rewrite !SignatureFacts.append_assoc_str; reflexivity).
    rewrite <- L. apply substring0_app.
  - unfold aws_basic_format.
    change "DDDDDDDDTDDDDDDZ" with ("DDDD" ++ "DD" ++ "DD" ++ "T" ++ "DD" ++ "DD" ++ "DD" ++ "Z").
    repeat (apply SignatureFacts.matches_app; [assumption || reflexivity|]). reflexivity.
Qed.

End SignatureExtraFacts.


Module ConfigFacts.
Import CodecSpec.

(** X8: validateConfig succeeds iff all six environment variables are non-empty;
    otherwise its message lists exactly the empty ones, comma-separated. *)
Theorem validateConfig_spec (env : Env) :
  (Config.validateConfig env = inr tt <->
     WEBDAV_URL env <> "" /\ WEBDAV_USERNAME env <> "" /\ WEBDAV_PASSWORD env <> "" /\
     S3_ACCESS_KEY_ID env <> "" /\ S3_SECRET_ACCESS_KEY env <> "" /\ S3_REGION env <> "") /\
  (forall msg, Config.validateConfig env = inl msg ->
     exists missing, missing <> [] /\
       msg = "Missing required environment variables: " ++ Js.join ", " missing /\
       (forall n, In n missing <-> exists field, In (n, field) Config.required /\ field env = "")).
Proof.
  split.
  - unfold Config.validateConfig, Config.required. cbn [filter map Js.truthy].
    repeat match goal with |- context [String.eqb ?x ""] => destruct (String.eqb_spec x "") end;
      cbn; split; intros; try discriminate; try reflexivity; tauto.
  - intros msg. unfold Config.validateConfig.
    set (missing := map fst _).
    destruct (0 <? length missing)%nat eqn:L; [|discriminate]. intros E. injection E as <-.
    exists missing. split; [|split; [reflexivity|]].
    + apply Nat.ltb_lt in L. intros Em. rewrite Em in L. simpl in L. lia.
    + intros n. subst missing. rewrite in_map_iff. split.
      * intros [[n' f] [En I]]. simpl in En. subst n'. apply filter_In in I as [I P].
        exists f. split; [exact I|]. simpl in P. apply negb_true_iff, negb_false_iff in P.
        apply String.eqb_eq in P. exact P.
      * intros [f [I P]]. exists (n, f). split; [reflexivity|]. apply filter_In. split; [exact I|].
        simpl. rewrite P. reflexivity.
Qed.

Lemma ends_with_slash_app_nonempty a b : b <> "" -> Operations.ends_with_slash (a ++ b) = Operations.ends_with_slash b.
Proof.
  intros N. induction a as [|c a IH]; [reflexivity|]. cbn [String.append].
  change (Operations.ends_with_slash (String c (a ++ b))) with
    (match a ++ b with EmptyString => Ascii.eqb c "/" | _ => Operations.ends_with_slash (a ++ b) end).
  destruct (a ++ b) eqn:E; [destruct a, b; try discriminate; contradiction|exact IH].
Qed.

Lemma ends_with_slash_split s : Operations.ends_with_slash s = true -> exists d, s = d ++ "/".
Proof.
  induction s as [|c r IH]; [discriminate|]. destruct r as [|c' r'].
  - intros E. simpl in E. apply Ascii.eqb_eq in E. subst c. exists "". reflexivity.
  - intros E. destruct (IH E) as [d Ed]. exists (String c d). rewrite Ed. reflexivity.
Qed.

Lemma app_char_inj a b c : a ++ String c "" = b ++ String c "" -> a = b.
Proof.
  revert b. induction a as [|x a IH]; intros [|y b] E; simpl in E.
  - reflexivity.
  - injection E as -> E. destruct b; discriminate.
  - injection E as -> E. destruct a; discriminate.
  - injection E as -> E. f_equal. exact (IH b E).
Qed.

(** X9: getWebDAVBaseUrl is the configured WebDAV URL with a slash appended
    unless it already ends with one, and buildUrl appends a path to it with
    one leading slash removed. *)
Theorem webdav_url_base (env : Env) :
  let base := Config.getWebDAVBaseUrl env in
  Operations.ends_with_slash base = true /\
  (exists dir, base = dir ++ "/" /\ (dir = WEBDAV_URL env \/ dir ++ "/" = WEBDAV_URL env)) /\
  (forall p, Js.starts_with "/" p = false ->
     DavUrl.buildUrl base ("/" ++ p) = base ++ p /\ DavUrl.buildUrl base p = base ++ p).
Proof.
  intros base.
  assert (B : Operations.ends_with_slash base = true).
  { subst base. unfold Config.getWebDAVBaseUrl.
    destruct (Operations.ends_with_slash (WEBDAV_URL env)) eqn:E; [exact E|].
    rewrite ends_with_slash_app_nonempty by discriminate. reflexivity. }
  split; [exact B|split].
  - destruct (ends_with_slash_split _ B) as [d Ed]. exists d. split; [exact Ed|].
    subst base. unfold Config.getWebDAVBaseUrl in Ed |- *.
    destruct (Operations.ends_with_slash (WEBDAV_URL env)); [right; symmetry; exact Ed|left].
    symmetry. exact (app_char_inj _ _ _ Ed).
  - intros p N. unfold DavUrl.buildUrl. rewrite N. simpl. split; [|reflexivity].
    unfold Operations.drop_first. simpl. f_equal. apply SignatureExtraFacts.substring_all. lia.
Qed.
End ConfigFacts.

Module ParserFacts.
Import CodecSpec.

Lemma split_nonnil c s : Js.split c s <> [].
Proof.
  destruct s as [|d r]; [discriminate|]. simpl. destruct (Ascii.eqb c d); [discriminate|].
  destruct (Js.split c r); discriminate.
Qed.

Lemma split_app_pre c a r : exists pre, pre <> [] /\ Js.split c (a ++ String c r) = app pre (Js.split c r).
Proof.
  induction a as [|d a IH].
  - exists [""]. split; [discriminate|]. simpl. rewrite Ascii.eqb_refl. reflexivity.
  - destruct IH as [pre [N E]]. cbn [String.append Js.split]. rewrite E.
    destruct (Ascii.eqb c d).
    + exists ("" :: pre). split; [discriminate|reflexivity].
    + destruct pre as [|p0 pre]; [contradiction|]. exists (String d p0 :: pre). split; [discriminate|reflexivity].
Qed.

Lemma last_app_nonempty {A} (pre l : list A) x : l <> [] -> last (app pre l) x = last l x.
Proof.
  intros N. induction pre as [|a pre IH]; [reflexivity|].
  rewrite <- app_comm_cons. simpl. rewrite IH. destruct (app pre l) eqn:E; [|reflexivity].
  apply app_eq_nil in E. destruct E; contradiction.
Qed.

Lemma ends_with_slash_free s : free_of "/" s = true -> Operations.ends_with_slash s = false.
Proof.
  induction s as [|c r IH]; intros F; [reflexivity|].
  unfold free_of in F. simpl in F. apply andb_true_iff in F as [F1 F2]. apply negb_true_iff in F1.
  destruct r as [|c' r']; [exact F1|]. exact (IH F2).
Qed.

Lemma strip_slash s : Parser.strip_trailing_slash (s ++ "/") = s.
Proof.
  unfold Parser.strip_trailing_slash.
  rewrite ConfigFacts.ends_with_slash_app_nonempty by discriminate. cbn [Operations.ends_with_slash Ascii.eqb].
  rewrite SignatureFacts.string_length_app. simpl. rewrite Nat.add_sub. apply SignatureExtraFacts.substring0_app.
Qed.

Lemma split_last_free c s : free_of c (last (Js.split c s) "") = true.
Proof.
  induction s as [|d r IH]; [reflexivity|]. cbn [Js.split].
  pose proof (split_nonnil c r) as NN.
  destruct (Ascii.eqb c d) eqn:E.
  - destruct (Js.split c r) as [|p ps]; [contradiction|]. exact IH.
  - destruct (Js.split c r) as [|p ps]; [contradiction|].
    destruct ps as [|q qs].
    + unfold free_of in IH |- *. simpl in IH |- *. rewrite IH, andb_true_r. apply negb_true_iff. rewrite Ascii.eqb_sym. exact E.
    + exact IH.
Qed.

(** X10: getFilenameFromHref returns a slash-free string; for a non-empty
    slash-free name it returns that name from dir/name and from dir/name/. *)
Theorem getFilenameFromHref_last (dir name href : string) :
  free_of "/" (Parser.getFilenameFromHref href) = true /\
  (name <> "" -> free_of "/" name = true ->
     Parser.getFilenameFromHref (dir ++ "/" ++ name) = name /\
     Parser.getFilenameFromHref (dir ++ "/" ++ name ++ "/") = name).
Proof.
  split; [apply split_last_free|]. intros N F.
  assert (G : forall h, Parser.strip_trailing_slash h = dir ++ "/" ++ name -> Parser.getFilenameFromHref h = name).
  { intros h Eh. unfold Parser.getFilenameFromHref. rewrite Eh.
    destruct (split_app_pre "/" dir name) as [pre [_ Es]]. change ("/" ++ name) with (String "/" name).
    rewrite Es, last_app_nonempty by apply split_nonnil. rewrite SignatureExtraFacts.split_free by exact F. reflexivity. }
  split; apply G.
  - unfold Parser.strip_trailing_slash.
    rewrite ConfigFacts.ends_with_slash_app_nonempty by discriminate.
    destruct name as [|c r]; [contradiction|].
    change (Operations.ends_with_slash ("/" ++ String c r)) with (Operations.ends_with_slash (String c r)).
    rewrite (ends_with_slash_free _ F). reflexivity.
  - rewrite <- (SignatureFacts.append_assoc_str "/" name "/"), <- SignatureFacts.append_assoc_str. apply strip_slash.
Qed.

Lemma to_int32_range z : (- 2 ^ 31 <= Parser.to_int32 z < 2 ^ 31)%Z.
Proof. unfold Parser.to_int32. pose proof (Z.mod_pos_bound (z + 2 ^ 31) (2 ^ 32)). lia. Qed.

Lemma hash_range (l : list Z) h : (- 2 ^ 31 <= h < 2 ^ 31)%Z -> (- 2 ^ 31 <= fold_left Parser.hash_step l h < 2 ^ 31)%Z.
Proof.
  revert h. induction l as [|x l IH]; intros h R; [exact R|]. simpl. apply IH. apply to_int32_range.
Qed.

Lemma hex_digit_lower_ok n : (n < 16)%nat -> SignatureSpec.lower_hex (Js.hex_digit_lower n) = true.
Proof. intros L. do 16 (destruct n as [|n]; [reflexivity|]). lia. Qed.

Lemma hex_digits_spec fuel : forall n acc m,
  (0 <= n)%Z -> (n < 16 ^ Z.of_nat (S fuel))%Z -> (1 <= m)%nat -> (n < 16 ^ Z.of_nat m)%Z ->
  forallb SignatureSpec.lower_hex (list_ascii_of_string acc) = true ->
  String.length acc < String.length (Parser.hex_digits (S fuel) n acc) <= String.length acc + m /\
  forallb SignatureSpec.lower_hex (list_ascii_of_string (Parser.hex_digits (S fuel) n acc)) = true.
Proof.
  induction fuel as [|f IH]; intros n acc m N0 Nf M1 Nm A; cbn [Parser.hex_digits].
  - assert (L : (n < 16)%Z) by (simpl in Nf; lia). apply Z.ltb_lt in L. rewrite L.
    cbn [String.append String.length list_ascii_of_string forallb]. rewrite A, andb_true_r.
    split; [lia|]. apply hex_digit_lower_ok. pose proof (Z.mod_pos_bound n 16). lia.
  - set (d := String (Js.hex_digit_lower (Z.to_nat (n mod 16))) "").
    assert (Dok : forallb SignatureSpec.lower_hex (list_ascii_of_string (d ++ acc)) = true).
    { subst d. cbn [String.append list_ascii_of_string forallb]. rewrite A, andb_true_r.
      apply hex_digit_lower_ok. pose proof (Z.mod_pos_bound n 16). lia. }
    destruct (n <? 16)%Z eqn:L.
    + split; [subst d; simpl; lia|exact Dok].
    + apply Z.ltb_ge in L.
      assert (M2 : (2 <= m)%nat).
      { destruct m as [|[|m]]; [lia| |lia]. simpl in Nm. lia. }
      destruct (IH (n / 16)%Z (d ++ acc) (m - 1)%nat) as [[L1 L2] H2].
      * apply Z.div_pos; lia.
      * apply Z.div_lt_upper_bound; [lia|].
        replace (16 * 16 ^ Z.of_nat (S f))%Z with (16 ^ Z.of_nat (S (S f)))%Z; [exact Nf|].
        rewrite <- Z.pow_succ_r by lia. f_equal. lia.
      * lia.
      * apply Z.div_lt_upper_bound; [lia|].
        replace (16 * 16 ^ Z.of_nat (m - 1))%Z with (16 ^ Z.of_nat m)%Z; [exact Nm|].
        rewrite <- Z.pow_succ_r by lia. f_equal. lia.
      * exact Dok.
      * subst d. simpl in L1, L2 |- *. split; [lia|exact H2].
Qed.

(** X11: generateSimpleEtag always returns between one and eight lower-case hex
    digits. *)
Theorem generateSimpleEtag_hex (code_units : string -> list Z) (href : string) (time size : Num.JsNum) :
  Parser.generateSimpleEtag code_units href time size <> "" /\
  String.length (Parser.generateSimpleEtag code_units href time size) <= 8 /\
  forallb SignatureSpec.lower_hex (list_ascii_of_string (Parser.generateSimpleEtag code_units href time size)) = true.
Proof.
  unfold Parser.generateSimpleEtag, Parser.to_hex_string.
  set (h := fold_left _ _ _).
  assert (R : (- 2 ^ 31 <= h < 2 ^ 31)%Z) by (apply hash_range; lia).
  set (n := Z.abs h).
  assert (N0 : (0 <= n <= 2 ^ 31)%Z) by (subst n; lia).
  assert (Nf : (n < 16 ^ Z.of_nat (S (Z.to_nat (Z.log2 n))))%Z).
  { destruct (Z.eq_dec n 0) as [E|E]; [rewrite E; simpl; lia|].
    destruct (Z.log2_spec n ltac:(lia)) as [_ U].
    rewrite Nat2Z.inj_succ, Z2Nat.id by apply Z.log2_nonneg.
    eapply Z.lt_le_trans; [exact U|]. apply Z.pow_le_mono_l. lia. }
  destruct (hex_digits_spec (Z.to_nat (Z.log2 n)) n "" 8 ltac:(lia) Nf ltac:(lia) ltac:(simpl; lia) eq_refl)
    as [[L1 L2] H2].
  set (r := Parser.hex_digits _ n "") in L1, L2, H2 |- *.
  change (String.length "") with 0 in L1, L2.
  split; [|split; [lia|exact H2]]. intros E. rewrite E in L1. simpl in L1. lia.
Qed.

End ParserFacts.


Module EntryFacts.
Import Dav Operations Errors Routing Entry EntrySpec.

Lemma log_lines_run lines srv log : log_lines lines srv log = (inr tt, app log (map Logged lines)).
Proof.
  revert log. induction lines as [|l rest IH]; intros log; simpl.
  - rewrite app_nil_r. reflexivity.
  - unfold bind, emit. rewrite IH, <- app_assoc. reflexivity.
Qed.

Section E.
Context `{Host}.
Variable parse : string -> string -> list WebDAVResource.
Variable presign : S3RequestContext -> M Reply.
Variable btoa_error : string.
Variable url_origin : string -> string.
Variable has_body : Request -> bool.

Lemma verifySignatureM_run request env srv log :
  exists lines, verifySignatureM request env srv log =
    (inr (Signature.verifySignature request env None), app log (map Logged lines)).
Proof.
  unfold verifySignatureM, Signature.verifySignature.
  destruct (Signature.prepare request env None) as [p|r].
  - destruct (Signature.checkSignature request env p) as [|e [d|]|e].
    + exists []. rewrite app_nil_r. reflexivity.
    + eexists. unfold bind. rewrite log_lines_run. reflexivity.
    + exists []. rewrite app_nil_r. reflexivity.
    + exists []. rewrite app_nil_r. reflexivity.
  - exists []. rewrite app_nil_r. reflexivity.
Qed.

Lemma verifySignatureM_valid request env srv log :
  Signature.verifySignature request env None = Signature.Valid ->
  verifySignatureM request env srv log = (inr Signature.Valid, log).
Proof.
  unfold verifySignatureM, Signature.verifySignature.
  destruct (Signature.prepare request env None) as [p|r].
  - intros V. rewrite V. reflexivity.
  - intros V. subst r. reflexivity.
Qed.

(** [onRequest] after the preflight and configuration checks. *)
Lemma onRequest_checked request env srv log :
  String.eqb (method request) "OPTIONS" = false -> Config.validateConfig env = inr tt ->
  exists lines,
    onRequest parse presign btoa_error url_origin has_body request env srv log =
    (match Signature.verifySignature request env None with
     | Signature.Threw error => throw error
     | Signature.Invalid error _ =>
         emit (LoggedError ("Signature verification failed: " ++ error)) ;;;
         ret (Respond (S3 (if includes "access key" error then InvalidAccessKeyId else SignatureDoesNotMatch))
                false)
     | Signature.Valid =>
         let '(s3Request, operation) := parseS3Request url_origin has_body request in
         emit (operation_line s3Request operation) ;;;
         r <- try_catch (handleS3Operation parse presign btoa_error s3Request operation env) ;;
         match r with
         | inr response => ret (Respond response true)
         | inl error =>
             emit (LoggedError ("Operation error: " ++ error)) ;;;
             ret (Respond (S3 (InternalError error)) false)
         end
     end) srv (app log (map Logged lines)).
Proof.
  intros O C. destruct (verifySignatureM_run request env srv log) as [lines VM].
  exists lines. unfold onRequest. rewrite O, C. cbv beta iota.
  rewrite (OperationsFacts.bind_step _ _ _ _ _ _ VM). reflexivity.
Qed.

Lemma options_not_op request :
  String.eqb (method request) "OPTIONS" = true ->
  snd (parseS3Request url_origin has_body request) = Unknown.
Proof.
  intros E. apply String.eqb_eq in E. unfold parseS3Request. rewrite E. reflexivity.
Qed.

Lemma try_catch_inr {A} (m : M A) srv log : exists r log', try_catch m srv log = (inr r, log').
Proof. unfold try_catch. destruct (m srv log) as [r l']. eauto. Qed.

(** X12: onRequest answers OPTIONS with the preflight and no event, and it
    rejects exactly when the method is not OPTIONS, the configuration is
    valid and verifySignature throws; handler errors are always turned into
    responses. *)
Theorem onRequest_rejects_only_on_throw (request : Request) (env : Env) srv log e :
  (String.eqb (method request) "OPTIONS" = true ->
     onRequest parse presign btoa_error url_origin has_body request env srv log = (inr Preflight, log)) /\
  (fst (onRequest parse presign btoa_error url_origin has_body request env srv log) = inl e <->
   String.eqb (method request) "OPTIONS" = false /\ Config.validateConfig env = inr tt /\
   Signature.verifySignature request env None = Signature.Threw e).
Proof.
  split; [intros E; unfold onRequest; rewrite E; reflexivity|].
  destruct (String.eqb (method request) "OPTIONS") eqn:O.
  { unfold onRequest. rewrite O. split; [discriminate|intuition discriminate]. }
  destruct (Config.validateConfig env) as [msg|[]] eqn:C.
  { unfold onRequest. rewrite O, C. split; [discriminate|intros (_ & D & _); discriminate]. }
  destruct (onRequest_checked request env srv log O C) as [lines ->].
  destruct (Signature.verifySignature request env None) as [|err d|err].
  - destruct (parseS3Request url_origin has_body request) as [ctx op].
    unfold bind at 1, emit at 1.
    destruct (try_catch_inr (handleS3Operation parse presign btoa_error ctx op env) srv
                (app (app log (map Logged lines)) [operation_line ctx op])) as (r & l' & T).
    unfold bind at 1. rewrite T.
    destruct r; simpl; (split; [discriminate|intros (_ & _ & D); discriminate]).
  - simpl. split; [discriminate|intros (_ & _ & D); discriminate].
  - simpl. split; [intros E; injection E as <-; auto|intros (_ & _ & D); injection D as <-; reflexivity].
Qed.

Lemma canonicalHeadersList_invalid h names e d :
  Signature.canonicalHeadersList h names = Signature.Return (Signature.Invalid e d) ->
  exists n, valid_header_name n = true /\ e = "Missing signed header: " ++ n.
Proof.
  induction names as [|n rest IH]; [discriminate|]. cbn [Signature.canonicalHeadersList].
  unfold header_get. destruct (valid_header_name n) eqn:V; [|discriminate].
  destruct (header_lookup h n) as [v|].
  - unfold Signature.bind. destruct (Signature.canonicalHeadersList h rest) as [l|r]; [discriminate|].
    intros E; injection E as ->. exact (IH eq_refl).
  - unfold Signature.reject. intros E; injection E as <- _. eauto.
Qed.

Lemma resolve_invalid a b e d :
  Signature.resolveRequestDateTime a b = Signature.Return (Signature.Invalid e d) ->
  e = "Invalid Date header format" \/ e = "Missing date header".
Proof.
  unfold Signature.resolveRequestDateTime, Signature.bind, Signature.reject.
  destruct (Js.truthy a); [|destruct (Js.truthy b); [destruct (Signature.convertToAwsDateFormat _)|]];
  cbn; repeat match goal with |- context [if ?c then _ else _] => destruct c end;
  intros E; try discriminate; injection E; auto.
Qed.

Lemma verify_invalid_error request env bh e d :
  Signature.verifySignature request env bh = Signature.Invalid e d ->
  In e ["Missing Authorization header"; "Invalid Authorization header format"; "Invalid access key";
        "Invalid region"; "Invalid service"; "Invalid Date header format"; "Missing date header";
        "Signature mismatch"] \/
  exists n, valid_header_name n = true /\ e = "Missing signed header: " ++ n.
Proof.
  unfold Signature.verifySignature, Signature.prepare.
  destruct (Js.truthy _); cbn [negb]; [|intros E; injection E as <- _; simpl; tauto].
  destruct (Signature.parseAuthorizationHeader _) as [c|]; [|intros E; injection E as <- _; simpl; tauto].
  destruct (String.eqb (Signature.accessKeyId c) _); cbn [negb]; [|intros E; injection E as <- _; simpl; tauto].
  destruct (String.eqb (Signature.region c) _); cbn [negb]; [|intros E; injection E as <- _; simpl; tauto].
  destruct (String.eqb (Signature.service c) _); cbn [negb]; [|intros E; injection E as <- _; simpl; tauto].
  unfold Signature.bind at 1.
  destruct (Signature.resolveRequestDateTime _ _) as [dt|r] eqn:R.
  2: { intros E; subst r. destruct (resolve_invalid _ _ _ _ R) as [->| ->]; simpl; tauto. }
  unfold Signature.bind at 1.
  destruct (Signature.canonicalHeadersList _ _) as [lines|r] eqn:C.
  2: { intros E; subst r. right. exact (canonicalHeadersList_invalid _ _ _ _ C). }
  unfold Signature.bind at 1.
  destruct (decode_uri_component _); [|discriminate].
  unfold Signature.checkSignature. destruct (String.eqb (Crypto.arrayBufferToHex _) _); cbn [negb]; [discriminate|].
  intros E; injection E as <- _. simpl; tauto.
Qed.

Lemma starts_with_prefix p t : Js.starts_with p t = true -> exists u, t = p ++ u.
Proof.
  revert t; induction p as [|a p IH]; intros t S; [exists t; reflexivity|].
  destruct t as [|b t]; [discriminate|]. simpl in S. apply andb_true_iff in S as [S1 S2].
  apply Ascii.eqb_eq in S1. subst b. destruct (IH t S2) as [u ->]. exists u. reflexivity.
Qed.

Lemma includes_token n : forallb tchar (list_ascii_of_string n) = true -> includes "access key" n = false.
Proof.
  induction n as [|c r IH]; intros T; [reflexivity|].
  simpl in T. apply andb_true_iff in T as [T1 T2].
  cbn [includes]. rewrite (IH T2), orb_false_r.
  destruct (Js.starts_with "access key" (String c r)) eqn:S; [|reflexivity].
  destruct (starts_with_prefix _ _ S) as [u U]. injection U as -> ->.
  simpl in T2. discriminate.
Qed.

Lemma access_key_error_only request env e d :
  Signature.verifySignature request env None = Signature.Invalid e d ->
  includes "access key" e = true -> e = "Invalid access key".
Proof.
  intros V I. destruct (verify_invalid_error _ _ _ _ _ V) as [L|(n & N & ->)].
  - simpl in L. intuition (subst; first [reflexivity|discriminate]).
  - exfalso. unfold valid_header_name in N. apply andb_true_iff in N as [_ N].
    cbn in I. rewrite includes_token in I by exact N. discriminate.
Qed.

Lemma verify_invalid_access_key request env bh d :
  Signature.verifySignature request env bh = Signature.Invalid "Invalid access key" d <->
  exists c, Js.truthy (header_lookup (headers request) "Authorization") = true /\
     Signature.parseAuthorizationHeader (Signature.value (header_lookup (headers request) "Authorization")) = Some c /\
     Signature.accessKeyId c <> S3_ACCESS_KEY_ID env /\ d = None.
Proof.
  unfold Signature.verifySignature, Signature.prepare. split.
  - destruct (Js.truthy _) eqn:T; cbn [negb]; [|intros Q; discriminate].
    destruct (Signature.parseAuthorizationHeader _) as [c|] eqn:P; [|intros Q; discriminate].
    destruct (String.eqb (Signature.accessKeyId c) _) eqn:K; cbn [negb].
    2: { intros Q; injection Q as Q. exists c. apply String.eqb_neq in K. auto. }
    destruct (String.eqb (Signature.region c) _); cbn [negb]; [|intros Q; discriminate].
    destruct (String.eqb (Signature.service c) _); cbn [negb]; [|intros Q; discriminate].
    unfold Signature.bind at 1.
    destruct (Signature.resolveRequestDateTime _ _) as [dt|r] eqn:R.
    2: { intros Q; subst r. destruct (resolve_invalid _ _ _ _ R) as [Q|Q]; discriminate Q. }
    unfold Signature.bind at 1.
    destruct (Signature.canonicalHeadersList _ _) as [lines|r] eqn:C.
    2: { intros Q; subst r. destruct (canonicalHeadersList_invalid _ _ _ _ C) as (n & _ & Q). discriminate Q. }
    unfold Signature.bind at 1.
    destruct (decode_uri_component _); [|discriminate].
    unfold Signature.checkSignature. destruct (String.eqb (Crypto.arrayBufferToHex _) _); cbn [negb]; [discriminate|].
    intros Q; injection Q as Q _. discriminate Q.
  - intros (c & T & P & K & ->). rewrite T, P. apply String.eqb_neq in K. rewrite K. reflexivity.
Qed.

(** X13: With a valid configuration and an ASCII access key and region, a
    request that is not a preflight and fails signature verification is
    answered InvalidAccessKeyId exactly when its Authorization header
    parses and names an access key other than the configured one, and
    SignatureDoesNotMatch exactly when verification fails for any other
    reason. *)
Theorem onRequest_access_key_classification (request : Request) (env : Env) srv log :
  String.eqb (method request) "OPTIONS" = false -> Config.validateConfig env = inr tt ->
  Js.ascii_only (S3_ACCESS_KEY_ID env) = true -> Js.ascii_only (S3_REGION env) = true ->
  (fst (onRequest parse presign btoa_error url_origin has_body request env srv log) =
     inr (Respond (S3 InvalidAccessKeyId) false) <->
   exists c, Js.truthy (header_lookup (headers request) "Authorization") = true /\
     Signature.parseAuthorizationHeader (Signature.value (header_lookup (headers request) "Authorization")) = Some c /\
     Signature.accessKeyId c <> S3_ACCESS_KEY_ID env) /\
  (fst (onRequest parse presign btoa_error url_origin has_body request env srv log) =
     inr (Respond (S3 SignatureDoesNotMatch) false) <->
   exists e d, Signature.verifySignature request env None = Signature.Invalid e d /\ e <> "Invalid access key").
Proof.
  intros O C _ _.
  assert (A : (exists c, Js.truthy (header_lookup (headers request) "Authorization") = true /\
     Signature.parseAuthorizationHeader (Signature.value (header_lookup (headers request) "Authorization")) = Some c /\
     Signature.accessKeyId c <> S3_ACCESS_KEY_ID env) <->
     Signature.verifySignature request env None = Signature.Invalid "Invalid access key" None).
  { rewrite verify_invalid_access_key. split; [intros (c & T & P & K); exists c; auto|intros (c & T & P & K & _); eauto]. }
  rewrite A. destruct (onRequest_checked request env srv log O C) as [lines ->].
  destruct (Signature.verifySignature request env None) as [|err d|err] eqn:V.
  - destruct (parseS3Request url_origin has_body request) as [ctx op].
    unfold bind at 1, emit at 1.
    destruct (try_catch_inr (handleS3Operation parse presign btoa_error ctx op env) srv
                (app (app log (map Logged lines)) [operation_line ctx op])) as (r & l' & T).
    unfold bind, emit. rewrite T.
    split; split; try discriminate; try (intros (e & d & Q & _); discriminate).
    all: destruct r as [er|rp]; simpl; intros Q; [|discriminate].
    all: unfold InternalError, InvalidAccessKeyId, SignatureDoesNotMatch in Q; congruence.
  - simpl. split; split.
    + intros Q. destruct (includes "access key" err) eqn:I.
      * pose proof (access_key_error_only _ _ _ _ V I) as ->.
        apply verify_invalid_access_key in V as (c & _ & _ & _ & ->). reflexivity.
      * injection Q as Q. unfold SignatureDoesNotMatch, InvalidAccessKeyId in Q. discriminate.
    + intros Q. injection Q as -> _. reflexivity.
    + intros Q. exists err, d. split; [reflexivity|]. intros ->.
      simpl in Q. injection Q as Q. unfold SignatureDoesNotMatch, InvalidAccessKeyId in Q. discriminate.
    + intros (e & d' & Q & N). injection Q as <- _.
      destruct (includes "access key" err) eqn:I; [|reflexivity].
      exfalso. exact (N (access_key_error_only _ _ _ _ V I)).
  - simpl. split; split; try discriminate. intros (e & d & Q & _); discriminate.
Qed.

(** X14: A preflight, a configuration error or a failed signature check sends no
    WebDAV request: the answer is the preflight, a response without CORS
    headers, or a rejection, and only console output is added. *)
Theorem onRequest_no_traffic_unless_authenticated (request : Request) (env : Env) srv log :
  String.eqb (method request) "OPTIONS" = true \/ (exists msg, Config.validateConfig env = inl msg) \/
  Signature.verifySignature request env None <> Signature.Valid ->
  exists extra, snd (onRequest parse presign btoa_error url_origin has_body request env srv log) = app log extra /\
    (forall r, ~ In (Sent r) extra) /\
    (fst (onRequest parse presign btoa_error url_origin has_body request env srv log) = inr Preflight \/
     (exists resp, fst (onRequest parse presign btoa_error url_origin has_body request env srv log) =
                     inr (Respond (S3 resp) false)) \/
     exists e, fst (onRequest parse presign btoa_error url_origin has_body request env srv log) = inl e).
Proof.
  intros Hyp.
  destruct (String.eqb (method request) "OPTIONS") eqn:O.
  { unfold onRequest. rewrite O. exists []. rewrite app_nil_r. simpl. split; [reflexivity|split; [tauto|left; reflexivity]]. }
  destruct (Config.validateConfig env) as [msg|[]] eqn:C.
  { unfold onRequest. rewrite O, C. eexists. split; [reflexivity|]. simpl. split.
    - intros r [Q|[]]; discriminate.
    - right. left. eexists. reflexivity. }
  destruct (onRequest_checked request env srv log O C) as [lines ->].
  destruct (Signature.verifySignature request env None) as [|err d|err].
  - exfalso. destruct Hyp as [Q|[(m & Q)|Q]]; [discriminate|discriminate|apply Q; reflexivity].
  - exists (app (map Logged lines) [LoggedError ("Signature verification failed: " ++ err)]).
    simpl. rewrite app_assoc. split; [reflexivity|split].
    + intros r I. apply in_app_or in I as [I|[I|[]]]; [|discriminate].
      apply in_map_iff in I as (x & Q & _). discriminate.
    + right. left. eexists. reflexivity.
  - exists (map Logged lines). simpl. split; [reflexivity|split].
    + intros r I. apply in_map_iff in I as (x & Q & _). discriminate.
    + right. right. eexists. reflexivity.
Qed.

Lemma not_options_of_op request op :
  snd (parseS3Request url_origin has_body request) = op -> op <> Unknown ->
  String.eqb (method request) "OPTIONS" = false.
Proof.
  intros E N. destruct (String.eqb (method request) "OPTIONS") eqn:O; [|reflexivity].
  rewrite (options_not_op _ O) in E. subst op. contradiction.
Qed.

Lemma onRequest_valid request env srv log :
  String.eqb (method request) "OPTIONS" = false -> Config.validateConfig env = inr tt ->
  Signature.verifySignature request env None = Signature.Valid ->
  onRequest parse presign btoa_error url_origin has_body request env srv log =
  (let '(ctx, op) := parseS3Request url_origin has_body request in
   emit (operation_line ctx op) ;;;
   r <- try_catch (handleS3Operation parse presign btoa_error ctx op env) ;;
   match r with
   | inr response => ret (Respond response true)
   | inl error => emit (LoggedError ("Operation error: " ++ error)) ;;; ret (Respond (S3 (InternalError error)) false)
   end) srv log.
Proof.
  intros O C V. unfold onRequest. rewrite O, C. cbv beta iota.
  rewrite (OperationsFacts.bind_step _ _ _ _ _ _ (verifySignatureM_valid request env srv log V)).
  destruct (parseS3Request _ _ _); reflexivity.
Qed.

Lemma handleS3Operation_latin1 ctx op env :
  latin1_credentials env = true ->
  forall srv log, handleS3Operation parse presign btoa_error ctx op env srv log =
    match op with
    | GetObject => handleGetObject ctx
    | PutObject => r <- handlePutObject ctx ;; ret (S3 r)
    | DeleteObject => r <- handleDeleteObject ctx ;; ret (S3 r)
    | HeadObject => handleHeadObject ctx
    | ListBucket => r <- handleListBucket parse ctx ;; ret (S3 r)
    | HeadBucket => handleHeadBucket parse ctx
    | GetObjectStream => handleGetObjectStream ctx
    | CreatePresignedGetUrl => presign ctx
    | Unknown => ret (S3 (MethodNotAllowed (ctx_method ctx)))
    end srv log.
Proof.
  intros L srv log. unfold handleS3Operation, newWebDAVClient. unfold latin1_credentials in L.
  rewrite L. reflexivity.
Qed.

Lemma object_read_common request env srv log m errPrefix bodyOf op
  (handler : S3RequestContext -> M Reply) :
  Config.validateConfig env = inr tt ->
  Signature.verifySignature request env None = Signature.Valid ->
  latin1_credentials env = true ->
  snd (parseS3Request url_origin has_body request) = op -> op <> Unknown ->
  (forall c srv log, handleS3Operation parse presign btoa_error c op env srv log = handler c srv log) ->
  (forall c srv log, handler c srv log =
     (resp <- fetch {| dav_method := m; dav_path := buildWebDAVPath (bucket c) (key c) |} ;;
      ret (read_reply c errPrefix bodyOf resp)) srv log) ->
  let ctx := fst (parseS3Request url_origin has_body request) in
  let req := {| dav_method := m; dav_path := buildWebDAVPath (bucket ctx) (key ctx) |} in
  let line := operation_line ctx op in
  onRequest parse presign btoa_error url_origin has_body request env srv log =
  match srv (app log [line]) req with
  | Some resp => (inr (Respond (read_reply ctx errPrefix bodyOf resp) true), app log [line; Sent req])
  | None => (inr (Respond (S3 (InternalError "fetch failed")) false),
             app log [line; Sent req; LoggedError "Operation error: fetch failed"])
  end.
Proof.
  intros C V L Op N Hh Hr ctx req line.
  rewrite (onRequest_valid _ _ _ _ (not_options_of_op _ _ Op N) C V).
  subst ctx req line. destruct (parseS3Request url_origin has_body request) as [c op']. simpl fst; simpl snd in Op. subst op'.
  unfold bind at 1, emit at 1. unfold bind at 1, try_catch. rewrite Hh, Hr. unfold bind, fetch.
  destruct (srv _ _) as [resp|]; simpl; rewrite <- !app_assoc; reflexivity.
Qed.

(** X15: With WebDAV credentials that Basic authentication can carry, an
    authenticated GetObject or HeadObject prints the operation line, then
    sends exactly one GET or HEAD of the mapped WebDAV path and answers,
    with CORS, the object on 2xx, NoSuchKey on 404 and InternalError with
    the status otherwise; a transport failure gives InternalError without
    CORS and an error line. *)
Theorem onRequest_object_read (request : Request) (env : Env) srv log :
  Config.validateConfig env = inr tt ->
  Signature.verifySignature request env None = Signature.Valid ->
  latin1_credentials env = true ->
  let ctx := fst (parseS3Request url_origin has_body request) in
  let op := snd (parseS3Request url_origin has_body request) in
  let path := buildWebDAVPath (bucket ctx) (key ctx) in
  let line := operation_line ctx op in
  (op = GetObject ->
   (forall resp, srv (app log [line]) {| dav_method := GET; dav_path := path |} = Some resp ->
      onRequest parse presign btoa_error url_origin has_body request env srv log =
      (inr (Respond (read_reply ctx "WebDAV error: " (fun r => Some (body r)) resp) true),
       app log [line; Sent {| dav_method := GET; dav_path := path |}])) /\
   (srv (app log [line]) {| dav_method := GET; dav_path := path |} = None -> exists e,
      onRequest parse presign btoa_error url_origin has_body request env srv log =
      (inr (Respond (S3 (InternalError e)) false),
       app log [line; Sent {| dav_method := GET; dav_path := path |}; LoggedError ("Operation error: " ++ e)]))) /\
  (op = HeadObject ->
   (forall resp, srv (app log [line]) {| dav_method := HEAD; dav_path := path |} = Some resp ->
      onRequest parse presign btoa_error url_origin has_body request env srv log =
      (inr (Respond (read_reply ctx "WebDAV HEAD failed: " (fun _ => None) resp) true),
       app log [line; Sent {| dav_method := HEAD; dav_path := path |}])) /\
   (srv (app log [line]) {| dav_method := HEAD; dav_path := path |} = None -> exists e,
      onRequest parse presign btoa_error url_origin has_body request env srv log =
      (inr (Respond (S3 (InternalError e)) false),
       app log [line; Sent {| dav_method := HEAD; dav_path := path |}; LoggedError ("Operation error: " ++ e)]))).
Proof.
  intros C V L ctx op path line. split; intros Op.
  - assert (E := object_read_common _ _ srv log GET "WebDAV error: " (fun r => Some (body r)) _ handleGetObject C V L
                   Op ltac:(discriminate)).
    lapply E; [clear E; intros E|intros c s l; rewrite (handleS3Operation_latin1 _ _ _ L); reflexivity].
    lapply E; [clear E; intros E|].
    2:{ intros c s l. unfold handleGetObject, read_reply, get, bind, fetch.
        destruct (s l _) as [resp|]; [|reflexivity].
        destruct (ok resp); [reflexivity|]. destruct (status resp =? 404)%Z; reflexivity. }
    subst op. cbv zeta in E. fold ctx path in E. subst line. rewrite Op.
    split; [intros resp Q; rewrite E, Q; reflexivity|intros Q; exists "fetch failed"; rewrite E, Q; reflexivity].
  - assert (E := object_read_common _ _ srv log HEAD "WebDAV HEAD failed: " (fun _ => None) _ handleHeadObject C V L
                   Op ltac:(discriminate)).
    lapply E; [clear E; intros E|intros c s l; rewrite (handleS3Operation_latin1 _ _ _ L); reflexivity].
    lapply E; [clear E; intros E|].
    2:{ intros c s l. unfold handleHeadObject, read_reply, head, bind, fetch.
        destruct (s l _) as [resp|]; [|reflexivity].
        destruct (ok resp); [reflexivity|]. destruct (status resp =? 404)%Z; reflexivity. }
    subst op. cbv zeta in E. fold ctx path in E. subst line. rewrite Op.
    split; [intros resp Q; rewrite E, Q; reflexivity|intros Q; exists "fetch failed"; rewrite E, Q; reflexivity].
Qed.

(** X16: With WebDAV credentials that Basic authentication can carry, an
    authenticated HeadBucket prints the operation line, sends one depth-0
    PROPFIND of the bucket collection and nothing else, and answers, with
    CORS, 200 iff the server answers 2xx with a non-empty resource list,
    NoSuchBucket otherwise, never an InternalError; at most one error line
    follows the request. *)
Theorem onRequest_head_bucket (request : Request) (env : Env) srv log :
  Config.validateConfig env = inr tt ->
  Signature.verifySignature request env None = Signature.Valid ->
  latin1_credentials env = true ->
  snd (parseS3Request url_origin has_body request) = HeadBucket ->
  let ctx := fst (parseS3Request url_origin has_body request) in
  let bucketPath := if Js.truthy (Some (bucket ctx)) then bucket ctx ++ "/" else "/" in
  let req := {| dav_method := PROPFIND "0"; dav_path := bucketPath |} in
  let line := operation_line ctx HeadBucket in
  exists extra,
    onRequest parse presign btoa_error url_origin has_body request env srv log =
    (inr (Respond (if match srv (app log [line]) req with
                      | Some resp => ok resp && (0 <? length (parse (body resp) bucketPath))%nat
                      | None => false
                      end
                   then BucketOk else S3 (NoSuchBucket (bucket ctx))) true),
     app log (line :: Sent req :: extra)) /\
    length extra <= 1 /\ forall r, ~ In (Sent r) extra.
Proof.
  intros C V L Op ctx bucketPath req line.
  rewrite (onRequest_valid _ _ _ _ (not_options_of_op _ _ Op ltac:(discriminate)) C V).
  subst ctx bucketPath req line. destruct (parseS3Request url_origin has_body request) as [c op].
  simpl fst; simpl snd in Op. subst op.
  unfold bind at 1, emit at 1. unfold bind at 1, try_catch. rewrite (handleS3Operation_latin1 _ _ _ L).
  unfold handleHeadBucket, propfind, bind, try_catch, fetch, throw, emit, ret.
  set (bp := if Js.truthy (Some (bucket c)) then bucket c ++ "/" else "/").
  set (l1 := app log [operation_line c HeadBucket]).
  destruct (srv l1 _) as [resp|]; subst l1.
  - destruct (ok resp) eqn:Ok; cbn [negb andb].
    + destruct (0 <? length (parse (body resp) bp))%nat.
      * exists []. rewrite <- app_assoc. split; [reflexivity|split; [simpl; lia|tauto]].
      * exists []. rewrite <- app_assoc. split; [reflexivity|split; [simpl; lia|tauto]].
    + destruct (status resp =? 404)%Z.
      * exists []. rewrite <- app_assoc. split; [reflexivity|split; [simpl; lia|tauto]].
      * eexists. split; [rewrite <- !app_assoc; reflexivity|split; [simpl; lia|]]. intros r [Q|[]]; discriminate.
  - eexists. split; [rewrite <- !app_assoc; reflexivity|split; [simpl; lia|]]. intros r [Q|[]]; discriminate.
Qed.

(** X17: With WebDAV credentials that Basic authentication can carry, an
    authenticated request whose method is not GET, PUT, DELETE or HEAD gets
    MethodNotAllowed with the upper-cased method, with CORS; it prints only
    the operation line "S3 Unknown: ..." and sends no WebDAV request. *)
Theorem onRequest_method_not_allowed (request : Request) (env : Env) srv log :
  String.eqb (method request) "OPTIONS" = false ->
  Config.validateConfig env = inr tt ->
  Signature.verifySignature request env None = Signature.Valid ->
  latin1_credentials env = true ->
  snd (parseS3Request url_origin has_body request) = Unknown ->
  onRequest parse presign btoa_error url_origin has_body request env srv log =
  (inr (Respond (S3 (MethodNotAllowed (to_upper (method request)))) true),
   app log [operation_line (fst (parseS3Request url_origin has_body request)) Unknown]).
Proof.
  intros O C V L Op. rewrite (onRequest_valid _ _ _ _ O C V).
  destruct (parseS3Request url_origin has_body request) as [c op] eqn:P.
  simpl fst; simpl snd in Op. subst op.
  unfold bind at 1, emit at 1. unfold bind at 1, try_catch. rewrite (handleS3Operation_latin1 _ _ _ L).
  unfold parseS3Request in P. injection P as <- _. reflexivity.
Qed.

(** X23: When the WebDAV user name or password has a character above
    U+00FF, every authenticated request prints the operation line and the
    error of btoa, sends no WebDAV request, and is answered InternalError
    with that error's message, without CORS. *)
Theorem onRequest_non_latin1_credentials (request : Request) (env : Env) srv log :
  String.eqb (method request) "OPTIONS" = false ->
  Config.validateConfig env = inr tt ->
  Signature.verifySignature request env None = Signature.Valid ->
  latin1_credentials env = false ->
  let '(ctx, op) := parseS3Request url_origin has_body request in
  onRequest parse presign btoa_error url_origin has_body request env srv log =
  (inr (Respond (S3 (InternalError btoa_error)) false),
   app log [operation_line ctx op; LoggedError ("Operation error: " ++ btoa_error)]).
Proof.
  intros O C V L. rewrite (onRequest_valid _ _ _ _ O C V).
  destruct (parseS3Request url_origin has_body request) as [c op].
  unfold latin1_credentials in L.
  unfold bind, emit, try_catch, handleS3Operation, newWebDAVClient. rewrite L.
  unfold bind, throw, ret. rewrite <- app_assoc. reflexivity.
Qed.

Lemma checkSignature_not_valid request env p :
  Signature.checkSignature request env p <> Signature.Valid ->
  exists d, Signature.checkSignature request env p = Signature.Invalid "Signature mismatch" (Some d).
Proof.
  unfold Signature.checkSignature. destruct (negb _); [eauto|intros N; contradiction].
Qed.

(** X24: A request that is not a preflight, with a valid configuration,
    whose signature is computed and differs from the claimed one prints
    the 17 debug lines of verifySignature (canonical request, string to
    sign, expected and calculated signature) followed by the error line
    "Signature verification failed: Signature mismatch", sends no WebDAV
    request, and is answered the plain SignatureDoesNotMatch, without the
    debug values and without CORS. *)
Theorem onRequest_signature_mismatch (request : Request) (env : Env) srv log p :
  String.eqb (method request) "OPTIONS" = false ->
  Config.validateConfig env = inr tt ->
  Signature.prepare request env None = Signature.Continue p ->
  Signature.checkSignature request env p <> Signature.Valid ->
  exists d,
    Signature.checkSignature request env p = Signature.Invalid "Signature mismatch" (Some d) /\
    onRequest parse presign btoa_error url_origin has_body request env srv log =
    (inr (Respond (S3 SignatureDoesNotMatch) false),
     app log (app (map Logged (mismatch_debug_lines request p (Signature.dbg_calculatedSignature d)))
                  [LoggedError "Signature verification failed: Signature mismatch"])).
Proof.
  intros O C P N.
  destruct (checkSignature_not_valid _ _ _ N) as (d & K).
  exists d. split; [exact K|].
  unfold onRequest. rewrite O, C. cbv beta iota.
  unfold verifySignatureM at 1. rewrite P, K.
  unfold bind at 1 2. rewrite log_lines_run. cbv beta iota.
  unfold bind, emit, ret. rewrite <- app_assoc. reflexivity.
Qed.

End E.
End EntryFacts.

Module RoutingFacts.
Import Dav Operations Routing.

Section R.
Variable url_origin : string -> string.
Variable has_body : Request -> bool.

(** X18: parseS3Request never yields GetObjectStream or CreatePresignedGetUrl;
    it yields Unknown iff the upper-cased method is not GET, PUT, DELETE or
    HEAD, and a bucket operation iff the key is empty and the method is GET
    or HEAD. *)
Theorem parseS3Request_operation (request : Request) :
  let ctx := fst (parseS3Request url_origin has_body request) in
  let op := snd (parseS3Request url_origin has_body request) in
  let m := to_upper (method request) in
  op <> GetObjectStream /\ op <> CreatePresignedGetUrl /\
  (op = Unknown <-> ~ In m ["GET"; "PUT"; "DELETE"; "HEAD"]) /\
  (op = ListBucket \/ op = HeadBucket <-> key ctx = "" /\ In m ["GET"; "HEAD"]).
Proof.
  intros ctx op m. subst ctx op m. unfold parseS3Request. cbn [fst snd key].
  remember (to_upper (method request)) as m eqn:Em. remember (Js.join "/" (skipn 1 (pathParts (pathname request)))) as k eqn:Ek.
  assert (T : Js.truthy (Some k) = negb (String.eqb k "")) by reflexivity. rewrite T. clear T Em Ek.
  destruct (String.eqb_spec m "GET") as [->|G]; [|destruct (String.eqb_spec m "PUT") as [->|P]; [|
    destruct (String.eqb_spec m "DELETE") as [->|D]; [|destruct (String.eqb_spec m "HEAD") as [->|Hd]]]].
  - destruct (String.eqb_spec k "") as [->|K]; simpl; (split; [discriminate|split; [discriminate|]]);
    (split; [split; [discriminate|tauto]|]); split; intuition discriminate.
  - simpl; intuition discriminate.
  - simpl; intuition discriminate.
  - destruct (String.eqb_spec k "") as [->|K]; simpl; (split; [discriminate|split; [discriminate|]]);
    (split; [split; [discriminate|tauto]|]); split; intuition discriminate.
  - simpl. split; [discriminate|split; [discriminate|split]].
    + split; [intros _ [Q|[Q|[Q|[Q|[]]]]]; congruence|reflexivity].
    + split; [intros [Q|Q]; discriminate|intros (_ & [Q|[Q|[]]]); congruence].
Qed.

Lemma pathParts_nonempty p : Forall (fun s => s <> "") (pathParts p).
Proof.
  apply Forall_forall. intros x I. unfold pathParts in I. apply filter_In in I as [_ N].
  intros ->. discriminate.
Qed.

Lemma join_nonempty (l : list string) : Forall (fun s => s <> "") l -> l <> [] -> Js.join "/" l <> "".
Proof.
  intros F N. destruct l as [|x r]; [contradiction|]. inversion F; subst.
  destruct r as [|y r']; [assumption|]. simpl. destruct x; [contradiction|discriminate].
Qed.

(** X19: The WebDAV path of a request depends only on the non-empty segments of
    its pathname: / for none, bucket/ for one, and the segments joined by
    slashes otherwise. *)
Theorem parseS3Request_path (request : Request) :
  let ctx := fst (parseS3Request url_origin has_body request) in
  let parts := pathParts (pathname request) in
  buildWebDAVPath (bucket ctx) (key ctx) =
    match parts with [] => "/" | [b] => b ++ "/" | _ => Js.join "/" parts end /\
  (forall b ks, parts = b :: ks -> bucket ctx = b /\ key ctx = Js.join "/" ks).
Proof.
  intros ctx parts. subst ctx parts. unfold parseS3Request. cbn [fst bucket key].
  pose proof (pathParts_nonempty (pathname request)) as F.
  remember (pathParts (pathname request)) as parts eqn:Ep. clear Ep.
  split; [|intros b ks E; rewrite E; split; reflexivity].
  destruct parts as [|b ks]; [reflexivity|]. inversion F as [|? ? Nb Fks]; subst.
  unfold buildWebDAVPath. cbn [skipn]. apply String.eqb_neq in Nb. rewrite Nb.
  destruct ks as [|k ks']; [reflexivity|].
  assert (Nk : Js.join "/" (k :: ks') <> "") by (apply join_nonempty; [assumption|discriminate]).
  apply String.eqb_neq in Nk. rewrite Nk. reflexivity.
Qed.

Lemma split_free_app c x r : CodecSpec.free_of c x = true -> Js.split c (x ++ String c r) = x :: Js.split c r.
Proof.
  induction x as [|d x IH]; intros F; [simpl; rewrite Ascii.eqb_refl; reflexivity|].
  unfold CodecSpec.free_of in F. simpl in F. apply andb_true_iff in F as [F1 F2]. apply negb_true_iff in F1.
  cbn [String.append Js.split]. rewrite Ascii.eqb_sym, F1, IH by exact F2. reflexivity.
Qed.

Lemma split_free_one c x : CodecSpec.free_of c x = true -> Js.split c x = [x].
Proof.
  intros F. pose proof (split_free_app c x "" F) as E.
  induction x as [|d x IH]; [reflexivity|].
  unfold CodecSpec.free_of in F. simpl in F. apply andb_true_iff in F as [F1 F2]. apply negb_true_iff in F1.
  cbn [Js.split]. rewrite Ascii.eqb_sym, F1. rewrite IH; [reflexivity|exact F2|].
  apply split_free_app. exact F2.
Qed.

Lemma split_join c (parts : list string) :
  parts <> [] -> Forall (fun p => CodecSpec.free_of c p = true) parts ->
  Js.split c (Js.join (String c "") parts) = parts.
Proof.
  induction parts as [|x r IH]; intros N F; [contradiction|]. inversion F as [|? ? Fx Fr]; subst.
  destruct r as [|y r'].
  - apply split_free_one. exact Fx.
  - change (Js.join (String c "") (x :: y :: r')) with (x ++ String c (Js.join (String c "") (y :: r'))).
    rewrite split_free_app by exact Fx. rewrite IH by (discriminate || exact Fr). reflexivity.
Qed.

(** X20: Splitting the path /p1/.../pn into its non-empty segments gives back p1
    ... pn when each segment is non-empty and slash-free. *)
Theorem pathParts_join (parts : list string) :
  Forall (fun p => p <> "" /\ CodecSpec.free_of "/" p = true) parts ->
  pathParts ("/" ++ Js.join "/" parts) = parts.
Proof.
  intros F. unfold pathParts. destruct parts as [|x r]; [reflexivity|].
  change ("/" ++ Js.join "/" (x :: r)) with (String "/" (Js.join "/" (x :: r))).
  cbn [Js.split]. rewrite Ascii.eqb_refl. cbn [filter String.eqb negb].
  rewrite split_join by (discriminate || (eapply Forall_impl; [|exact F]; intros p [_ Q]; exact Q)).
  clear -F. induction F as [|p l [Np _] _ IH]; [reflexivity|].
  simpl. apply String.eqb_neq in Np. rewrite Np. simpl. rewrite IH. reflexivity.
Qed.

End R.
End RoutingFacts.

Module EnsureFacts.
Import Dav.

Lemma join_firstn_cons x l i : (1 <= i)%nat -> l <> [] ->
  Js.join "/" (firstn (S i) (x :: l)) = x ++ "/" ++ Js.join "/" (firstn i l).
Proof.
  intros I N. destruct i as [|i]; [lia|]. destruct l as [|y l]; [contradiction|]. reflexivity.
Qed.

Lemma ensureDirs_heads_ok (srv : Server) :
  (forall l p, exists resp, srv l {| dav_method := HEAD; dav_path := p |} = Some resp /\ ok resp = true) ->
  forall parts cur log,
  ensureDirs cur parts srv log =
  (inr tt, app log (map (fun i => Sent {| dav_method := HEAD;
                                         dav_path := cur ++ "/" ++ Js.join "/" (firstn i parts) ++ "/" |})
                      (seq 1 (length parts - 1)))).
Proof.
  intros Hsrv parts. induction parts as [|part rest IH]; intros cur log.
  - rewrite app_nil_r. reflexivity.
  - destruct rest as [|part2 rest'].
    + rewrite app_nil_r. reflexivity.
    + rewrite OperationsFacts.ensureDirs_cons. cbv zeta.
      destruct (Hsrv log ((cur ++ "/" ++ part) ++ "/")) as (resp & Sr & Ok).
      unfold bind at 1. unfold head. rewrite (OperationsFacts.fetch_answered _ _ _ _ Sr).
      unfold bind. rewrite Ok. unfold ret. rewrite IH.
      f_equal. rewrite <- app_assoc. f_equal.
      cbn [length]. rewrite !Nat.sub_succ, !Nat.sub_0_r.
      cbn [seq map app]. f_equal.
      * f_equal. f_equal. simpl. rewrite !SignatureFacts.append_assoc_str. reflexivity.
      * rewrite <- (seq_shift _ 1), map_map. apply map_ext_in. intros i Hi. apply in_seq in Hi.
        f_equal. f_equal. rewrite join_firstn_cons by (lia || discriminate).
        rewrite !SignatureFacts.append_assoc_str. reflexivity.
Qed.

(** X21: When every HEAD succeeds, ensureParentDirs sends only the HEADs of
    /p1/, /p1/p2/, ... up to the parent of the last segment, in order, and
    returns normally. *)
Theorem ensureParentDirs_heads_ok (path : string) (srv : Server) log :
  (forall l p, exists resp, srv l {| dav_method := HEAD; dav_path := p |} = Some resp /\ ok resp = true) ->
  ensureParentDirs path srv log =
  (inr tt, app log (map (fun d => Sent {| dav_method := HEAD; dav_path := d |})
                        (RoutingSpec.ancestor_dirs (Routing.pathParts path)))).
Proof.
  intros Hsrv. unfold ensureParentDirs. rewrite (ensureDirs_heads_ok srv Hsrv).
  unfold RoutingSpec.ancestor_dirs. rewrite map_map. reflexivity.
Qed.

End EnsureFacts.

(** ** Instances of the properties above on concrete inputs *)
Module XmlFacts.
Import CodecSpec.

Lemma after_skip p x y :
  free_of "<" x = true -> after (String "<" p) (x ++ y) = after (String "<" p) y.
Proof.
  induction x as [|a r IH]; intros F; [reflexivity|].
  unfold free_of in F. simpl in F. apply andb_true_iff in F as [A F].
  cbn -[Ascii.eqb]. rewrite Ascii.eqb_sym. destruct (Ascii.eqb a "<"); [discriminate|]. apply IH, F.
Qed.

Lemma after_none p x : free_of "<" x = true -> after (String "<" p) x = None.
Proof. intros F. rewrite <- (SignatureFacts.append_empty_r x), after_skip by exact F. reflexivity. Qed.

Lemma upto_lt_free x y : free_of "<" x = true -> upto_lt (x ++ String "<" y) = x.
Proof.
  induction x as [|a r IH]; intros F; [reflexivity|].
  unfold free_of in F. simpl in F. apply andb_true_iff in F as [A F].
  cbn -[Ascii.eqb]. destruct (Ascii.eqb a "<"); [discriminate|]. rewrite IH by exact F. reflexivity.
Qed.

Lemma escapeXml_free_lt s : free_of "<" (Xml.escapeXml s) = true.
Proof.
  unfold free_of. rewrite CodecFacts.escapeXml_flat. apply CodecFacts.flat_forall.
  intros c; destruct c as [[] [] [] [] [] [] [] []]; reflexivity.
Qed.

Lemma escapeXml_unescape s : xml_unescape (Xml.escapeXml s) = s.
Proof.
  rewrite CodecFacts.escapeXml_flat. apply CodecFacts.decode_flat_full;
    [reflexivity|apply CodecFacts.escapeXml_char_first|apply CodecFacts.escapeXml_char_nonempty].
Qed.

(** X22: in the error XML built by generateErrorXml, the text of the first
    Code element decodes to the code and that of the first Message element to
    the message; a Resource or RequestId element is present, with the given
    text, exactly when that argument is a non-empty string. *)
Theorem generateErrorXml_fields code message resource requestId :
  let xml := Xml.generateErrorXml code message resource requestId in
  element_text "Code" xml = Some code /\
  element_text "Message" xml = Some message /\
  element_text "Resource" xml =
    (if Js.truthy resource then Some (Signature.value resource) else None) /\
  element_text "RequestId" xml =
    (if Js.truthy requestId then Some (Signature.value requestId) else None).
Proof.
  cbv zeta. unfold Xml.generateErrorXml, element_text.
  pose proof (escapeXml_free_lt code) as Fc. pose proof (escapeXml_free_lt message) as Fm.
  pose proof (escapeXml_free_lt (Signature.value resource)) as Fr.
  pose proof (escapeXml_free_lt (Signature.value requestId)) as Fq.
  pose proof (escapeXml_unescape code) as Uc. pose proof (escapeXml_unescape message) as Um.
  pose proof (escapeXml_unescape (Signature.value resource)) as Ur.
  pose proof (escapeXml_unescape (Signature.value requestId)) as Uq.
  destruct (Js.truthy resource), (Js.truthy requestId);
  generalize dependent (Xml.escapeXml code); generalize dependent (Xml.escapeXml message);
  generalize dependent (Xml.escapeXml (Signature.value resource));
  generalize dependent (Xml.escapeXml (Signature.value requestId));
  intros eq Fq Uq er Fr Ur em Fm Um ec Fc Uc;
  repeat split; simpl; rewrite ?SignatureFacts.append_assoc_str;
  repeat (rewrite after_skip by assumption; simpl);
  rewrite ?upto_lt_free by assumption; congruence.
Qed.
End XmlFacts.

Module PresignVerifyExample.
Import Examples.
#[local] Existing Instance placeholder_host.






End PresignVerifyExample.

Module ExtraWitnesses.
Import Dav Operations Errors Routing Entry Examples EntryExamples CodecSpec SignatureSpec.
#[local] Existing Instance placeholder_host.

Lemma parseAuthorizationHeader_roundtrip_witness :
  Signature.parseAuthorizationHeader
    "AWS4-HMAC-SHA256 Credential=AK/20200101/us-east-1/s3/aws4_request, SignedHeaders=host;x-amz-date, Signature=0123abcd" =
  Some {| Signature.algorithm := "AWS4-HMAC-SHA256";
          Signature.credential := "AK/20200101/us-east-1/s3/aws4_request";
          Signature.signedHeaders := ["host"; "x-amz-date"]; Signature.signature := "0123abcd";
          Signature.accessKeyId := "AK"; Signature.dateStamp := "20200101";
          Signature.region := "us-east-1"; Signature.service := "s3" |}.
Proof.
  apply (SignatureExtraFacts.parseAuthorizationHeader_roundtrip
           "AK" "20200101" "us-east-1" "s3" "aws4_request" "host;x-amz-date" "0123abcd");
    (reflexivity || discriminate).
Defined.

Lemma presign_amz_date_witness :
  let amzDate := Presign.remove_millis (Presign.remove_dash_colon "2024-01-02T03:04:05.678Z") in
  amzDate = "20240102T030405Z" /\ substring 0 8 amzDate = "20240102" /\ aws_basic_format amzDate = true.
Proof.
  apply (SignatureExtraFacts.presign_amz_date "2024" "01" "02" "03" "04" "05" "678"). reflexivity.
Defined.

Lemma getFilenameFromHref_last_witness :
  free_of "/" (Parser.getFilenameFromHref "/dav/b/") = true /\
  Parser.getFilenameFromHref "/dav/b/f.txt" = "f.txt" /\
  Parser.getFilenameFromHref "/dav/b/f.txt/" = "f.txt".
Proof.
  destruct (ParserFacts.getFilenameFromHref_last "/dav/b" "f.txt" "/dav/b/") as [A B].
  split; [exact A|]. apply B; [discriminate|reflexivity].
Defined.

Lemma onRequest_access_key_classification_witness :
  String.eqb (method (signed_request "GET" "/b/k")) "OPTIONS" = false /\
  Config.validateConfig other_key_env = inr tt /\
  fst (onRequest two_files_parser no_presign btoa_failure origin_of no_body (signed_request "GET" "/b/k")
         other_key_env (constant_server 200) []) = inr (Respond (S3 InvalidAccessKeyId) false) /\
  fst (onRequest two_files_parser no_presign btoa_failure origin_of no_body (example_request "GET" "/b/k" "0")
         sample_env (constant_server 200) []) = inr (Respond (S3 SignatureDoesNotMatch) false).
Proof.
  split; [reflexivity|split; [vm_compute; reflexivity|split]].
  - apply (EntryFacts.onRequest_access_key_classification two_files_parser no_presign btoa_failure origin_of
             no_body (signed_request "GET" "/b/k") other_key_env (constant_server 200) []);
      [reflexivity|vm_compute; reflexivity|reflexivity|reflexivity|].
    case_eq (Signature.parseAuthorizationHeader
               (Signature.value (header_lookup (headers (signed_request "GET" "/b/k")) "Authorization"))).
    + intros c P. exists c. split; [vm_compute; reflexivity|split; [reflexivity|]].
      vm_compute in P. injection P as <-. discriminate.
    + intros P. vm_compute in P. discriminate.
  - apply (EntryFacts.onRequest_access_key_classification two_files_parser no_presign btoa_failure origin_of
             no_body (example_request "GET" "/b/k" "0") sample_env (constant_server 200) []);
      [reflexivity|vm_compute; reflexivity|reflexivity|reflexivity|].
    case_eq (Signature.verifySignature (example_request "GET" "/b/k" "0") sample_env None).
    + intros V. vm_compute in V. discriminate.
    + intros e d V. exists e, d. split; [reflexivity|].
      vm_compute in V. injection V as <- _. discriminate.
    + intros e V. vm_compute in V. discriminate.
Defined.

Lemma onRequest_no_traffic_unless_authenticated_witness :
  Signature.verifySignature (example_request "GET" "/b/k" "0") sample_env None <> Signature.Valid /\
  exists extra,
    snd (onRequest two_files_parser no_presign btoa_failure origin_of no_body (example_request "GET" "/b/k" "0")
           sample_env (constant_server 200) []) = app [] extra /\
    (forall r, ~ In (Sent r) extra) /\
    (fst (onRequest two_files_parser no_presign btoa_failure origin_of no_body
            (example_request "GET" "/b/k" "0") sample_env (constant_server 200) []) = inr Preflight \/
     (exists resp, fst (onRequest two_files_parser no_presign btoa_failure origin_of no_body
                          (example_request "GET" "/b/k" "0") sample_env (constant_server 200) []) =
                     inr (Respond (S3 resp) false)) \/
     exists e, fst (onRequest two_files_parser no_presign btoa_failure origin_of no_body
                      (example_request "GET" "/b/k" "0") sample_env (constant_server 200) []) = inl e).
Proof.
  assert (N : Signature.verifySignature (example_request "GET" "/b/k" "0") sample_env None <> Signature.Valid)
    by (vm_compute; discriminate).
  split; [exact N|].
  apply (EntryFacts.onRequest_no_traffic_unless_authenticated two_files_parser no_presign btoa_failure
           origin_of no_body (example_request "GET" "/b/k" "0") sample_env (constant_server 200) []).
  right. right. exact N.
Defined.

Lemma onRequest_object_read_witness :
  Config.validateConfig sample_env = inr tt /\
  Signature.verifySignature (signed_request "GET" "/b/k") sample_env None = Signature.Valid /\
  EntrySpec.latin1_credentials sample_env = true /\
  onRequest two_files_parser no_presign btoa_failure origin_of no_body (signed_request "GET" "/b/k") sample_env
    (constant_server 200) [] =
  (inr (Respond (ObjectOk (Some "")) true),
   [EntrySpec.operation_line (fst (parseS3Request origin_of no_body (signed_request "GET" "/b/k"))) GetObject;
    Sent {| dav_method := GET; dav_path := "b/k" |}]).
Proof.
  assert (C : Config.validateConfig sample_env = inr tt) by (vm_compute; reflexivity).
  assert (V : Signature.verifySignature (signed_request "GET" "/b/k") sample_env None = Signature.Valid)
    by (vm_compute; reflexivity).
  assert (L : EntrySpec.latin1_credentials sample_env = true) by (vm_compute; reflexivity).
  split; [exact C|split; [exact V|split; [exact L|]]].
  destruct (EntryFacts.onRequest_object_read two_files_parser no_presign btoa_failure origin_of no_body
              (signed_request "GET" "/b/k") sample_env (constant_server 200) [] C V L) as [[G _] _].
  - vm_compute. reflexivity.
  - rewrite (G {| status := 200; body := "" |}) by (vm_compute; reflexivity). vm_compute. reflexivity.
Defined.

Lemma onRequest_head_bucket_witness :
  Config.validateConfig sample_env = inr tt /\
  Signature.verifySignature (signed_request "HEAD" "/b") sample_env None = Signature.Valid /\
  EntrySpec.latin1_credentials sample_env = true /\
  snd (parseS3Request origin_of no_body (signed_request "HEAD" "/b")) = HeadBucket /\
  fst (onRequest two_files_parser no_presign btoa_failure origin_of no_body (signed_request "HEAD" "/b")
         sample_env (constant_server 207) []) = inr (Respond BucketOk true).
Proof.
  assert (C : Config.validateConfig sample_env = inr tt) by (vm_compute; reflexivity).
  assert (V : Signature.verifySignature (signed_request "HEAD" "/b") sample_env None = Signature.Valid)
    by (vm_compute; reflexivity).
  assert (L : EntrySpec.latin1_credentials sample_env = true) by (vm_compute; reflexivity).
  assert (Op : snd (parseS3Request origin_of no_body (signed_request "HEAD" "/b")) = HeadBucket)
    by (vm_compute; reflexivity).
  split; [exact C|split; [exact V|split; [exact L|split; [exact Op|]]]].
  destruct (EntryFacts.onRequest_head_bucket two_files_parser no_presign btoa_failure origin_of no_body
              (signed_request "HEAD" "/b") sample_env (constant_server 207) [] C V L Op) as (extra & E & _).
  rewrite E. vm_compute. reflexivity.
Defined.

Lemma onRequest_method_not_allowed_witness :
  Signature.verifySignature (signed_request "post" "/b/k") sample_env None = Signature.Valid /\
  onRequest two_files_parser no_presign btoa_failure origin_of no_body (signed_request "post" "/b/k") sample_env
    (constant_server 200) [] =
  (inr (Respond (S3 (MethodNotAllowed "POST")) true),
   [EntrySpec.operation_line (fst (parseS3Request origin_of no_body (signed_request "post" "/b/k"))) Unknown]).
Proof.
  assert (V : Signature.verifySignature (signed_request "post" "/b/k") sample_env None = Signature.Valid)
    by (vm_compute; reflexivity).
  split; [exact V|].
  rewrite (EntryFacts.onRequest_method_not_allowed two_files_parser no_presign btoa_failure origin_of no_body
             (signed_request "post" "/b/k") sample_env (constant_server 200) []);
    [reflexivity|reflexivity|vm_compute; reflexivity|exact V|vm_compute; reflexivity|vm_compute; reflexivity].
Defined.

Lemma onRequest_non_latin1_credentials_witness :
  Config.validateConfig euro_password_env = inr tt /\
  Signature.verifySignature (signed_request "GET" "/b/k") euro_password_env None = Signature.Valid /\
  EntrySpec.latin1_credentials euro_password_env = false /\
  onRequest two_files_parser no_presign btoa_failure origin_of no_body (signed_request "GET" "/b/k")
    euro_password_env (constant_server 200) [] =
  (inr (Respond (S3 (InternalError btoa_failure)) false),
   [EntrySpec.operation_line (fst (parseS3Request origin_of no_body (signed_request "GET" "/b/k"))) GetObject;
    LoggedError ("Operation error: " ++ btoa_failure)]).
Proof.
  assert (C : Config.validateConfig euro_password_env = inr tt) by (vm_compute; reflexivity).
  assert (V : Signature.verifySignature (signed_request "GET" "/b/k") euro_password_env None = Signature.Valid)
    by (vm_compute; reflexivity).
  assert (L : EntrySpec.latin1_credentials euro_password_env = false) by (vm_compute; reflexivity).
  split; [exact C|split; [exact V|split; [exact L|]]].
  pose proof (EntryFacts.onRequest_non_latin1_credentials two_files_parser no_presign btoa_failure origin_of
                no_body (signed_request "GET" "/b/k") euro_password_env (constant_server 200) []
                ltac:(reflexivity) C V L) as E.
  destruct (parseS3Request origin_of no_body (signed_request "GET" "/b/k")) as [c op] eqn:P.
  assert (Op : op = GetObject) by (vm_compute in P; injection P as _ Q; auto).
  subst op. exact E.
Defined.

Lemma onRequest_signature_mismatch_witness :
  exists p d,
    Signature.prepare (example_request "GET" "/b/k" "0") sample_env None = Signature.Continue p /\
    onRequest two_files_parser no_presign btoa_failure origin_of no_body (example_request "GET" "/b/k" "0")
      sample_env (constant_server 200) [] =
    (inr (Respond (S3 SignatureDoesNotMatch) false),
     app (map Logged (mismatch_debug_lines (example_request "GET" "/b/k" "0") p
                        (Signature.dbg_calculatedSignature d)))
         [LoggedError "Signature verification failed: Signature mismatch"]).
Proof.
  case_eq (Signature.prepare (example_request "GET" "/b/k" "0") sample_env None).
  - intros p P. exists p.
    destruct (EntryFacts.onRequest_signature_mismatch two_files_parser no_presign btoa_failure origin_of no_body
                (example_request "GET" "/b/k" "0") sample_env (constant_server 200) [] p)
      as (d & _ & E).
    + reflexivity.
    + vm_compute. reflexivity.
    + exact P.
    + vm_compute in P. injection P as <-. vm_compute. discriminate.
    + exists d. split; [reflexivity|exact E].
  - intros r P. vm_compute in P. discriminate.
Defined.

Lemma pathParts_join_witness :
  pathParts ("/" ++ Js.join "/" ["b"; "d"; "f.txt"]) = ["b"; "d"; "f.txt"].
Proof.
  apply RoutingFacts.pathParts_join.
  repeat constructor; (discriminate || reflexivity).
Defined.

Lemma ensureParentDirs_heads_ok_witness :
  ensureParentDirs "b/d/f.txt" (constant_server 200) [] =
  (inr tt, [Sent {| dav_method := HEAD; dav_path := "/b/" |}; Sent {| dav_method := HEAD; dav_path := "/b/d/" |}]).
Proof.
  rewrite (EnsureFacts.ensureParentDirs_heads_ok "b/d/f.txt" (constant_server 200) []).
  - vm_compute. reflexivity.
  - intros l p. exists {| status := 200; body := "" |}. split; reflexivity.
Defined.

End ExtraWitnesses.
